(* ===== verification/_CoqProject ===== *)
-Q . S2P
Prelude.v
PyStr.v
PyIO.v
Lines.v
Output.v
Splice.v
FixBrowse.v
FixUpload.v
PyRe.v
PySub.v
UpdateGui.v
BrowseLoop.v
Safety.v
Report.v
