(* ===== verification/Prelude.v ===== *)
(** * A verification development of the MATLAB-patching scripts

    The repository ships three Python scripts that patch the MATLAB GUI
    application [matlab-main/EEGQualityAnalyzer/EEGQualityAnalyzer.m] by
    grafting function blocks taken from
    [matlab-main/JuanAnalyzerManual/JuanAnalyzer.m]:

    - [src/fix_upload_panel.py]: reads both files as line lists, cuts the
      fixed donor range [juan_lines[105:188]], rewrites two literal titles
      with [str.replace], re-splits the text on ['\n'] (dropping empty
      pieces) and splices it over the fixed destination range [157:352],
      followed by one blank line;
    - [src/fix_browse_function.py]: scans the destination lines for the
      first line containing [function browseFile(app)] and the first line
      containing [function detectMarkersFromField(app)] (the loop breaks
      there), and replaces the half-open range between them by a constant
      block; a missing marker makes [None + 1] raise [TypeError] in the
      progress [print] before anything is written;
    - [src/update_gui_workflow.py]: six [re.sub] / [re.search] steps over
      the whole destination text (property list, data properties, and the
      functions [createUploadPanel], [selectEventsManually], [browseFile]
      and the stage-6 block of [processEEG]), then one write.

    The spec ([spec.md]) generalises these scripts into a "block splicer":
    locate (marker scan), extract (slice and join), rewrite (ordered
    substitutions), splice ([doc[:start] + new + doc[end:]]).

    ** Files of the development (in dependency order)

    - [Prelude.v] (this file): the [py_scope] notations, the Python
      exception type [exc], the file store [FS] (a [gmap] from paths to
      texts), the state-and-exception monad [PyM] the scripts run in
      ([pret], [pbind], [praise]), the hint databases [pyspec] and
      [pyrw], the development's Ltac and the list lemmas the components
      share.
    - [PyStr.v], [Module PyStr]: the [str] and [list] built-ins the
      scripts call ([in], [str.replace], [str.split], [str.strip],
      slicing, [readlines], [''.join]).
    - [PyIO.v], [Module PyIO]: [open]/[read]/[readlines]/[write]/
      [writelines] in text mode as [PyM] operations on the store, with
      universal-newline translation on read; the two paths.
    - [Lines.v], [Module Lines]: well-formed line documents ([doc_ok]:
      every element one line, all but the last ending with ['\n']), on
      which [readlines] undoes [''.join]; the facts about reading back a
      file written with [f.writelines].
    - [Output.v], [Module Output]: standard output.  The monad [PyW]
      adds to [PyM] the list of printed messages ([print]); [lift] and
      [of_sum] embed store operations and pure steps; [result] and
      [output] read a run; [str_of_nat] is the f-string rendering of an
      [int] ([Nat.to_uint] digits).
    - [Splice.v], [Module Splice]: the spec's block splicer ([locate],
      [extract], [rewrite], [splice]) as an abstract specification, with
      markers behind the [Marker] class.  Not code: the contract the two
      line-based scripts are refined against.
    - [FixBrowse.v], [Module FixBrowse]: [src/fix_browse_function.py];
      the loop of lines 12-17 as [scan_body]/[scan] on a [scan_state]
      record holding its two variables, the whole script as
      [fix_browse_function].
    - [FixUpload.v], [Module FixUpload]: [src/fix_upload_panel.py]; the
      new line list as [new_lines], the script as [fix_upload_panel].
    - [PyRe.v], [Module PyRe]: the part of Python's [re] the third script
      uses: pattern syntax, parser [compile], backtracking matcher [mtch],
      [search_from], and a declarative semantics [accepts] for which the
      matcher is sound.
    - [PySub.v], [Module PySub]: replacement templates
      ([parse_template], [expand]) and the [re.sub] loop ([sub_loop],
      [py_sub]).
    - [UpdateGui.v], [Module UpdateGui]: [src/update_gui_workflow.py];
      the script's constants verbatim, [step1] .. [step6], [pipeline] and
      [update_gui_workflow].
    - [BrowseLoop.v], [Module BrowseLoop]: the loop of
      [fix_browse_function.py] (lines 12-17) as a transition system
      [loop_step] on configurations [config], next to the [Fixpoint]
      [scan] of [FixBrowse.v] that it is proved equal to.
    - [Safety.v], [Module Safety]: the predicates [read_only],
      [writes_within] and [all_or_nothing] on [PyM] programs, closed under
      [pbind] (hints of [pyspec]), and the safety of the three scripts.
    - [Report.v], [Module Report]: the three scripts as they run, with
      every [print] where the source has it: [fix_browse_main],
      [fix_upload_main] and [update_gui_main] (the steps after the reads
      are [update_gui_body]), the messages they print, and the full
      transcript [update_gui_transcript] of a successful run.

    The three scripts share no state: each is a [PyM unit] program that
    reads the files it needs from the store and writes the destination
    once; with its progress reports it is a [PyW unit] program of
    [Report.v] made of the same store operations with the [print]s in
    between.  They interact only through the file they all patch.

    ** What the theorems show

    - The two line-based scripts: the exact text written when the markers
      or ranges are found ([fix_browse_writes], [fix_upload_run]); no
      write and the exception raised otherwise ([fix_browse_no_write]);
      refinement of the spec's [locate]/[extract]/[rewrite]/[splice]
      ([fix_browse_refines_splice], [fix_upload_refines_splice]); and
      where the code departs from the spec: stop marker searched from
      line 0, so that a stop marker before the start line makes the script
      fail where [locate] succeeds ([fix_browse_order_divergence]), blank
      lines dropped ([relines_drops_blank]; the re-split gives back
      well-formed lines, [relines_lines_text]), hard-coded ranges not
      checked, wrong removed-line count.  Reading back what [fix_browse_function.py]
      writes gives, line for line, the spec's [splice] document
      ([fix_browse_reread]), and the script is idempotent: a second run
      writes the same store back ([fix_browse_idempotent]).  A short
      destination without a final newline gets the first line of the
      block glued onto its last line ([fix_upload_glued_line]).
    - The regular-expression script: steps 3 and 5 pass [re.DOTALL] as
      the [count] argument, so on functions spanning several lines they
      replace nothing ([step3_dotall_as_count], [step5_dotall_as_count]);
      step 4 inserts before every [startProcessing] ([step4_inserts]),
      again on its own output ([step4_not_idempotent]), but uses donor
      code as a template: a donor escape becomes its character or raises
      ([step4_donor_escapes]); a missing block is skipped silently and
      the file is still written ([update_gui_nothing_found]); the only
      exceptions are those of invalid donor templates
      ([pipeline_errors]).  Each step is characterised as a left-to-right
      substitution: step 1 and step 6 replace the chains of literals
      joined by [.*?] ([step1_replaces], [step6_replaces]; the lazy gaps
      cross lines and other code, and step 6 turns the [\n] inside MATLAB
      strings into line breaks); step 2 inserts the
      two properties after each [EventInfo ... struct] ([step2_inserts]);
      the donor searches of steps 3-5 take the first chain match
      ([donor_functions]).
    - Progress reports: [fix_browse_function.py] prints nothing, or only the start line,
      before its [TypeError], and otherwise the 1-based line numbers and
      a removed count that is exact ([fix_browse_report]);
      [fix_upload_panel.py] always reports 195 removed lines, which is
      right only for destinations of at least 352 lines, and one line
      fewer than it inserts ([fix_upload_report]);
      [update_gui_workflow.py] prints a prefix of its transcript, the
      whole of it (the list of changes included) exactly when it
      succeeds, and stops after the header of the step that raised
      ([update_gui_report]).
    - Safety: each script writes no file but the destination, and an
      exception leaves the store as it was ([fix_browse_safe],
      [fix_upload_safe], [update_gui_safe]).
    - The marker loop: an invariant of every reachable configuration
      ([loop_invariant], by induction on [rtc loop_step]) and termination
      after exactly [stop_cut lines] iterations (one past the first stop
      line, or one per line), with the first start line visited and the
      first stop line in the loop variables ([loop_terminates]).
    - The Python model itself: [re.sub] with a literal
      pattern and a plain replacement is [str.replace]
      ([py_sub_literal_nobs]); [compile] numbers the groups 1..g in
      the order of their parentheses ([compile_groups]); [re.sub] on a
      pattern with one possible match per position is the reference scan
      [tok_sub] ([sub_loop_det]), and under [re.DOTALL] a chain
      [l0.*?l1...] matches along the first occurrences of its literals
      ([mtch_chain]); [str.strip] removes exactly the
      surrounding whitespace ([strip_spec]); [readlines] after [''.join]
      is the identity on well-formed documents ([readlines_join]), and
      [''.join] after reading in text mode gives the file back exactly
      when it has no CR line ends ([text_lines_roundtrip]).

    ** Fuel

    [compile] recurses on the pattern with fuel [3 * length pat + 3]:
    an alternation calls a sequence on the same text, a sequence an atom
    on the same text and itself on a shorter one, an atom an alternation
    on a shorter one, so [3 * length + 3], [+ 2] and [+ 1] bound the
    three parsers; [compile_fuel_enough] proves that any larger fuel
    gives the same result, so no pattern is rejected for lack of fuel.  [sub_loop] runs with
    fuel [sub_fuel s = 2 * length s + 2]: every iteration either advances
    through the text or follows an empty match with a step that must
    advance, so [sub_measure] decreases; [sub_fuel_enough] proves that
    any larger fuel gives the same result, so the fuel never cuts the
    substitution short.  The matcher [mtch] and the scans are structural.

    ** Representation

    Text is [list ascii]: Python [str] values are sequences of code
    points, and every literal the scripts write to a file is ASCII (the
    messages with a non-ASCII check mark are only printed).  Line and character indices are [nat]:
    the scripts only use non-negative constants and loop counters, and
    the one subtraction they print, [detect_markers_start - browse_start],
    is proved never to go below zero.  Printed messages are texts too;
    the character U+2705 of the scripts' messages is written as its
    UTF-8 bytes, standard output being assumed to be UTF-8.

    ** Not modelled

    - the MATLAB files themselves: they are not part of the repository
      and are treated as opaque texts;
    - the parts of [re] no script uses: character sets [[..]], anchors,
      backreferences in patterns, lookarounds, named groups (a [\g<name>]
      reference is treated as an unknown group), [re.IGNORECASE] and the
      other flags, and the compiled-pattern cache;
    - code points above 255 (no literal of the scripts has one).
*)

From Stdlib Require Export Ascii.
From Stdlib Require String.
From stdpp Require Export base list strings gmap.


(** Texts are lists of characters; [str] is an abbreviation so that all of
    stdpp's list lemmas apply without unfolding. *)
Abbreviation str := (list ascii).

(** The line feed ['\n'] and carriage return ['\r'] characters. *)
Definition LF : ascii := Ascii.ascii_of_nat 10.
Definition CR : ascii := Ascii.ascii_of_nat 13.

(** A text literal written as a Rocq string. *)
Abbreviation txt s := (String.list_ascii_of_string s%string).

(** ** Python exceptions raised by the scripts *)
Inductive exc : Type :=
  | FileNotFoundError (path : string)
  | TypeError
  | IndexError
  | ReError.

(** ** The file store the scripts read and write *)
Abbreviation FS := (gmap string str).

(** ** The state-and-exception monad of a Python script run

    A computation takes the file store and returns either an exception or
    a value, together with the store at that point: as in Python, an
    exception does not undo the writes made before it. *)
Definition PyM (A : Type) : Type := FS -> (exc + A) * FS.

Definition pret {A} (x : A) : PyM A := fun fs => (inr x, fs).

Definition pbind {A B} (m : PyM A) (k : A -> PyM B) : PyM B :=
  fun fs => match m fs with
            | (inl e, fs') => (inl e, fs')
            | (inr x, fs') => k x fs'
            end.

Definition praise {A} (e : exc) : PyM A := fun fs => (inl e, fs).

Declare Scope py_scope.
Delimit Scope py_scope with py.

Module PyNotations.
  Notation "x <- m ;; k" := (pbind m (fun x => k))
    (at level 100, m at next level, right associativity) : py_scope.
  Notation "m ;;; k" := (pbind m (fun _ => k))
    (at level 100, right associativity) : py_scope.
End PyNotations.

Create HintDb pyspec discriminated.
Create Rewrite HintDb pyrw.

(** Monad laws of [PyM], used to normalise script runs. *)
Lemma pbind_pret {A B} (x : A) (k : A -> PyM B) fs :
  pbind (pret x) k fs = k x fs.
Proof. reflexivity. Qed.

Lemma pbind_praise {A B} (e : exc) (k : A -> PyM B) fs :
  pbind (praise e) k fs = (inl e, fs).
Proof. reflexivity. Qed.

Lemma pbind_assoc {A B C} (m : PyM A) (k : A -> PyM B) (h : B -> PyM C) fs :
  pbind (pbind m k) h fs = pbind m (fun x => pbind (k x) h) fs.
Proof. unfold pbind. destruct (m fs) as [[e|x] fs']; reflexivity. Qed.

#[export] Hint Rewrite @pbind_pret @pbind_praise @pbind_assoc : pyrw.

(** ** Development tactics *)

(** Invert a hypothesis and clean up. *)
Ltac invc H := inversion H; subst; clear H.

(** Normalise a monadic run: unfold the combinators and reduce. *)
Ltac py_run := autorewrite with pyrw; cbn [pbind pret praise].

(** ** Generic list lemmas shared by the components *)

Section ListFacts.
Context {A : Type}.
Implicit Types l k : list A.

(** Splicing the slices of a list back around its own middle gives it back. *)
Lemma take_slice_drop l i j :
  i <= j -> take i l ++ take (j - i) (drop i l) ++ drop j l = l.
Proof.
  intros Hij. rewrite <- (take_drop i l) at 4.
  f_equal. rewrite <- (take_drop (j - i) (drop i l)) at 2.
  f_equal. rewrite drop_drop. f_equal. lia.
Qed.

(** The prefix kept by [take i] is untouched by whatever follows it. *)
Lemma take_app_prefix l k m i :
  i <= length l -> take i (take i l ++ k ++ m) = take i l.
Proof.
  intros Hi. rewrite take_app_length'; [done|]. rewrite length_take. lia.
Qed.

(** Length of a splice of a list at [i], [j]. *)
Lemma length_splice l k i j :
  i <= j <= length l ->
  length (take i l ++ k ++ drop j l) = length l - (j - i) + length k.
Proof.
  intros Hij. rewrite !length_app, length_take, length_drop. lia.
Qed.
(** Concatenating around one inserted element. *)
Lemma concat_app_singleton (a b : list (list A)) x :
  concat (a ++ [x] ++ b) = concat a ++ x ++ concat b.
Proof. rewrite !concat_app. simpl. by rewrite app_nil_r. Qed.
End ListFacts.

#[export] Hint Resolve take_slice_drop : pyspec.
