(* ===== verification/PyStr.v ===== *)
(** * Python [str] and [list] operations used by the scripts

    Each definition is the semantics of one built-in the scripts call on a
    text ([list ascii], the [ascii] values read as the code points 0-255):
    the [startswith] prefix test behind [in] and [re] literals, the [in]
    substring test ([str.__contains__]), [str.replace] (all leftmost,
    non-overlapping occurrences), [str.split] on a one-character
    separator, [str.strip] with Python's whitespace class, list slicing,
    [''.join] and [readlines].  The lemmas are the facts the scripts'
    proofs rely on: reflection of the boolean tests, the defining
    equations of [replace], the split/join round trip, and the
    readlines/join round trip. *)

From S2P Require Import Prelude.

Module PyStr.

(** ** Prefix and substring tests *)

(** [s.startswith(p)]. *)
Fixpoint startswith (p s : str) : bool :=
  match p, s with
  | [], _ => true
  | c :: p', d :: s' => Ascii.eqb c d && startswith p' s'
  | _ :: _, [] => false
  end.

(** [sub in s]: some suffix of [s] starts with [sub]. *)
Fixpoint contains (sub s : str) : bool :=
  startswith sub s ||
  match s with
  | [] => false
  | _ :: s' => contains sub s'
  end.

(** ** [str.replace(old, new)] *)

(** The scan behind [str.replace] for a non-empty [old]: at each position
    not covered by the previous occurrence ([skip] counts the characters
    of that occurrence still to pass), an occurrence of [old] is replaced
    by [new]; other characters are copied. *)
Fixpoint replace_scan (old new : str) (skip : nat) (s : str) : str :=
  match s with
  | [] => []
  | c :: s' =>
      match skip with
      | S k => replace_scan old new k s'
      | O =>
          if startswith old (c :: s')
          then new ++ replace_scan old new (pred (length old)) s'
          else c :: replace_scan old new 0 s'
      end
  end.

(** [s.replace(old, new)]; an empty [old] inserts [new] before every
    character and at the end, as CPython does. *)
Definition replace (old new s : str) : str :=
  match old with
  | [] => new ++ concat (map (fun c => [c] ++ new) s)
  | _ :: _ => replace_scan old new 0 s
  end.

(** ** [str.split(sep)] for a one-character separator *)
Fixpoint split_char (sep : ascii) (s : str) : list str :=
  match s with
  | [] => [[]]
  | d :: s' =>
      let r := split_char sep s' in
      if Ascii.eqb d sep then [] :: r
      else match r with
           | [] => [[d]]
           | w :: ws => (d :: w) :: ws
           end
  end.

(** [sep.join(ws)] for a one-character separator. *)
Fixpoint join_char (sep : ascii) (ws : list str) : str :=
  match ws with
  | [] => []
  | [w] => w
  | w :: ws' => w ++ sep :: join_char sep ws'
  end.

(** ** [str.strip()] *)

(** [c.isspace()] on the code points 0-255: [\t \n \v \f \r], the
    separators [\x1c]-[\x1f], space, [\x85] and [\xa0]. *)
Definition isspace (c : ascii) : bool :=
  match Ascii.nat_of_ascii c with
  | 9 | 10 | 11 | 12 | 13 | 28 | 29 | 30 | 31 | 32 | 133 | 160 => true
  | _ => false
  end.

Fixpoint lstrip (s : str) : str :=
  match s with
  | c :: s' => if isspace c then lstrip s' else s
  | [] => []
  end.

Definition rstrip (s : str) : str := rev (lstrip (rev s)).

Definition strip (s : str) : str := rstrip (lstrip s).

(** [s.find(l)] when it is not [-1]: the index of the first occurrence. *)
Fixpoint find_sub (l s : str) : option nat :=
  if startswith l s then Some 0
  else match s with
       | [] => None
       | _ :: s' => S <$> find_sub l s'
       end.

(** The length of the longest prefix of [s] whose characters satisfy [p]. *)
Fixpoint span_len (p : ascii -> bool) (s : str) : nat :=
  match s with
  | c :: s' => if p c then S (span_len p s') else 0
  | [] => 0
  end.

(** ** Lists of lines *)

(** [l[i:j]] for non-negative [i], [j] (Python clamps out-of-range
    bounds, as [take] and [drop] do). *)
Definition slice {A} (i j : nat) (l : list A) : list A := take (j - i) (drop i l).

(** [f.readlines()] on a text opened in text mode: the text is cut after
    every ['\n']; the last line has no terminator when the text does not
    end with one. *)
Fixpoint readlines (s : str) : list str :=
  match s with
  | [] => []
  | c :: s' =>
      if Ascii.eqb c LF then [c] :: readlines s'
      else match readlines s' with
           | [] => [[c]]
           | l :: ls => (c :: l) :: ls
           end
  end.

(** [''.join(lines)] and [f.writelines(lines)]: plain concatenation. *)
Definition join (lines : list str) : str := concat lines.

(** * Lemmas *)

Lemma startswith_spec p s : startswith p s = true <-> p `prefix_of` s.
Proof.
  revert s. induction p as [|c p IH]; intros [|d s]; simpl.
  - split; [intros _; apply prefix_nil | done].
  - split; [intros _; apply prefix_nil | done].
  - split; [done | intros H; by apply prefix_nil_not in H].
  - rewrite andb_true_iff, IH, Ascii.eqb_eq. split.
    + intros [-> H]. by apply prefix_cons.
    + intros H. pose proof (prefix_cons_inv_1 _ _ _ _ H).
      subst. split; [done | by eapply prefix_cons_inv_2].
Qed.

Lemma contains_spec sub s :
  contains sub s = true <-> exists a b, s = a ++ sub ++ b.
Proof.
  induction s as [|c s IH]; simpl; rewrite orb_true_iff, startswith_spec.
  - split.
    + intros [[b Hb] | ?]; [by exists [], b | done].
    + intros ([|x a] & b & H); simpl in H; [left; by exists b | done].
  - rewrite IH. split.
    + intros [[b ->] | (a & b & ->)]; [by exists [], b | by exists (c :: a), b].
    + intros ([|x a] & b & H); simpl in H; [left; by exists b |].
      simplify_eq. right. by exists a, b.
Qed.

Lemma replace_scan_skip old new k s :
  replace_scan old new k s = replace_scan old new 0 (drop k s).
Proof.
  revert k. induction s as [|c s IH]; intros [|k]; simpl; try done.
Qed.

(** The defining equations of [replace] for a non-empty [old]. *)
Lemma replace_scan_cons old new c s :
  replace_scan old new 0 (c :: s) =
  if startswith old (c :: s)
  then new ++ replace_scan old new (pred (length old)) s
  else c :: replace_scan old new 0 s.
Proof. reflexivity. Qed.

Lemma replace_hit old new s :
  old <> [] -> old `prefix_of` s ->
  replace old new s = new ++ replace old new (drop (length old) s).
Proof.
  destruct old as [|o old]; [done|]. intros _ Hp.
  destruct s as [|c s]; [by apply prefix_nil_not in Hp|].
  unfold replace. rewrite replace_scan_cons.
  apply startswith_spec in Hp. rewrite Hp. f_equal.
  by rewrite replace_scan_skip.
Qed.

Lemma replace_miss old new c s :
  old <> [] -> ~ old `prefix_of` c :: s ->
  replace old new (c :: s) = c :: replace old new s.
Proof.
  destruct old as [|o old]; [done|]. intros _ Hp.
  unfold replace. rewrite replace_scan_cons.
  rewrite <- startswith_spec in Hp. by destruct (startswith _ _).
Qed.

Lemma replace_nil_text old new : old <> [] -> replace old new [] = [].
Proof. by destruct old. Qed.

#[export] Hint Rewrite replace_nil_text using done : pyrw.

(** A text without an occurrence of [old] is left unchanged. *)
Lemma replace_absent old new s :
  old <> [] -> contains old s = false -> replace old new s = s.
Proof.
  intros Hne. induction s as [|c s IH]; intros Hc.
  - by apply replace_nil_text.
  - simpl in Hc. apply orb_false_iff in Hc as [Hs Hc].
    rewrite replace_miss, IH; try done.
    rewrite <- startswith_spec, Hs. done.
Qed.

(** Induction along the scan of [replace]: a text is empty, starts with
    an occurrence of [old] (replaced by [new]), or starts with a character
    copied unchanged. *)
Lemma replace_ind old new (P : str -> str -> Prop) :
  old <> [] -> P [] [] ->
  (forall b, P b (replace old new b) -> P (old ++ b) (new ++ replace old new b)) ->
  (forall c s, ~ old `prefix_of` c :: s -> P s (replace old new s) ->
               P (c :: s) (c :: replace old new s)) ->
  forall s, P s (replace old new s).
Proof.
  intros Hne Hnil Hhit Hmiss s.
  induction s as [s IH] using (induction_ltof1 _ (@length _)).
  destruct s as [|c s]; [by rewrite replace_nil_text|].
  destruct (decide (old `prefix_of` c :: s)) as [[b Hb]|Hp].
  - rewrite replace_hit by (try exists b; done). rewrite Hb, drop_app_length.
    apply Hhit, IH. unfold ltof. rewrite Hb, length_app. destruct old; [done|]. simpl. lia.
  - rewrite replace_miss by done. apply Hmiss, IH; [done|]. unfold ltof. simpl. lia.
Qed.

(** Replacing a non-empty text by itself changes nothing. *)
Lemma replace_self old s : old <> [] -> replace old old s = s.
Proof. intros Hne. apply (replace_ind old old (fun s r => r = s)); congruence. Qed.

(** Replacing by a text at least as long never shortens; when [old]
    occurs and [new] is longer, the text grows. *)
Lemma replace_length_lt old new s :
  old <> [] -> length old <= length new ->
  length s <= length (replace old new s) /\
  (length old < length new -> contains old s = true -> length s < length (replace old new s)).
Proof.
  intros Hne Hl. apply (replace_ind old new (fun s r =>
    length s <= length r /\
    (length old < length new -> contains old s = true -> length s < length r)));
    [done|split; [done|]; intros _ Hc; by destruct old| |].
  - intros b [IH _]. rewrite !length_app. split; [lia|]. intros Hlt _. lia.
  - intros c t Hp [IH1 IH2]. simpl. split; [lia|]. intros Hlt Hc.
    rewrite <- startswith_spec in Hp. apply not_true_is_false in Hp. rewrite Hp in Hc.
    specialize (IH2 Hlt Hc). lia.
Qed.

(** When [new] ends with [old], every occurrence replaced leaves [old] in
    the result. *)
Lemma replace_contains_suffix old x s :
  old <> [] -> contains old s = true -> contains old (replace old (x ++ old) s) = true.
Proof.
  intros Hne. apply (replace_ind old (x ++ old) (fun s r => contains old s = true -> contains old r = true));
    [done|done| |].
  - intros b _ _. apply contains_spec. exists x, (replace old (x ++ old) b). by rewrite app_assoc.
  - intros c t Hp IH Hc. simpl. apply orb_true_iff. right.
    rewrite <- startswith_spec in Hp. apply not_true_is_false in Hp. simpl in Hc. rewrite Hp in Hc.
    by apply IH.
Qed.

(** [lstrip] removes exactly the leading whitespace. *)
Lemma lstrip_spec s :
  exists a, s = a ++ lstrip s /\ Forall (fun c => isspace c = true) a /\
            (forall c t, lstrip s = c :: t -> isspace c = false).
Proof.
  induction s as [|c s (a & Ha & Hsp & Hhd)]; simpl.
  { exists []. split; [done|]. split; [constructor|done]. }
  destruct (isspace c) eqn:Hc.
  - exists (c :: a). simpl. rewrite <- Ha. split; [done|]. split; [by constructor|done].
  - exists []. split; [done|]. split; [constructor|]. by intros ? ? [= -> _].
Qed.

(** [rstrip] removes exactly the trailing whitespace. *)
Lemma rstrip_spec s :
  exists b, s = rstrip s ++ b /\ Forall (fun c => isspace c = true) b /\
            (forall t c, rstrip s = t ++ [c] -> isspace c = false).
Proof.
  destruct (lstrip_spec (rev s)) as (a & Ha & Hsp & Hhd). unfold rstrip.
  exists (rev a). split; [|split].
  - by rewrite <- rev_app_distr, <- Ha, rev_involutive.
  - by apply Forall_rev.
  - intros t c Hr. apply (Hhd c (rev t)).
    by rewrite <- (rev_involutive (lstrip (rev s))), Hr, rev_app_distr.
Qed.

(** Inside the leading run, every suffix starts with a character of
    the class. *)
Lemma span_len_drop p s j :
  j < span_len p s -> exists c s', drop j s = c :: s' /\ p c = true.
Proof.
  revert j. induction s as [|c s IH]; intros j; simpl; [lia|].
  destruct (p c) eqn:Hc; [|lia]. destruct j as [|j]; [by eexists _, _|].
  intros Hj. apply IH. lia.
Qed.

Lemma span_len_le p s : span_len p s <= length s.
Proof. induction s as [|c s IH]; simpl; [done|]. destruct (p c); lia. Qed.

Lemma startswith_length p s : startswith p s = true -> length p <= length s.
Proof. intros H. apply startswith_spec in H as [b ->]. rewrite length_app. lia. Qed.

(** An occurrence in a suffix is an occurrence, at or after the first. *)
Lemma find_sub_drop l s i j :
  find_sub l (drop i s) = Some j -> exists j0, find_sub l s = Some j0 /\ j0 <= i + j.
Proof.
  revert i j. induction s as [|c s IH]; intros i j H.
  - rewrite drop_nil in H. exists j. split; [done|lia].
  - destruct i as [|i]; [exists j; split; [done|lia]|]. simpl in H.
    destruct (IH _ _ H) as (j0 & Hj0 & Hle). simpl.
    destruct (startswith l (c :: s)); [exists 0; split; [done|lia]|].
    rewrite Hj0. exists (S j0). split; [done|lia].
Qed.

(** The first occurrence is an occurrence. *)
Lemma find_sub_spec l s j :
  find_sub l s = Some j -> startswith l (drop j s) = true /\ j + length l <= length s.
Proof.
  revert j. induction s as [|c s IH]; intros j; simpl.
  - destruct (startswith l []) eqn:E; [|done]. intros [= <-].
    split; [done|]. apply startswith_length in E. simpl in E. lia.
  - destruct (startswith l (c :: s)) eqn:E.
    + intros [= <-]. split; [done|]. by apply startswith_length in E.
    + destruct (find_sub l s) as [j'|] eqn:Ej; [|done]. intros [= <-].
      destruct (IH j' eq_refl) as [H1 H2]. simpl. split; [done|lia].
Qed.

(** (C20) [str.strip] removes exactly the leading and the trailing
    whitespace: the text is whitespace, the stripped text, and whitespace,
    and the stripped text neither starts nor ends with whitespace. *)
Theorem strip_spec s :
  exists a b, s = a ++ strip s ++ b /\
    Forall (fun c => isspace c = true) a /\ Forall (fun c => isspace c = true) b /\
    (forall c t, strip s = c :: t -> isspace c = false) /\
    (forall t c, strip s = t ++ [c] -> isspace c = false).
Proof.
  destruct (lstrip_spec s) as (a & Ha & Hsa & Hhd).
  destruct (rstrip_spec (lstrip s)) as (b & Hb & Hsb & Hlast).
  exists a, b. unfold strip. split; [by rewrite <- Hb|].
  split; [done|]. split; [done|]. split; [|done].
  intros c t Hs. apply (Hhd c (t ++ b)). by rewrite Hb, Hs.
Qed.

(** [split] then [join] gives the text back. *)
Lemma join_split sep s : join_char sep (split_char sep s) = s.
Proof.
  induction s as [|d s IH]; [done|]. simpl.
  destruct (Ascii.eqb_spec d sep) as [->|Hne].
  - destruct (split_char sep s) as [|w ws] eqn:E; [by destruct s|].
    simpl in *. by rewrite IH.
  - destruct (split_char sep s) as [|w ws] eqn:E; [by destruct s|].
    destruct ws; simpl in *; by rewrite IH.
Qed.

(** [split] never returns an empty list. *)
Lemma split_char_not_nil sep s : split_char sep s <> [].
Proof.
  destruct s as [|d s]; simpl; [done|].
  destruct (Ascii.eqb d sep); [done|]. by destruct (split_char sep s).
Qed.

(** A separator in the middle of a text splits it into the pieces of
    each side. *)
Lemma split_char_app sep a b :
  split_char sep (a ++ sep :: b) = split_char sep a ++ split_char sep b.
Proof.
  induction a as [|d a IH]; simpl; [by rewrite Ascii.eqb_refl|].
  rewrite IH. destruct (Ascii.eqb d sep); [done|].
  pose proof (split_char_not_nil sep a) as Hne.
  by destruct (split_char sep a).
Qed.

(** A text without the separator is one piece. *)
Lemma split_char_nosep sep w : sep ∉ w -> split_char sep w = [w].
Proof.
  induction w as [|d w IH]; intros Hw; [done|]. simpl.
  destruct (Ascii.eqb_spec d sep) as [->|Hne]; [set_solver|].
  rewrite IH; [done|set_solver].
Qed.

(** No piece of [split] contains the separator. *)
Lemma split_char_no_sep sep s : Forall (fun w => sep ∉ w) (split_char sep s).
Proof.
  induction s as [|d s IH]; simpl; [repeat constructor; set_solver|].
  destruct (Ascii.eqb_spec d sep) as [->|Hne]; [by constructor; [set_solver|]|].
  destruct (split_char sep s) as [|w ws]; [repeat constructor; set_solver|].
  inversion IH; subst. constructor; [|done]. set_solver.
Qed.

(** [readlines] then [join] gives the text back: the line list of a
    document reconstructs it exactly. *)
Lemma join_readlines s : join (readlines s) = s.
Proof.
  unfold join. induction s as [|c s IH]; [done|]. simpl.
  destruct (Ascii.eqb c LF); simpl; [by rewrite IH|].
  destruct (readlines s) as [|l ls]; simpl in *; subst; done.
Qed.

Lemma join_app a b : join (a ++ b) = join a ++ join b.
Proof. apply concat_app. Qed.

#[export] Hint Rewrite join_app join_readlines : pyrw.

(** Every line [readlines] returns is non-empty, and every line but the
    last ends with ['\n']. *)
Lemma readlines_nonempty s : Forall (fun l => l <> []) (readlines s).
Proof.
  induction s as [|c s IH]; simpl; [constructor|].
  destruct (Ascii.eqb c LF); [by constructor|].
  destruct (readlines s); [by repeat constructor|].
  inversion IH; subst. by constructor.
Qed.

End PyStr.
