(* ===== verification/PyIO.v ===== *)
(** * Python text-mode file I/O over the file store

    [open(p, 'r')] followed by [f.read()] or [f.readlines()], and
    [open(p, 'w')] followed by [f.write(t)] or [f.writelines(ls)], as
    operations of the [PyM] monad on the store [FS].  Text mode on read
    applies universal newlines: ["\r\n"] and a lone ["\r"] become ["\n"];
    on write ['\n'] is written as the platform separator, ["\n"] on the
    POSIX systems the scripts' relative paths assume.  A missing file
    raises [FileNotFoundError] on read; opening for write always
    succeeds (the store has no directories). *)

From S2P Require Import Prelude PyStr.
Import PyNotations.
Local Open Scope py_scope.

Module PyIO.
Import PyStr.

(** The two files the scripts open, by their relative paths. *)
Definition EEG_PATH : string := "matlab-main/EEGQualityAnalyzer/EEGQualityAnalyzer.m".
Definition JUAN_PATH : string := "matlab-main/JuanAnalyzerManual/JuanAnalyzer.m".

(** Universal-newline decoding of text read in text mode. *)
Fixpoint translate_newlines (s : str) : str :=
  match s with
  | [] => []
  | c :: s' =>
      if Ascii.eqb c CR
      then LF :: match s' with
                 | d :: s'' => if Ascii.eqb d LF then translate_newlines s''
                               else translate_newlines s'
                 | [] => []
                 end
      else c :: translate_newlines s'
  end.

(** [with open(path, 'r') as f: content = f.read()] *)
Definition read_file (path : string) : PyM str :=
  fun fs => match fs !! path with
            | Some raw => (inr (translate_newlines raw), fs)
            | None => (inl (FileNotFoundError path), fs)
            end.

(** [with open(path, 'r') as f: lines = f.readlines()] *)
Definition readlines_file (path : string) : PyM (list str) :=
  content <- read_file path ;; pret (readlines content).

(** The lines [f.readlines()] returns for a file whose bytes are [raw]. *)
Definition text_lines (raw : str) : list str := readlines (translate_newlines raw).

(** [with open(path, 'w') as f: f.write(text)] *)
Definition write_file (path : string) (text : str) : PyM unit :=
  fun fs => (inr tt, <[path := text]> fs).

(** [with open(path, 'w') as f: f.writelines(lines)] *)
Definition writelines_file (path : string) (lines : list str) : PyM unit :=
  write_file path (join lines).

(** * Lemmas *)

(** A text without ['\r'] reads back unchanged. *)
Lemma translate_newlines_no_cr s : CR ∉ s -> translate_newlines s = s.
Proof.
  induction s as [|c s IH]; intros Hs; [done|]. simpl.
  destruct (Ascii.eqb_spec c CR) as [->|Hne]; [set_solver|].
  rewrite IH; set_solver.
Qed.

(** Decoded text never contains ['\r']. *)
Lemma translate_newlines_cr_free s : CR ∉ translate_newlines s.
Proof.
  induction s as [s IH] using (induction_ltof1 _ (@length _)).
  destruct s as [|c s]; simpl; [set_solver|].
  destruct (Ascii.eqb_spec c CR) as [->|Hne].
  - destruct s as [|d s]; [set_solver|].
    assert (LF <> CR) by done.
    destruct (Ascii.eqb d LF); rewrite elem_of_cons; intros [?|Hin]; try done;
      revert Hin; apply IH; unfold ltof; simpl; lia.
  - rewrite elem_of_cons. intros [?|Hin]; [done|]. revert Hin.
    apply IH. unfold ltof. simpl. lia.
Qed.

Lemma read_file_ok path raw fs :
  fs !! path = Some raw -> read_file path fs = (inr (translate_newlines raw), fs).
Proof. unfold read_file. by intros ->. Qed.

Lemma readlines_file_ok path raw fs :
  fs !! path = Some raw -> readlines_file path fs = (inr (text_lines raw), fs).
Proof. intros H. unfold readlines_file, pbind. by rewrite (read_file_ok _ _ _ H). Qed.

Lemma read_file_missing path fs :
  fs !! path = None -> read_file path fs = (inl (FileNotFoundError path), fs).
Proof. unfold read_file. by intros ->. Qed.

(** Reading a path after writing it gives the written text back when it
    has no carriage return. *)
Lemma read_after_write path text fs :
  CR ∉ text ->
  pbind (write_file path text) (fun _ => read_file path) fs =
  (inr text, <[path := text]> fs).
Proof.
  intros Hcr. unfold pbind, write_file, read_file. rewrite lookup_insert_eq.
  by rewrite translate_newlines_no_cr.
Qed.

(** Writing leaves every other file untouched. *)
Lemma write_file_other path path' text fs :
  path <> path' -> (write_file path text fs).2 !! path' = fs !! path'.
Proof. intros Hne. simpl. by rewrite lookup_insert_ne. Qed.

(** (C19) Round trip of a file through [readlines] and [writelines]:
    the text written back is the text read exactly when the file has no
    carriage return; text mode turns every ["\r\n"] and lone ["\r"] into
    ["\n"], so a CRLF file comes back with LF line ends. *)
Theorem text_lines_roundtrip raw : join (text_lines raw) = raw <-> CR ∉ raw.
Proof.
  unfold text_lines. rewrite join_readlines. split.
  - intros <-. apply translate_newlines_cr_free.
  - apply translate_newlines_no_cr.
Qed.

End PyIO.
