(* ===== verification/Lines.v ===== *)
(** * Line documents: [readlines] after [writelines]

    A list of lines is well formed ([doc_ok]) when each element is one
    line ([line_ok]: [readlines] keeps it whole) and every element but
    the last ends with ['\n'] ([ends_lf]).  [readlines] always returns a
    well-formed document, and [readlines] undoes [''.join] on well-formed
    documents, so reading back a file written with [f.writelines(lines)]
    gives [lines] exactly when [lines] is well formed.  Slicing keeps
    documents well formed; a concatenation is well formed when the first
    part ends with a complete line. *)

From S2P Require Import Prelude PyStr.

Module Lines.
Import PyStr.

(** The text is empty or ends with ['\n']. *)
Definition ends_lf (a : str) : Prop := a = [] \/ last a = Some LF.

#[export] Instance ends_lf_dec a : Decision (ends_lf a).
Proof. unfold ends_lf. apply _. Defined.

(** [readlines] keeps [w] as a single line. *)
Definition line_ok (w : str) : Prop := readlines w = [w].

#[export] Instance line_ok_dec w : Decision (line_ok w).
Proof. unfold line_ok. apply _. Defined.

(** Every element is a line, and all but the last end with ['\n']. *)
Definition doc_ok (L : list str) : Prop :=
  Forall line_ok L /\ forall i w, L !! i = Some w -> S i < length L -> ends_lf w.

(** * Lemmas *)

Lemma ends_lf_cons c a : a <> [] -> ends_lf (c :: a) -> ends_lf a.
Proof.
  intros Ha [H|H]; [done|]. right. destruct a as [|d a]; [done|]. done.
Qed.

(** [readlines] splits at a boundary that follows a complete line. *)
Lemma readlines_app a b : ends_lf a -> readlines (a ++ b) = readlines a ++ readlines b.
Proof.
  induction a as [|c a IH]; intros Ha; [done|]. simpl.
  destruct (Ascii.eqb_spec c LF) as [->|Hc].
  - destruct a as [|d a]; [done|]. rewrite IH; [done|]. by apply (ends_lf_cons LF).
  - destruct a as [|d a].
    + destruct Ha as [[=]|Ha]. simpl in Ha. congruence.
    + rewrite IH by (by apply (ends_lf_cons c)).
      assert (readlines (d :: a) <> []) as Hne.
      { simpl. destruct (Ascii.eqb d LF); [done|]. by destruct (readlines a). }
      by destruct (readlines (d :: a)).
Qed.

Lemma line_ok_nonempty w : line_ok w -> w <> [].
Proof. intros H ->. discriminate H. Qed.

(** [readlines] undoes [''.join] on a well-formed document. *)
Lemma readlines_join L : doc_ok L -> readlines (join L) = L.
Proof.
  induction L as [|w L IH]; intros [Hl Hlf]; [done|].
  inversion Hl as [|? ? Hw HL]; subst. unfold join. simpl.
  destruct L as [|w' L].
  - simpl. rewrite app_nil_r. exact Hw.
  - rewrite readlines_app by (apply (Hlf 0); simpl; [done|lia]).
    rewrite Hw. simpl. f_equal. apply IH. split; [done|].
    intros i v Hi Hlen. apply (Hlf (S i)); simpl in *; [done|lia].
Qed.

(** [readlines] returns a well-formed document. *)
Lemma doc_ok_readlines s : doc_ok (readlines s).
Proof.
  induction s as [|c s [IHl IHlf]]; [split; [constructor|done]|]. simpl.
  destruct (Ascii.eqb_spec c LF) as [->|Hc].
  - split; [constructor; [done|exact IHl]|].
    intros [|i] w Hi Hlen; simpl in *; [simplify_eq; by right|].
    apply (IHlf i); [done|lia].
  - destruct (readlines s) as [|l ls] eqn:E.
    + split.
      * constructor; [|constructor]. unfold line_ok. simpl. by destruct (Ascii.eqb_spec c LF).
      * intros [|i] w Hi Hlen; simpl in *; lia.
    + inversion IHl as [|? ? Hl Hls]; subst. split.
      * constructor; [|done]. unfold line_ok. simpl.
        destruct (Ascii.eqb_spec c LF); [done|]. by rewrite Hl.
      * intros [|i] w Hi Hlen; simpl in *.
        -- simplify_eq. right. destruct (IHlf 0 l) as [->|Hlast]; [done|simpl; lia| |].
           ++ by apply line_ok_nonempty in Hl.
           ++ destruct l as [|d l]; [done|]. done.
        -- apply (IHlf (S i)); [done|simpl; lia].
Qed.

Lemma doc_ok_drop L d : doc_ok L -> doc_ok (drop d L).
Proof.
  intros [Hl Hlf]. split; [by apply Forall_drop|].
  intros i w Hi Hlen. rewrite lookup_drop in Hi. rewrite length_drop in Hlen.
  apply (Hlf (d + i)); [done|lia].
Qed.

(** A proper prefix of a document is well formed and ends with a
    complete line. *)
Lemma doc_ok_take L b :
  doc_ok L -> b < length L -> doc_ok (take b L) /\ ends_lf (join (take b L)).
Proof.
  intros [Hl Hlf] Hb. split; [split|].
  - by apply Forall_take.
  - intros i w Hi Hlen. rewrite lookup_take_Some in Hi. destruct Hi as [Hi _].
    rewrite length_take in Hlen.
    apply (Hlf i); [done|lia].
  - destruct b as [|b]; [by left|]. right.
    rewrite (take_S_r L b (L !!! b)) by (apply list_lookup_lookup_total_lt; lia).
    destruct (Hlf b (L !!! b)) as [Hw|Hw]; [apply list_lookup_lookup_total_lt; lia|lia| |].
    + exfalso. eapply line_ok_nonempty; [|exact Hw].
      eapply Forall_lookup_1; [exact Hl|]. apply list_lookup_lookup_total_lt. lia.
    + unfold join. rewrite concat_app. simpl. rewrite app_nil_r.
      destruct (L !!! b) as [|x w] using rev_ind; [done|].
      rewrite last_app in Hw. simpl in Hw. simplify_eq.
      by rewrite app_assoc, last_app.
Qed.

(** The last line of a document whose text ends with ['\n'] ends with
    ['\n']. *)
Lemma ends_lf_last A w : ends_lf (join (A ++ [w])) -> w <> [] -> ends_lf w.
Proof.
  intros H Hw. right. destruct w as [|c w _] using rev_ind; [done|].
  unfold join in H. rewrite concat_app in H. simpl in H.
  rewrite app_nil_r, app_assoc in H. destruct H as [H|H].
  - by destruct (concat A ++ w).
  - rewrite last_snoc in H. by rewrite last_snoc.
Qed.

(** A concatenation is well formed when its first part ends with a
    complete line. *)
Lemma doc_ok_app A B : doc_ok A -> doc_ok B -> ends_lf (join A) -> doc_ok (A ++ B).
Proof.
  intros [HlA HfA] [HlB HfB] He. split; [by apply Forall_app|].
  intros i w Hi Hlen. rewrite length_app in Hlen.
  destruct (decide (i < length A)) as [HiA|HiA].
  - rewrite lookup_app_l in Hi by done.
    destruct (decide (S i < length A)); [by apply (HfA i)|].
    assert (A = take i A ++ [w]) as HA.
    { rewrite <- (take_drop i A) at 1. f_equal.
      rewrite (drop_S A w i) by done. rewrite drop_ge by lia. done. }
    rewrite HA in He. apply (ends_lf_last (take i A)); [done|].
    apply line_ok_nonempty. eapply Forall_lookup_1; [exact HlA|exact Hi].
  - rewrite lookup_app_r in Hi by lia. apply (HfB (i - length A)); [done|lia].
Qed.
(** A line break ends the first line. *)
Lemma readlines_line x y : LF ∉ x -> readlines (x ++ LF :: y) = (x ++ [LF]) :: readlines y.
Proof.
  induction x as [|c x IH]; intros Hx; [done|]. simpl.
  destruct (Ascii.eqb_spec c LF) as [->|Hc]; [set_solver|]. rewrite IH; [done|set_solver].
Qed.

(** A line without a terminator has no line break at all. *)
Lemma line_ok_no_lf w : line_ok w -> ~ ends_lf w -> LF ∉ w.
Proof.
  intros Hw Hn Hin. apply list_elem_of_split_l in Hin as (x & y & -> & Hx).
  unfold line_ok in Hw. rewrite readlines_line in Hw by done.
  injection Hw as Hxy _. apply app_inv_head in Hxy. injection Hxy as <-.
  apply Hn. right. by rewrite last_snoc.
Qed.

End Lines.
