(* ===== verification/Output.v ===== *)
(** * Standard output: the [print] calls of the scripts

    [PyW] extends the [PyM] monad of [Prelude.v] with the trace of the
    lines the script has printed, in order: a run returns the result, the
    store and the list of printed messages ([print s] writes [s] and a
    line break).  As in
    Python an exception keeps what was printed before it.  [lift] runs a
    [PyM] operation without output, [of_sum] turns a pure result of
    [exc + A] into a step that may raise.

    [result] and [output] read the result and the printed lines of a run;
    the lemmas compute them through [wbind], [print], [lift] and [of_sum],
    and the tactic [wstep] takes one such step of a proof.

    [str_of_nat] is the f-string rendering [f"{n}"] of a non-negative
    [int]: its decimal numeral, read back by [int_of_str]. *)

From Stdlib Require DecimalNat.
From S2P Require Import Prelude PyStr.

Module Output.
Import PyStr.

(** ** The monad *)

Definition PyW (A : Type) : Type := FS -> (exc + A) * FS * list str.

Definition wret {A} (x : A) : PyW A := fun fs => (inr x, fs, []).

Definition wbind {A B} (m : PyW A) (k : A -> PyW B) : PyW B :=
  fun fs => match m fs with
            | (inl e, fs', o) => (inl e, fs', o)
            | (inr x, fs', o) => let '(r, fs'', o') := k x fs' in (r, fs'', o ++ o')
            end.

Definition wraise {A} (e : exc) : PyW A := fun fs => (inl e, fs, []).

(** A store operation, which prints nothing. *)
Definition lift {A} (m : PyM A) : PyW A := fun fs => let '(r, fs') := m fs in (r, fs', []).

(** A pure computation that may raise. *)
Definition of_sum {A} (r : exc + A) : PyW A := fun fs => (r, fs, []).

(** [print(s)]. *)
Definition print (s : str) : PyW unit := fun fs => (inr tt, fs, [s]).

Declare Scope pyw_scope.
Delimit Scope pyw_scope with pyw.

Module PyWNotations.
  Notation "x <- m ;; k" := (wbind m (fun x => k))
    (at level 100, m at next level, right associativity) : pyw_scope.
  Notation "m ;;; k" := (wbind m (fun _ => k))
    (at level 100, right associativity) : pyw_scope.
End PyWNotations.
Import PyWNotations.

(** The result, and the messages printed, of a run. *)
Definition result {A} (m : PyW A) (fs : FS) : exc + A := (m fs).1.1.
Definition output {A} (m : PyW A) (fs : FS) : list str := (m fs).2.

(** ** Formatting of integers *)

(** The digits of a decimal numeral, most significant first. *)
Fixpoint uint_str (d : Decimal.uint) : str :=
  match d with
  | Decimal.Nil => []
  | Decimal.D0 d => "0"%char :: uint_str d
  | Decimal.D1 d => "1"%char :: uint_str d
  | Decimal.D2 d => "2"%char :: uint_str d
  | Decimal.D3 d => "3"%char :: uint_str d
  | Decimal.D4 d => "4"%char :: uint_str d
  | Decimal.D5 d => "5"%char :: uint_str d
  | Decimal.D6 d => "6"%char :: uint_str d
  | Decimal.D7 d => "7"%char :: uint_str d
  | Decimal.D8 d => "8"%char :: uint_str d
  | Decimal.D9 d => "9"%char :: uint_str d
  end.

(** [f"{n}"] for a non-negative [int]: the decimal numeral without
    leading zeros. *)
Definition str_of_nat (n : nat) : str := uint_str (Nat.to_uint n).

(** Reading a string of digits back as a numeral. *)
Fixpoint str_uint (s : str) : option Decimal.uint :=
  match s with
  | [] => Some Decimal.Nil
  | c :: s' =>
      let k := match c with
               | "0"%char => Some Decimal.D0 | "1"%char => Some Decimal.D1
               | "2"%char => Some Decimal.D2 | "3"%char => Some Decimal.D3
               | "4"%char => Some Decimal.D4 | "5"%char => Some Decimal.D5
               | "6"%char => Some Decimal.D6 | "7"%char => Some Decimal.D7
               | "8"%char => Some Decimal.D8 | "9"%char => Some Decimal.D9
               | _ => None
               end in
      match k, str_uint s' with
      | Some f, Some d => Some (f d)
      | _, _ => None
      end
  end.

(** [int(s)] on a string of decimal digits. *)
Definition int_of_str (s : str) : option nat :=
  match s with [] => None | _ => Nat.of_uint <$> str_uint s end.

(** * Lemmas *)

(** ** Output of the combinators *)

Lemma wbind_ok {A B} (m : PyW A) (k : A -> PyW B) fs x fs' o :
  m fs = (inr x, fs', o) -> wbind m k fs = ((k x fs').1, o ++ (k x fs').2).
Proof. intros H. unfold wbind. rewrite H. by destruct (k x fs') as [[r fs''] o']. Qed.

Lemma wbind_err {A B} (m : PyW A) (k : A -> PyW B) fs e fs' o :
  m fs = (inl e, fs', o) -> wbind m k fs = (inl e, fs', o).
Proof. intros H. unfold wbind. by rewrite H. Qed.

Lemma output_print_then {B} s (k : PyW B) fs : output (print s ;;; k)%pyw fs = s :: output k fs.
Proof. unfold output, wbind, print. by destruct (k fs) as [[r fs'] o]. Qed.

Lemma result_print_then {B} s (k : PyW B) fs : result (print s ;;; k)%pyw fs = result k fs.
Proof. unfold result, wbind, print. by destruct (k fs) as [[r fs'] o]. Qed.

Lemma output_wbind_ok {A B} (m : PyW A) (k : A -> PyW B) fs x fs' o :
  m fs = (inr x, fs', o) -> output (wbind m k) fs = o ++ output (k x) fs'.
Proof. intros H. unfold output. by rewrite (wbind_ok _ _ _ _ _ _ H). Qed.

Lemma result_wbind_ok {A B} (m : PyW A) (k : A -> PyW B) fs x fs' o :
  m fs = (inr x, fs', o) -> result (wbind m k) fs = result (k x) fs'.
Proof. intros H. unfold result. by rewrite (wbind_ok _ _ _ _ _ _ H). Qed.

Lemma output_wbind_err {A B} (m : PyW A) (k : A -> PyW B) fs e fs' o :
  m fs = (inl e, fs', o) -> output (wbind m k) fs = o /\ result (wbind m k) fs = inl e.
Proof. intros H. unfold output, result. by rewrite (wbind_err _ _ _ _ _ _ H). Qed.

Lemma lift_run {A} (m : PyM A) fs : lift m fs = ((m fs).1, (m fs).2, []).
Proof. unfold lift. by destruct (m fs). Qed.

(** Running a store operation, and a pure step, at the head of a
    script. *)
Lemma lift_ok {A B} (m : PyM A) (k : A -> PyW B) fs x fs' :
  m fs = (inr x, fs') ->
  output (wbind (lift m) k) fs = output (k x) fs' /\ result (wbind (lift m) k) fs = result (k x) fs'.
Proof.
  intros H. split; [apply (output_wbind_ok _ _ _ x fs' [])|apply (result_wbind_ok _ _ _ x fs' [])];
    by rewrite lift_run, H.
Qed.

Lemma lift_ok_fst {A B} (m : PyM A) (k : A -> PyW B) fs x :
  (m fs).1 = inr x ->
  output (wbind (lift m) k) fs = output (k x) (m fs).2 /\
  result (wbind (lift m) k) fs = result (k x) (m fs).2.
Proof. intros H. apply lift_ok. rewrite <- H. by destruct (m fs). Qed.

Lemma output_lift_fst {A B} (m : PyM A) (k : A -> PyW B) fs x :
  (m fs).1 = inr x -> output (wbind (lift m) k) fs = output (k x) (m fs).2.
Proof. intros H. by apply lift_ok_fst. Qed.

Lemma result_lift_fst {A B} (m : PyM A) (k : A -> PyW B) fs x :
  (m fs).1 = inr x -> result (wbind (lift m) k) fs = result (k x) (m fs).2.
Proof. intros H. by apply lift_ok_fst. Qed.

Lemma lift_err {A B} (m : PyM A) (k : A -> PyW B) fs e fs' :
  m fs = (inl e, fs') -> output (wbind (lift m) k) fs = [] /\ result (wbind (lift m) k) fs = inl e.
Proof. intros H. apply (output_wbind_err _ _ _ e fs'). by rewrite lift_run, H. Qed.

Lemma of_sum_ok {A B} (r : exc + A) (k : A -> PyW B) fs x :
  r = inr x ->
  output (wbind (of_sum r) k) fs = output (k x) fs /\ result (wbind (of_sum r) k) fs = result (k x) fs.
Proof. intros ->. split; [apply (output_wbind_ok _ _ _ x fs [])|apply (result_wbind_ok _ _ _ x fs [])]; done. Qed.

Lemma of_sum_err {A B} (r : exc + A) (k : A -> PyW B) fs e :
  r = inl e -> output (wbind (of_sum r) k) fs = [] /\ result (wbind (of_sum r) k) fs = inl e.
Proof. intros ->. by apply (output_wbind_err _ _ _ e fs). Qed.

(** Rewrite a run with one of the lemmas above. *)
Tactic Notation "wstep" uconstr(L) := rewrite (proj1 L); try rewrite (proj2 L); cbv beta.

(** ** Formatting *)

Lemma str_uint_uint_str d : str_uint (uint_str d) = Some d.
Proof. induction d; simpl; by rewrite ?IHd. Qed.

Lemma uint_str_nil d : uint_str d = [] -> d = Decimal.Nil.
Proof. by destruct d. Qed.

Lemma to_uint_not_nil n : Nat.to_uint n <> Decimal.Nil.
Proof.
  intros H. pose proof (DecimalNat.Unsigned.of_to n) as E. rewrite H in E.
  simpl in E. subst n. discriminate H.
Qed.
(** [int(f"{n}")] is [n]: the printed numeral is the decimal numeral of
    [n]. *)
Lemma int_of_str_of_nat n : int_of_str (str_of_nat n) = Some n.
Proof.
  unfold int_of_str, str_of_nat. destruct (uint_str (Nat.to_uint n)) eqn:E.
  - apply uint_str_nil in E. by apply to_uint_not_nil in E.
  - rewrite <- E, str_uint_uint_str. simpl. f_equal. apply DecimalNat.Unsigned.of_to.
Qed.

Lemma str_of_nat_inj n n' : str_of_nat n = str_of_nat n' -> n = n'.
Proof. intros H. apply (inj Some). by rewrite <- !int_of_str_of_nat, H. Qed.
End Output.
