(* ===== verification/Splice.v ===== *)
(** * The block splicer of the spec, as an abstract specification

    [spec.md] (sections 3 and 4) describes the scripts' common shape as a
    block splicer over a line document: [locate] finds a half-open range
    by a start marker and an optional stop marker, [extract] joins the
    lines of a range, [splice] replaces a range by the lines of a text.
    None of this is code of the repository: it is the contract the
    scripts are checked against (the refinement theorems are in the
    script files).  A marker is anything with a line predicate, the
    [Marker] class; the scripts use literal substrings ([in]). *)

From S2P Require Import Prelude PyStr.

Module Splice.
Import PyStr.

(** A document is its list of lines, each with its terminator. *)
Abbreviation doc := (list str).

(** A half-open range [\[rstart, rend)] of line indices. *)
Record range := Range { rstart : nat; rend : nat }.

Definition range_ok (d : doc) (r : range) : bool :=
  (rstart r <=? rend r) && (rend r <=? length d).

(** The error taxonomy of the spec (section 7). *)
Inductive splice_error := NotFoundError | RangeError.

(** ** Markers: a predicate over a single line *)
Class Marker (M : Type) := marks : M -> str -> bool.

(** A literal marker holds of the lines that contain it ([m in line]). *)
#[export] Instance literal_marker : Marker str := fun m line => contains m line.

Lemma marks_literal (m line : str) : marks m line = contains m line.
Proof. reflexivity. Qed.

Section Locate.
Context {M : Type} `{Marker M}.

(** Index of the first line of [lines] satisfying [m], counting from [i]. *)
Fixpoint find_from (m : M) (i : nat) (lines : doc) : option nat :=
  match lines with
  | [] => None
  | l :: ls => if marks m l then Some i else find_from m (S i) ls
  end.

(** First line at index [from] or later that satisfies [m]. *)
Definition find_line (m : M) (from : nat) (d : doc) : option nat :=
  find_from m from (drop from d).

(** [locate(document, startMarker, stopMarker?, fromLine)] (section 4.1):
    the stop marker is searched from the line after the start line, and
    the stop line itself is excluded. *)
Definition locate (d : doc) (start : M) (stop : option M) (from : nat)
  : splice_error + range :=
  match find_line start from d with
  | None => inl NotFoundError
  | Some s =>
      match stop with
      | None => inr (Range s (length d))
      | Some st =>
          match find_line st (S s) d with
          | None => inl NotFoundError
          | Some e => inr (Range s e)
          end
      end
  end.
End Locate.

(** [extract(document, range)] (section 4.2). *)
Definition extract (d : doc) (r : range) : str :=
  join (slice (rstart r) (rend r) d).

(** [rewrite(text, rules)] (section 4.3): literal rules applied in
    declaration order to the whole text, each rule's output feeding the
    next. *)
Definition rewrite (rules : list (str * str)) (text : str) : str :=
  fold_left (fun t '(m, r) => replace m r t) rules text.

(** [splice(document, range, text)] (section 4.4): the text is cut into
    lines that keep their terminators, as [readlines] does. *)
Definition splice (d : doc) (r : range) (text : str) : splice_error + doc :=
  if range_ok d r
  then inr (take (rstart r) d ++ readlines text ++ drop (rend r) d)
  else inl RangeError.

(** * Lemmas *)

Section LocateFacts.
Context {M : Type} `{Marker M}.

(** Counting from [i] shifts every index by [i]. *)
Lemma find_from_shift (m : M) i lines :
  find_from m i lines = (fun k => i + k) <$> find_from m 0 lines.
Proof.
  revert i. induction lines as [|l ls IH]; intros i; simpl; [done|].
  destruct (marks m l); simpl; [f_equal; lia|].
  rewrite IH, (IH 1). destruct (find_from m 0 ls); simpl; [f_equal; lia|done].
Qed.

(** [find_from m 0] returns the index of the first line satisfying [m]. *)
Lemma find_from_spec (m : M) lines k :
  find_from m 0 lines = Some k <->
  (exists l, lines !! k = Some l /\ marks m l = true) /\
  (forall j l, j < k -> lines !! j = Some l -> marks m l = false).
Proof.
  revert k. induction lines as [|l ls IH]; intros k; simpl.
  { split; [done|]. intros ((l & Hl & _) & _). done. }
  rewrite find_from_shift.
  destruct (marks m l) eqn:Hm.
  - split.
    + intros [= <-]. split; [by exists l|]. intros; lia.
    + intros (_ & Hbefore). destruct k as [|k]; [done|].
      exfalso. assert (marks m l = false) as Hf by (apply (Hbefore 0); [lia|done]).
      congruence.
  - destruct (find_from m 0 ls) as [k'|] eqn:E; simpl.
    + destruct (proj1 (IH k') eq_refl) as ((l' & Hl' & Hm') & Hbefore). split.
      * intros [= <-]. split; [by exists l'|].
        intros [|j] l'' Hj Hjl; simpl in Hjl; [by simplify_eq|].
        apply (Hbefore j); [lia|done].
      * intros ((l'' & Hl'' & Hm'') & Hb). destruct k as [|k]; [simpl in *; congruence|].
        enough (Some k' = Some k) by congruence. apply IH.
        split; [by exists l''|]. intros j l3 Hj Hjl. apply (Hb (S j)); [lia|done].
    + split; [done|]. intros ((l'' & Hl'' & Hm'') & Hb).
      destruct k as [|k]; [simpl in *; congruence|].
      enough (None = Some k) by congruence. apply (IH k).
      split; [by exists l''|]. intros j l3 Hj Hjl. apply (Hb (S j)); [lia|done].
Qed.

(** [find_from m 0] finds nothing exactly when no line satisfies [m]. *)
Lemma find_from_none (m : M) lines :
  find_from m 0 lines = None <->
  (forall j l, lines !! j = Some l -> marks m l = false).
Proof.
  induction lines as [|l ls IH]; simpl.
  { split; [done|]. done. }
  rewrite find_from_shift. destruct (marks m l) eqn:Hm; simpl.
  - split; [done|]. intros H0. specialize (H0 0 l eq_refl). congruence.
  - destruct (find_from m 0 ls) eqn:E; simpl.
    + split; [done|]. intros H0. enough (Some n = None) by done.
      apply IH. intros j l' Hj. by apply (H0 (S j)).
    + split; [|done]. intros _ [|j] l' Hj; simpl in Hj; [by simplify_eq|].
      by apply (proj1 IH eq_refl j).
Qed.

(** [find_line] from [from]: the first satisfying index at [from] or later. *)
Lemma find_line_spec (m : M) from d k :
  find_line m from d = Some k <->
  from <= k /\ (exists l, d !! k = Some l /\ marks m l = true) /\
  (forall j l, from <= j < k -> d !! j = Some l -> marks m l = false).
Proof.
  unfold find_line. rewrite find_from_shift. split.
  - destruct (find_from m 0 (drop from d)) as [k'|] eqn:E; simpl; [|done].
    intros [= <-]. apply find_from_spec in E as ((l & Hl & Hm) & Hb).
    rewrite lookup_drop in Hl. split; [lia|]. split; [by exists l|].
    intros j l' Hj Hjl. apply (Hb (j - from)); [lia|].
    rewrite lookup_drop. by replace (from + (j - from)) with j by lia.
  - intros (Hk & (l & Hl & Hm) & Hb).
    assert (find_from m 0 (drop from d) = Some (k - from)) as ->; [|simpl; f_equal; lia].
    apply find_from_spec. split.
    + exists l. rewrite lookup_drop. by replace (from + (k - from)) with k by lia.
    + intros j l' Hj Hjl. rewrite lookup_drop in Hjl. apply (Hb (from + j)); [lia|done].
Qed.

Lemma find_line_0 (m : M) d : find_line m 0 d = find_from m 0 d.
Proof. done. Qed.

(** The first satisfying index of a list is also the first of any
    prefix that still contains it. *)
Lemma find_from_take (m : M) d k n :
  find_from m 0 d = Some k -> k < n -> find_from m 0 (take n d) = Some k.
Proof.
  rewrite !find_from_spec. intros ((l & Hl & Hm) & Hb) Hkn. split.
  - exists l. by rewrite lookup_take_lt.
  - intros j l' Hj Hjl. rewrite lookup_take_lt in Hjl by lia. by apply (Hb j).
Qed.

(** Searching a concatenation: the first part, then the second. *)
Lemma find_from_app (m : M) i A B :
  find_from m i (A ++ B) =
  match find_from m i A with Some k => Some k | None => find_from m (i + length A) B end.
Proof.
  revert i. induction A as [|l A IH]; intros i; simpl; [by rewrite Nat.add_0_r|].
  destruct (marks m l); [done|]. rewrite IH. by replace (S i + length A) with (i + S (length A)) by lia.
Qed.

(** Before the first satisfying index there is none. *)
Lemma find_from_take_none (m : M) d b L :
  find_from m 0 L = Some d -> b <= d -> find_from m 0 (take b L) = None.
Proof.
  rewrite find_from_spec, find_from_none. intros (_ & Hb) Hbd j l Hj.
  apply lookup_take_Some in Hj as [Hj Hjb]. apply (Hb j); [lia|done].
Qed.

(** The first satisfying index is within the list. *)
Lemma find_from_lt (m : M) L k : find_from m 0 L = Some k -> k < length L.
Proof. rewrite find_from_spec. intros ((l & Hl & _) & _). by apply lookup_lt_Some in Hl. Qed.

(** After dropping the lines before the first hit, the hit is first. *)
Lemma find_from_drop_hit (m : M) L k : find_from m 0 L = Some k -> find_from m 0 (drop k L) = Some 0.
Proof.
  rewrite !find_from_spec. intros ((l & Hl & Hm) & _).
  split; [exists l; by rewrite lookup_drop, Nat.add_0_r|]. intros; lia.
Qed.

(** What a successful two-marker [locate] found. *)
Lemma locate_inv d (start stop : M) from s e :
  locate d start (Some stop) from = inr (Range s e) ->
  find_line start from d = Some s /\ find_line stop (S s) d = Some e.
Proof.
  unfold locate. destruct (find_line start from d) as [s'|]; [|discriminate].
  destruct (find_line stop (S s') d) as [e'|] eqn:E; [|discriminate].
  intros [= <- <-]. by split.
Qed.
End LocateFacts.

(** A rule set none of whose (non-empty) patterns occurs in the text
    leaves it unchanged: rewriting already-rewritten text that has no
    further occurrence is the identity (section 8). *)
Lemma rewrite_absent rules text :
  Forall (fun '(m, _) => m <> [] /\ contains m text = false) rules ->
  rewrite rules text = text.
Proof.
  unfold rewrite. induction 1 as [|[m r] rules [Hne Hc] _ IH]; [done|].
  simpl. by rewrite replace_absent.
Qed.

(** A valid range splices; the text of the result is the text before the
    range, the new text, and the text after it. *)
(** A range within the document is spliced without error. *)
Lemma splice_ok d r text :
  rstart r <= rend r <= length d ->
  splice d r text = inr (take (rstart r) d ++ readlines text ++ drop (rend r) d).
Proof.
  intros Hr. unfold splice, range_ok.
  by rewrite (proj2 (Nat.leb_le _ _)), (proj2 (Nat.leb_le _ _)) by lia.
Qed.

Lemma splice_join d r text :
  rstart r <= rend r <= length d ->
  exists d', splice d r text = inr d' /\
             join d' = join (take (rstart r) d) ++ text ++ join (drop (rend r) d).
Proof.
  intros Hr. eexists; split; [by apply splice_ok|]. by rewrite !join_app, join_readlines.
Qed.

End Splice.
