(* ===== verification/FixBrowse.v ===== *)
(** * [src/fix_browse_function.py]: replace [browseFile] by a constant block

    The script reads the destination file as lines, scans them once for
    the first line containing [function browseFile(app)] (only while
    [browse_start] is still [None]) and for the first line containing
    [function detectMarkersFromField(app)] (where the loop breaks), prints
    both positions plus one (which raises [TypeError] when either is still
    [None]) and writes back [lines[:browse_start] + [juan_browse] +
    lines[detect_markers_start:]].  The scan is [scan] over a
    [scan_state] record holding the two loop variables; the whole script
    is [fix_browse_function] in the [PyM] monad over the file store.

    The theorems give the scan's result in closed form (first occurrences,
    the start searched only up to the stop line), the script's written
    text on success, its failure without any write when a marker is
    missing or out of order, and its refinement of the spec's
    [Splice.locate] and [Splice.splice] when the stop marker does not
    occur up to the start line.  The last section reads the written file
    back: its lines are the document [spliced] (the lines of the block in
    place of the replaced range), which is the spec's [splice] result,
    and a second run finds the block it wrote and changes nothing. *)

From S2P Require Import Prelude PyStr PyIO Lines Splice.
Import PyNotations.
Local Open Scope py_scope.

Module FixBrowse.
Import PyStr PyIO Lines Splice.


Definition browse_marker : str := txt "function browseFile(app)".
Definition detect_marker : str := txt "function detectMarkersFromField(app)".

(** The loop variables [browse_start] and [detect_markers_start]. *)
Record scan_state := ScanState {
  browse_start : option nat;
  detect_markers_start : option nat
}.

(** One iteration of the [for] body on line [i]: the updated variables
    and whether the loop breaks. *)
Definition scan_body (i : nat) (line : str) (st : scan_state) : scan_state * bool :=
  let st1 :=
    if contains browse_marker line && bool_decide (browse_start st = None)
    then ScanState (Some i) (detect_markers_start st)
    else st in
  if contains detect_marker line
  then (ScanState (browse_start st1) (Some i), true)
  else (st1, false).

(** [for i, line in enumerate(lines): ...] from index [i]. *)
Fixpoint scan (i : nat) (lines : list str) (st : scan_state) : scan_state :=
  match lines with
  | [] => st
  | line :: rest =>
      let '(st', brk) := scan_body i line st in
      if brk then st' else scan (S i) rest st'
  end.

(** JuanAnalyzer's [browseFile], the literal [juan_browse]. *)
Definition juan_browse : str := txt "        function browseFile(app)
            [file, path] = uigetfile({'*.mff;*.set;*.edf', 'EEG Files (*.mff, *.set, *.edf)'}, ...
                'Select EEG File');

            if file == 0
                return;
            end

            app.EEGFile = fullfile(path, file);
            app.FileInfoLabel.Text = sprintf('Loading: %s...', file);
            app.FileInfoLabel.FontColor = [0.5 0.5 0.5];
            drawnow;

            % Load file
            try
                if endsWith(file, '.mff')
                    EEG = pop_mffimport(app.EEGFile, {});
                else
                    EEG = pop_loadset(app.EEGFile);
                end
                app.EEG = EEG;
                app.FileInfoLabel.Text = sprintf('%s | %d channels | %d events | %.1f sec', ...
                    file, EEG.nbchan, length(EEG.event), EEG.xmax);
                app.FileInfoLabel.FontColor = [0.2 0.6 0.3];
                app.EventSelectionButton.Enable = 'on';
            catch ME
                uialert(app.UIFigure, sprintf('Failed to load file: %s', ME.message), 'Load Error');
                app.FileInfoLabel.Text = 'File load failed';
                app.FileInfoLabel.FontColor = [0.8 0.2 0.2];
            end
        end

".

(** The whole script. *)
Definition fix_browse_function : PyM unit :=
  lines <- readlines_file EEG_PATH ;;
  let st := scan 0 lines (ScanState None None) in
  match browse_start st with
  | None => praise TypeError
  | Some b =>
      match detect_markers_start st with
      | None => praise TypeError
      | Some d => writelines_file EEG_PATH (take b lines ++ [juan_browse] ++ drop d lines)
      end
  end.

(** * Example stores *)

(** A destination file with a header line, the old [browseFile], a line
    that mentions it again, an old helper, the stop line and a trailing
    line. *)
Definition ex_raw : str := txt "x
        function browseFile(app)
old
        % calls function browseFile(app)
        function loadFileInfo(app)
        function detectMarkersFromField(app)
rest
".

(** A destination file where the stop marker also occurs before the start
    marker. *)
Definition ex_rev_raw : str := txt "        function detectMarkersFromField(app)
        function browseFile(app)
old
        function detectMarkersFromField(app)
".

(** The store after one run of the script on [ex_raw]. *)
Definition ex_after : FS := (fix_browse_function {[EEG_PATH := ex_raw]}).2.

(** * The scan in closed form *)

(** One past the first line containing the stop marker, or the number of
    lines when there is none: the part of the list the loop visits. *)
Definition stop_cut (lines : list str) : nat :=
  match find_from detect_marker 0 lines with
  | Some d => S d
  | None => length lines
  end.

Lemma stop_cut_cons l ls :
  stop_cut (l :: ls) = if contains detect_marker l then 1 else S (stop_cut ls).
Proof.
  unfold stop_cut. simpl. unfold marks, literal_marker. rewrite (find_from_shift _ 1).
  destruct (contains detect_marker l); [done|].
  by destruct (find_from detect_marker 0 ls).
Qed.

(** The loop finds the first stop line, and the first start line among
    the lines it visits, unless a start line was already recorded. *)
Lemma scan_closed i lines b0 :
  scan i lines (ScanState b0 None) =
  ScanState
    (match b0 with
     | Some b => Some b
     | None => find_from browse_marker i (take (stop_cut lines) lines)
     end)
    (find_from detect_marker i lines).
Proof.
  revert i b0. induction lines as [|l ls IH]; intros i b0; simpl.
  { by destruct b0. }
  rewrite stop_cut_cons. unfold scan_body, marks, literal_marker. simpl.
  destruct (contains detect_marker l) eqn:Hd, (contains browse_marker l) eqn:Hb,
    b0 as [b|]; simpl; unfold marks, literal_marker; rewrite ?Hb; try done; rewrite IH; done.
Qed.
(** * The script *)

(** The run of the script on a store holding the destination file. *)
Lemma fix_browse_run fs raw :
  fs !! EEG_PATH = Some raw ->
  fix_browse_function fs =
  let lines := text_lines raw in
  match find_from browse_marker 0 (take (stop_cut lines) lines),
        find_from detect_marker 0 lines with
  | Some b, Some d =>
      (inr tt, <[EEG_PATH := join (take b lines ++ [juan_browse] ++ drop d lines)]> fs)
  | _, _ => (inl TypeError, fs)
  end.
Proof.
  intros Hraw. unfold fix_browse_function, readlines_file, pbind, pret.
  rewrite (read_file_ok _ _ _ Hraw). rewrite scan_closed. simpl.
  fold (text_lines raw). by repeat case_match.
Qed.

(** The start line found by the loop is never after the stop line. *)
Lemma browse_before_detect lines b d :
  find_from detect_marker 0 lines = Some d ->
  find_from browse_marker 0 (take (stop_cut lines) lines) = Some b ->
  b <= d.
Proof.
  unfold stop_cut. intros -> Hb. apply find_from_spec in Hb as ((l & Hl & _) & _).
  apply lookup_lt_Some in Hl. rewrite length_take in Hl. lia.
Qed.

(** ** Success *)

(** The write of the script once both markers are found. *)
Lemma fix_browse_found fs raw b d :
  fs !! EEG_PATH = Some raw ->
  find_from detect_marker 0 (text_lines raw) = Some d ->
  find_from browse_marker 0 (take (S d) (text_lines raw)) = Some b ->
  fix_browse_function fs =
  (inr tt, <[EEG_PATH := join (take b (text_lines raw)) ++ juan_browse ++
                         join (drop d (text_lines raw))]> fs).
Proof.
  intros Hraw Hd Hb. assert (stop_cut (text_lines raw) = S d) as Hcut
    by (unfold stop_cut; by rewrite Hd).
  rewrite (fix_browse_run _ _ Hraw). cbv zeta. rewrite Hcut, Hb, Hd.
  unfold join. by rewrite concat_app_singleton.
Qed.

(** (C1) When the file has a line containing the stop marker and one
    containing the start marker no later than the first stop line, the
    script writes back the lines before the first start line, the
    constant [juan_browse], and the lines from the first stop line on;
    no other file changes. *)
Theorem fix_browse_writes fs raw b d :
  fs !! EEG_PATH = Some raw ->
  find_from detect_marker 0 (text_lines raw) = Some d ->
  find_from browse_marker 0 (take (S d) (text_lines raw)) = Some b ->
  b <= d /\
  fix_browse_function fs =
  (inr tt, <[EEG_PATH := join (take b (text_lines raw)) ++ juan_browse ++
                         join (drop d (text_lines raw))]> fs).
Proof.
  intros Hraw Hd Hb. split; [|by apply fix_browse_found].
  apply (browse_before_detect (text_lines raw)); [done|].
  unfold stop_cut. by rewrite Hd.
Qed.

(** ** Failure *)

(** (C2) When the file has no line containing the stop marker, or no
    line containing the start marker up to the first stop line, the
    script raises [TypeError] (formatting [None + 1]) and the store is
    left as it was: nothing is written. *)
Theorem fix_browse_no_write fs raw :
  fs !! EEG_PATH = Some raw ->
  (find_from detect_marker 0 (text_lines raw) = None \/
   find_from browse_marker 0 (take (stop_cut (text_lines raw)) (text_lines raw)) = None) ->
  fix_browse_function fs = (inl TypeError, fs).
Proof.
  intros Hraw Hnone. rewrite (fix_browse_run _ _ Hraw). simpl.
  destruct Hnone as [-> | ->]; by repeat case_match.
Qed.

(** A missing destination file raises [FileNotFoundError] before anything
    else happens. *)
Lemma fix_browse_missing_file fs :
  fs !! EEG_PATH = None ->
  fix_browse_function fs = (inl (FileNotFoundError EEG_PATH), fs).
Proof.
  intros H. unfold fix_browse_function, readlines_file, pbind.
  by rewrite (read_file_missing _ _ H).
Qed.
(** ** Refinement of the spec's block splicer *)

(** (C3) Whenever the spec's [locate] finds the range [\[s, e)] from the
    start marker to the next stop marker, and the stop marker does not
    occur on or before the start line, the script writes exactly the
    text of the spec's [splice] of [juan_browse] over that range. *)
Theorem fix_browse_refines_splice fs raw s e :
  fs !! EEG_PATH = Some raw ->
  locate (text_lines raw) browse_marker (Some detect_marker) 0 = inr (Range s e) ->
  find_from detect_marker 0 (take (S s) (text_lines raw)) = None ->
  exists lines', splice (text_lines raw) (Range s e) juan_browse = inr lines' /\
                 fix_browse_function fs = (inr tt, <[EEG_PATH := join lines']> fs).
Proof.
  intros Hraw Hloc Hno. apply locate_inv in Hloc as [Hs He].
  rewrite find_from_none in Hno.
  rewrite find_line_0 in Hs. apply find_line_spec in He as (Hse & (l & Hl & Hm) & Hbe).
  assert (find_from detect_marker 0 (text_lines raw) = Some e) as Hd.
  { apply find_from_spec. split; [by exists l|]. intros j l' Hj Hjl.
    destruct (decide (j <= s)); [|apply (Hbe j); [lia|done]].
    apply (Hno j). by rewrite lookup_take_lt by lia. }
  destruct (splice_join (text_lines raw) (Range s e) juan_browse) as (d' & Hsp & Hj).
  { cbn [rstart rend]. apply lookup_lt_Some in Hl. lia. }
  exists d'. split; [done|]. rewrite Hj. cbn [rstart rend].
  apply fix_browse_found; [done|done|]. apply find_from_take; [done|lia].
Qed.
(** ** The order of the markers *)

(** (C4) The script searches the stop marker from the first line, not
    from the line after the start marker as the spec's [locate] does:
    whenever the stop marker occurs before the start line that [locate]
    finds, [locate] gives a range but the script raises [TypeError] and
    writes nothing. *)
Theorem fix_browse_order_divergence fs raw s e d :
  fs !! EEG_PATH = Some raw ->
  locate (text_lines raw) browse_marker (Some detect_marker) 0 = inr (Range s e) ->
  find_from detect_marker 0 (text_lines raw) = Some d -> d < s ->
  fix_browse_function fs = (inl TypeError, fs).
Proof.
  intros Hraw Hloc Hd Hds. apply locate_inv in Hloc as [Hs _].
  unfold find_line in Hs. rewrite drop_0 in Hs.
  rewrite (fix_browse_run _ _ Hraw). cbv zeta. unfold stop_cut.
  rewrite Hd, (find_from_take_none _ s (S d)); [reflexivity|exact Hs|lia].
Qed.

(** ** Reading the result back and running the script again *)

(** The facts about the block [juan_browse] the proofs use, by
    evaluation: it is one or more complete lines, the first of which
    holds the start marker, and none the stop marker. *)
Lemma juan_browse_lines :
  ends_lf juan_browse /\ (CR ∉ juan_browse) /\
  find_from browse_marker 0 (readlines juan_browse) = Some 0 /\
  find_from detect_marker 0 (readlines juan_browse) = None.
Proof. split_and!; [by vm_compute; right| |vm_compute; reflexivity|vm_compute; reflexivity].
  apply (bool_decide_unpack _). vm_compute. exact I.
Qed.

(** The lines of a text read in text mode carry no carriage return, nor
    does the join of any of them. *)
Lemma text_lines_cr_free raw X : X ⊆ text_lines raw -> CR ∉ join X.
Proof.
  intros HX Hc. apply (translate_newlines_cr_free raw).
  rewrite <- (join_readlines (translate_newlines raw)). unfold join in *.
  apply list_elem_of_In, in_concat in Hc as (l & Hl & Hcl).
  apply list_elem_of_In, in_concat. exists l. split; [|done].
  apply list_elem_of_In, HX. by apply list_elem_of_In.
Qed.

(** The document the script writes: the lines before [b], the lines of
    the block, the lines from [d]. *)
Definition spliced (L : list str) (b d : nat) : list str :=
  take b L ++ readlines juan_browse ++ drop d L.

Lemma spliced_doc_ok raw b d :
  b <= d -> d < length (text_lines raw) -> doc_ok (spliced (text_lines raw) b d).
Proof.
  intros Hbd Hd. pose proof (doc_ok_readlines (translate_newlines raw)) as HL.
  destruct juan_browse_lines as (Hlf & _).
  destruct (doc_ok_take _ b HL) as [Ht He]; [unfold text_lines in Hd; lia|].
  apply doc_ok_app; [done| |done].
  apply doc_ok_app; [apply doc_ok_readlines|by apply doc_ok_drop|by rewrite join_readlines].
Qed.

(** The text written is the join of [spliced], and it reads back as it. *)
Lemma spliced_text raw b d :
  b <= d -> d < length (text_lines raw) ->
  join (take b (text_lines raw)) ++ juan_browse ++ join (drop d (text_lines raw)) =
    join (spliced (text_lines raw) b d) /\
  text_lines (join (spliced (text_lines raw) b d)) = spliced (text_lines raw) b d.
Proof.
  intros Hbd Hd. split; [unfold spliced; by rewrite !join_app, join_readlines|].
  unfold text_lines at 1. rewrite translate_newlines_no_cr; [by apply readlines_join, spliced_doc_ok|].
  unfold spliced. rewrite !join_app, join_readlines.
  destruct juan_browse_lines as (_ & Hcr & _).
  rewrite !elem_of_app. intros [Hc|[Hc|Hc]]; [| done |];
    [eapply (text_lines_cr_free raw _ (subseteq_take b _))|
     eapply (text_lines_cr_free raw _ (subseteq_drop d _))]; exact Hc.
Qed.

(** The positions the script uses when both markers are found. *)
Lemma found_bounds L b d :
  find_from detect_marker 0 L = Some d ->
  find_from browse_marker 0 (take (S d) L) = Some b -> b <= d < length L.
Proof.
  intros Hd Hb. apply find_from_lt in Hd as Hdl. apply find_from_lt in Hb.
  rewrite length_take in Hb. lia.
Qed.

(** In the written document the block's first line is the first start
    line and the first stop line follows the block. *)
Lemma spliced_markers L b d :
  find_from detect_marker 0 L = Some d ->
  find_from browse_marker 0 (take (S d) L) = Some b ->
  find_from detect_marker 0 (spliced L b d) = Some (b + length (readlines juan_browse)) /\
  find_from browse_marker 0 (spliced L b d) = Some b.
Proof.
  intros Hd Hb. destruct (found_bounds _ _ _ Hd Hb) as [Hbd Hdl].
  destruct juan_browse_lines as (_ & _ & Hjb & Hjd).
  assert (length (take b L) = b) as Hlen by (rewrite length_take; lia).
  pose proof (find_from_take_none _ _ _ _ Hb (Nat.le_refl b)) as Hbt.
  rewrite take_take, Nat.min_l in Hbt by lia.
  unfold spliced. set (R := readlines juan_browse) in *. clearbody R.
  rewrite !find_from_app, Hlen. split.
  - rewrite (find_from_take_none _ _ _ _ Hd Hbd), (find_from_shift _ (0 + b)), Hjd.
    rewrite find_from_shift, (find_from_drop_hit _ _ _ Hd). cbn. f_equal. lia.
  - rewrite Hbt, (find_from_shift _ (0 + b)), Hjb. cbn. f_equal. lia.
Qed.

(** (C22) Reading the written file back: when the script succeeds, the
    lines of the text it writes, read again in text mode, are exactly
    the document the spec's [splice] makes by replacing the lines from
    the first start line up to the first stop line with the lines of
    [juan_browse]. *)
Theorem fix_browse_reread fs raw b d :
  fs !! EEG_PATH = Some raw ->
  find_from detect_marker 0 (text_lines raw) = Some d ->
  find_from browse_marker 0 (take (S d) (text_lines raw)) = Some b ->
  exists out, fix_browse_function fs = (inr tt, <[EEG_PATH := out]> fs) /\
    splice (text_lines raw) (Range b d) juan_browse = inr (text_lines out).
Proof.
  intros Hraw Hd Hb. destruct (found_bounds _ _ _ Hd Hb) as [Hbd Hdl].
  destruct (spliced_text raw b d Hbd Hdl) as [Hj Ht].
  exists (join (spliced (text_lines raw) b d)). split.
  - rewrite (fix_browse_found _ _ _ _ Hraw Hd Hb). by rewrite Hj.
  - rewrite Ht. apply splice_ok. cbn. lia.
Qed.

(** (C23) The script is idempotent: once it has succeeded, running it
    again finds the block it wrote and writes the same text back. *)
Theorem fix_browse_idempotent fs fs' :
  fix_browse_function fs = (inr tt, fs') -> fix_browse_function fs' = (inr tt, fs').
Proof.
  intros H. destruct (fs !! EEG_PATH) as [raw|] eqn:Hraw;
    [|by rewrite fix_browse_missing_file in H].
  pose proof (fix_browse_run _ _ Hraw) as Hrun. cbv zeta in Hrun. unfold stop_cut in Hrun.
  destruct (find_from detect_marker 0 (text_lines raw)) as [d|] eqn:Hd;
    [|by rewrite Hrun in H; case_match].
  destruct (find_from browse_marker 0 (take (S d) (text_lines raw))) as [b|] eqn:Hb;
    [|by rewrite Hrun in H].
  destruct (found_bounds _ _ _ Hd Hb) as [Hbd Hdl].
  destruct (spliced_text raw b d Hbd Hdl) as [Hj Ht].
  destruct (spliced_markers _ _ _ Hd Hb) as [Hd' Hb'].
  rewrite (fix_browse_found _ _ _ _ Hraw Hd Hb), Hj in H. injection H as <-.
  rewrite (fix_browse_found _ (join (spliced (text_lines raw) b d)) b
             (b + length (readlines juan_browse)));
    [|apply lookup_insert_eq|by rewrite Ht|rewrite Ht; apply find_from_take; [done|lia]].
  rewrite insert_insert_eq, Ht, <- Hj. do 3 f_equal; unfold spliced.
  - by rewrite take_app_le, take_take, Nat.min_id by (rewrite length_take; lia).
  - rewrite app_assoc, drop_app_length'; [done|]. rewrite length_app, length_take. lia.
Qed.

(** * Witnesses *)

Lemma fix_browse_writes_witness :
  1 <= 5 /\
  fix_browse_function {[EEG_PATH := ex_raw]} =
  (inr tt, <[EEG_PATH := join (take 1 (text_lines ex_raw)) ++ juan_browse ++
                         join (drop 5 (text_lines ex_raw))]> {[EEG_PATH := ex_raw]}).
Proof.
  apply (fix_browse_writes {[EEG_PATH := ex_raw]} ex_raw 1 5).
  - apply lookup_singleton_eq.
  - vm_compute. reflexivity.
  - vm_compute. reflexivity.
Defined.

Lemma fix_browse_no_write_witness :
  fix_browse_function {[EEG_PATH := txt "x"]} = (inl TypeError, {[EEG_PATH := txt "x"]}).
Proof.
  apply (fix_browse_no_write {[EEG_PATH := txt "x"]} (txt "x")).
  - apply lookup_singleton_eq.
  - left. vm_compute. reflexivity.
Defined.

Lemma fix_browse_refines_splice_witness :
  exists lines', splice (text_lines ex_raw) (Range 1 5) juan_browse = inr lines' /\
                 fix_browse_function {[EEG_PATH := ex_raw]} =
                 (inr tt, <[EEG_PATH := join lines']> {[EEG_PATH := ex_raw]}).
Proof.
  apply (fix_browse_refines_splice {[EEG_PATH := ex_raw]} ex_raw 1 5).
  - apply lookup_singleton_eq.
  - vm_compute. reflexivity.
  - vm_compute. reflexivity.
Defined.

Lemma fix_browse_order_divergence_witness :
  locate (text_lines ex_rev_raw) browse_marker (Some detect_marker) 0 = inr (Range 1 3) /\
  fix_browse_function {[EEG_PATH := ex_rev_raw]} = (inl TypeError, {[EEG_PATH := ex_rev_raw]}).
Proof.
  assert (locate (text_lines ex_rev_raw) browse_marker (Some detect_marker) 0 = inr (Range 1 3)) as H
    by (vm_compute; reflexivity).
  split; [exact H|]. apply (fix_browse_order_divergence _ ex_rev_raw 1 3 0);
    [apply lookup_singleton_eq|exact H|vm_compute; reflexivity|lia].
Defined.

Lemma fix_browse_reread_witness :
  exists out, fix_browse_function {[EEG_PATH := ex_raw]} =
              (inr tt, <[EEG_PATH := out]> {[EEG_PATH := ex_raw]}) /\
    splice (text_lines ex_raw) (Range 1 5) juan_browse = inr (text_lines out).
Proof.
  apply (fix_browse_reread {[EEG_PATH := ex_raw]} ex_raw 1 5).
  - apply lookup_singleton_eq.
  - vm_compute. reflexivity.
  - vm_compute. reflexivity.
Defined.

Lemma fix_browse_idempotent_witness :
  fix_browse_function {[EEG_PATH := ex_raw]} = (inr tt, ex_after) /\
  fix_browse_function ex_after = (inr tt, ex_after).
Proof.
  assert (fix_browse_function {[EEG_PATH := ex_raw]} = (inr tt, ex_after)) as H
    by (vm_compute; reflexivity).
  split; [exact H|]. exact (fix_browse_idempotent _ _ H).
Defined.

End FixBrowse.
