(* ===== verification/FixUpload.v ===== *)
(** * [src/fix_upload_panel.py]: graft JuanAnalyzer's [createUploadPanel]

    The script reads both MATLAB files as lines, cuts the fixed donor
    range [juan_lines[105:188]], joins it, applies two literal
    [str.replace] rules ([upload_rules]), re-splits the text on ['\n']
    keeping only the non-empty pieces, each with a ['\n'] put back
    ([relines]), and writes [eeg_lines[:157] + block + ['\n'] +
    eeg_lines[352:]] back to the destination.  [fix_upload_panel] is the
    whole script in the [PyM] monad.

    The theorems give the written text, the behaviour of [relines] (a
    round trip on well-formed lines, and the loss of blank lines), the
    silent clamping of the hard-coded ranges on short files, the number
    of lines actually removed against the printed report, the
    refinement of the spec's extract/rewrite/splice pipeline, and what a
    destination without a final newline reads back as. *)

From S2P Require Import Prelude PyStr PyIO Lines Splice.
Import PyNotations.
Local Open Scope py_scope.

Module FixUpload.
Import PyStr PyIO Lines Splice.


(** The two literal substitutions, in the order the script applies them. *)
Definition upload_rules : list (str * str) :=
  [(txt "Juan Analyzer", txt "EEG Quality Analyzer");
   (txt "Manual Event Selection | N400, N250, P600 Components",
    txt "Automated Quality Assessment with Manual Event Selection")].

(** [juan_upload_str.replace(...)] twice. *)
Definition customize (s : str) : str :=
  replace (txt "Manual Event Selection | N400, N250, P600 Components")
          (txt "Automated Quality Assessment with Manual Event Selection")
          (replace (txt "Juan Analyzer") (txt "EEG Quality Analyzer") s).

(** Python truthiness of a string: [if line]. *)
Definition truthy (s : str) : bool :=
  match s with [] => false | _ :: _ => true end.

(** [[line + '\n' for line in s.split('\n') if line]] *)
Definition relines (s : str) : list str :=
  map (fun line => line ++ [LF]) (List.filter truthy (split_char LF s)).

(** The new destination lines, from the two line lists. *)
Definition new_lines (eeg_lines juan_lines : list str) : list str :=
  let juan_upload := slice 105 188 juan_lines in
  let juan_upload_str := customize (join juan_upload) in
  let juan_upload_lines := relines juan_upload_str in
  take 157 eeg_lines ++ juan_upload_lines ++ [[LF]] ++ drop 352 eeg_lines.

(** The whole script. *)
Definition fix_upload_panel : PyM unit :=
  eeg_lines <- readlines_file EEG_PATH ;;
  juan_lines <- readlines_file JUAN_PATH ;;
  writelines_file EEG_PATH (new_lines eeg_lines juan_lines).

(** * Lemmas *)

(** The two [replace] calls are the spec's ordered rule list. *)
Lemma customize_rewrite s : customize s = rewrite upload_rules s.
Proof. reflexivity. Qed.

(** A line of a well-formed block: non-empty, with no ['\n'] inside. *)
Definition line_body (w : str) : Prop := w <> [] /\ LF ∉ w.

#[export] Instance line_body_dec w : Decision (line_body w).
Proof. unfold line_body. apply _. Defined.

(** The text of well-formed lines, each followed by ['\n']. *)
Definition lines_text (ws : list str) : str := concat (map (fun w => w ++ [LF]) ws).

Lemma split_lines_text ws :
  Forall line_body ws -> split_char LF (lines_text ws) = ws ++ [[]].
Proof.
  unfold lines_text. induction 1 as [|w ws [Hne Hlf] _ IH]; [done|].
  simpl. rewrite <- app_assoc. simpl.
  by rewrite split_char_app, split_char_nosep, IH.
Qed.

(** Keeping the non-empty pieces of the split of well-formed lines gives
    the lines back. *)
Lemma filter_truthy_lines ws :
  Forall line_body ws -> List.filter truthy (split_char LF (lines_text ws)) = ws.
Proof.
  intros Hws. rewrite split_lines_text, List.filter_app by done. simpl.
  rewrite app_nil_r. induction Hws as [|w ws [Hne _] _ IH]; [done|]. simpl.
  destruct w; [done|]. simpl. by rewrite IH.
Qed.

(** (C7) Round trip: re-splitting the text of well-formed lines (non-empty,
    no ['\n'] inside) gives back those lines, each with its ['\n']. *)
Theorem relines_lines_text ws :
  Forall line_body ws ->
  relines (lines_text ws) = map (fun w => w ++ [LF]) ws.
Proof. intros Hws. unfold relines. by rewrite filter_truthy_lines. Qed.

(** (C6) The re-split drops every blank line of the donor block: a text
    with an empty line re-splits exactly as the text without it. *)
Theorem relines_drops_blank a b :
  relines (a ++ [LF; LF] ++ b) = relines (a ++ [LF] ++ b).
Proof.
  unfold relines. simpl. rewrite !split_char_app. simpl.
  by rewrite !List.filter_app.
Qed.

(** Every piece [relines] keeps is a line body. *)
Lemma truthy_line_bodies s : Forall line_body (List.filter truthy (split_char LF s)).
Proof.
  pose proof (split_char_no_sep LF s) as H. rewrite List.Forall_forall in H.
  apply List.Forall_forall. intros w Hw. apply filter_In in Hw as [Hw Ht].
  split; [by destruct w|]. by apply H.
Qed.

(** Reading back the text of well-formed lines, followed by more text. *)
Lemma readlines_lines_text bs y :
  Forall line_body bs -> readlines (lines_text bs ++ y) = map (fun b => b ++ [LF]) bs ++ readlines y.
Proof.
  unfold lines_text. induction 1 as [|b bs [_ Hb] _ IH]; [done|]. cbn [map concat].
  rewrite <- !app_assoc. cbn [app]. rewrite readlines_line by done. by rewrite IH.
Qed.

(** The run of the script on a store holding both files. *)
Lemma fix_upload_run fs raw_eeg raw_juan :
  fs !! EEG_PATH = Some raw_eeg -> fs !! JUAN_PATH = Some raw_juan ->
  fix_upload_panel fs =
  (inr tt, <[EEG_PATH := join (new_lines (text_lines raw_eeg) (text_lines raw_juan))]> fs).
Proof.
  intros He Hj. unfold fix_upload_panel, pbind at 1.
  rewrite (readlines_file_ok _ _ _ He). unfold pbind.
  by rewrite (readlines_file_ok _ _ _ Hj).
Qed.
(** (C8) The hard-coded destination range is not checked against the
    file: on a destination of at most 157 lines nothing is removed and
    the block and the blank line are appended at the end of the file. *)
Theorem fix_upload_short_destination eeg juan :
  length eeg <= 157 ->
  new_lines eeg juan =
  eeg ++ relines (customize (join (slice 105 188 juan))) ++ [[LF]].
Proof.
  intros Hlen. unfold new_lines.
  rewrite take_ge, drop_ge by lia. by rewrite app_nil_r.
Qed.

(** The script removes the [min n 352 - min n 157] lines
    [eeg_lines[157:352]] of an [n]-line destination and adds the block and
    one blank line; the count it prints, [352 - 157 = 195], is the number
    removed only when the destination has at least 352 lines. *)
Theorem fix_upload_removed_lines eeg juan :
  length (new_lines eeg juan) + length (slice 157 352 eeg) =
  length eeg + length (relines (customize (join (slice 105 188 juan)))) + 1 /\
  (length (slice 157 352 eeg) = 352 - 157 <-> 352 <= length eeg).
Proof.
  unfold new_lines, slice. rewrite !length_app, !length_take, !length_drop. cbn [length].
  split; lia.
Qed.
(** (C5) Refinement of the spec's pipeline: when the destination has at
    least 352 lines and the customized donor text is made of well-formed
    lines, the script writes exactly the text of the spec's [splice] over
    [\[157, 352)] of that text followed by one blank line, the text being
    the spec's [rewrite] of the spec's [extract] of [\[105, 188)]. *)
Theorem fix_upload_refines_splice fs raw_eeg raw_juan ws :
  fs !! EEG_PATH = Some raw_eeg -> fs !! JUAN_PATH = Some raw_juan ->
  352 <= length (text_lines raw_eeg) ->
  rewrite upload_rules (extract (text_lines raw_juan) (Range 105 188)) = lines_text ws ->
  Forall line_body ws ->
  exists d', splice (text_lines raw_eeg) (Range 157 352) (lines_text ws ++ [LF]) = inr d' /\
             fix_upload_panel fs = (inr tt, <[EEG_PATH := join d']> fs).
Proof.
  intros He Hj Hlen Hrw Hws.
  destruct (splice_join (text_lines raw_eeg) (Range 157 352) (lines_text ws ++ [LF]))
    as (d' & Hsp & Hjoin); [simpl; lia|].
  exists d'. split; [done|]. rewrite Hjoin, (fix_upload_run _ _ _ He Hj).
  unfold new_lines. rewrite customize_rewrite. cbn [rstart rend].
  change (join (slice 105 188 (text_lines raw_juan))) with (extract (text_lines raw_juan) (Range 105 188)).
  rewrite Hrw. unfold relines. rewrite filter_truthy_lines, !join_app by done.
  rewrite <- app_assoc. reflexivity.
Qed.

(** (C36) On a destination of at most 157 lines whose last line has no
    ['\n'] (a file that does not end with a newline), the written lines
    [eeg_lines + block + ['\n']] do not read back as those lines: the
    first line of the block is glued onto the last destination line. *)
Theorem fix_upload_glued_line fs raw_eeg raw_juan pre last w ws :
  fs !! EEG_PATH = Some raw_eeg -> fs !! JUAN_PATH = Some raw_juan ->
  text_lines raw_eeg = pre ++ [last] -> length pre < 157 -> ~ ends_lf last ->
  relines (customize (join (slice 105 188 (text_lines raw_juan)))) = w :: ws ->
  exists out, fix_upload_panel fs = (inr tt, <[EEG_PATH := out]> fs) /\
    readlines out = pre ++ (last ++ w) :: ws ++ [[LF]].
Proof.
  intros He Hj Hl Hpre Hlast Hw. rewrite (fix_upload_run _ _ _ He Hj).
  eexists; split; [done|].
  pose proof (doc_ok_readlines (translate_newlines raw_eeg)) as Hdoc.
  fold (text_lines raw_eeg) in Hdoc. rewrite Hl in Hdoc.
  destruct (doc_ok_take _ (length pre) Hdoc) as [Hpd Hpe]; [rewrite length_app; simpl; lia|].
  rewrite take_app_length in Hpd, Hpe.
  assert (LF ∉ last) as Hnl.
  { apply line_ok_no_lf; [|done]. destruct Hdoc as [Hf _].
    apply Forall_app in Hf as [_ Hf]. by inversion Hf. }
  unfold new_lines. rewrite Hl, Hw, take_ge, drop_ge, app_nil_r by (rewrite length_app; simpl; lia).
  unfold relines in Hw. pose proof (truthy_line_bodies (customize (join (slice 105 188 (text_lines raw_juan))))) as Hb.
  destruct (List.filter truthy _) as [|b0 bs]; [discriminate|]. injection Hw as <- <-.
  inversion Hb as [|? ? [_ Hb0] Hbs]; subst.
  rewrite <- app_assoc, join_app, readlines_app, readlines_join by done. f_equal.
  replace (join ([last] ++ ((b0 ++ [LF]) :: map (fun b => b ++ [LF]) bs) ++ [[LF]]))
    with ((last ++ b0) ++ LF :: (lines_text bs ++ [LF]))
    by (unfold join, lines_text; rewrite !concat_app; cbn [concat];
        by rewrite !app_nil_r, <- !app_assoc).
  rewrite readlines_line by (rewrite elem_of_app; tauto). f_equal; [by rewrite <- app_assoc|].
  by rewrite readlines_lines_text.
Qed.

(** * Witnesses *)

(** A 400-line destination and a 200-line donor whose lines name the
    donor application. *)
Definition ex_eeg : str := concat (replicate 400 (txt "l
")).
Definition ex_juan : str := concat (replicate 200 (txt "Juan Analyzer
")).
Definition ex_store : FS := <[JUAN_PATH := ex_juan]> {[EEG_PATH := ex_eeg]}.

(** A two-line destination without a final newline, and the customized
    donor line. *)
Definition ex_short : str := txt "a
b".
Definition ex_upload_line : str := txt "EEG Quality Analyzer
".
Definition ex_short_store : FS := <[JUAN_PATH := ex_juan]> {[EEG_PATH := ex_short]}.

Lemma relines_lines_text_witness :
  Forall line_body [txt "a"; txt "  end"] /\
  relines (lines_text [txt "a"; txt "  end"]) = map (fun w => w ++ [LF]) [txt "a"; txt "  end"].
Proof.
  assert (Forall line_body [txt "a"; txt "  end"]) as H
    by (apply (bool_decide_unpack _); vm_compute; exact I).
  split; [exact H|apply (relines_lines_text _ H)].
Defined.

Lemma fix_upload_short_destination_witness :
  new_lines [txt "l"] [] = [txt "l"] ++ relines (customize (join (slice 105 188 []))) ++ [[LF]].
Proof. apply fix_upload_short_destination. simpl. lia. Defined.

Lemma fix_upload_refines_splice_witness :
  exists d', splice (text_lines ex_eeg) (Range 157 352)
               (lines_text (replicate 83 (txt "EEG Quality Analyzer")) ++ [LF]) = inr d' /\
             fix_upload_panel ex_store = (inr tt, <[EEG_PATH := join d']> ex_store).
Proof.
  apply (fix_upload_refines_splice ex_store ex_eeg ex_juan).
  - vm_compute. reflexivity.
  - vm_compute. reflexivity.
  - vm_compute. lia.
  - vm_compute. reflexivity.
  - apply (bool_decide_unpack _). vm_compute. exact I.
Defined.

Lemma fix_upload_glued_line_witness :
  exists out, fix_upload_panel ex_short_store = (inr tt, <[EEG_PATH := out]> ex_short_store) /\
    readlines out = [txt "a
"] ++ (txt "b" ++ ex_upload_line) :: replicate 82 ex_upload_line ++ [[LF]].
Proof.
  apply (fix_upload_glued_line ex_short_store ex_short ex_juan).
  - vm_compute. reflexivity.
  - vm_compute. reflexivity.
  - vm_compute. reflexivity.
  - simpl. lia.
  - apply (bool_decide_unpack _). vm_compute. exact I.
  - vm_compute. reflexivity.
Defined.
End FixUpload.
