(* ===== verification/PyRe.v ===== *)
(** * The subset of Python's [re] engine the scripts use: matching

    The patterns of [src/update_gui_workflow.py] use literal characters
    (some escaped: [\(], [\)], [\.], [\n]), [.], [\s], single-character
    repetitions [*?] and [+], capturing groups and one alternation.
    [re] is their syntax tree, [compile] the parser from the pattern text
    (the subset only: anything else is [None]), and [mtch] the
    backtracking matcher in continuation-passing style, which explores
    the alternatives in the order of CPython's [sre] engine: the left
    branch of [|] first, the longest repetition first for greedy and the
    shortest first for lazy quantifiers.  [search_from] is
    [pattern.search] from a position, with the [must_advance] flag that
    [re.sub] sets after an empty match.

    Lemmas: the soundness of the matcher against the declarative
    acceptance relation [accepts] (what it reports is accepted, which
    bounds the matches [search_from] returns), the group numbering of the
    parser, the shape of the matches of literal patterns, of a greedy
    repetition followed by a literal, and of chains of literals joined by
    lazy gaps under [re.DOTALL] ([gap_chain], [chain_len]). *)

From S2P Require Import Prelude PyStr.

Module PyRe.
Import PyStr.

(** ** Syntax *)

(** The one-character classes. *)
Inductive cset :=
  | CChar (c : ascii)   (** a literal character *)
  | CAny                (** [.]: any character but ['\n'] unless DOTALL *)
  | CSpace.             (** [\s]: [str.isspace] *)

Inductive re :=
  | REps                                   (** the empty pattern *)
  | RSet (cs : cset)                       (** one character of the class *)
  | RRep (cs : cset) (min : nat) (greedy : bool)
      (** [cs*] ([min = 0]) or [cs+] ([min = 1]); lazy with [?] *)
  | RSeq (r1 r2 : re)
  | RAlt (r1 r2 : re)
  | RGroup (n : nat) (r : re).             (** capturing group number [n] *)

(** The flags the scripts pass: only [re.DOTALL] matters. *)
Record flags := Flags { dotall : bool }.

Definition NOFLAGS : flags := Flags false.
Definition DOTALL : flags := Flags true.

(** Captured groups, the latest binding first. *)
Abbreviation caps := (list (nat * str)).

Definition cap_lookup (n : nat) (cs : caps) : option str :=
  snd <$> List.find (fun p => Nat.eqb (fst p) n) cs.

Definition cset_match (fl : flags) (cs : cset) (c : ascii) : bool :=
  match cs with
  | CChar d => Ascii.eqb c d
  | CAny => dotall fl || negb (Ascii.eqb c LF)
  | CSpace => isspace c
  end.

(** ** The backtracking matcher *)

Section Matcher.
Context {R : Type} (fl : flags).

(** [p*?] with at least [mn] characters: the continuation first, then one
    more character. *)
Fixpoint rep_lazy (p : ascii -> bool) (mn : nat) (s : str) (k : str -> option R)
  : option R :=
  match mn with
  | S mn' =>
      match s with
      | c :: s' => if p c then rep_lazy p mn' s' k else None
      | [] => None
      end
  | O =>
      match k s with
      | Some x => Some x
      | None =>
          match s with
          | c :: s' => if p c then rep_lazy p 0 s' k else None
          | [] => None
          end
      end
  end.

(** [p*] with at least [mn] characters: one more character first, then
    the continuation. *)
Fixpoint rep_greedy (p : ascii -> bool) (mn : nat) (s : str) (k : str -> option R)
  : option R :=
  let stop := if Nat.eqb mn 0 then k s else None in
  match s with
  | c :: s' =>
      if p c then
        match rep_greedy p (pred mn) s' k with
        | Some x => Some x
        | None => stop
        end
      else stop
  | [] => stop
  end.

(** [mtch r s cs k]: match [r] at the start of [s] with captures [cs],
    then run the continuation [k] on the rest and the captures; the first
    success in backtracking order is the result. *)
Fixpoint mtch (r : re) (s : str) (cs : caps) (k : str -> caps -> option R)
  : option R :=
  match r with
  | REps => k s cs
  | RSet c =>
      match s with
      | d :: s' => if cset_match fl c d then k s' cs else None
      | [] => None
      end
  | RRep c mn true => rep_greedy (cset_match fl c) mn s (fun s' => k s' cs)
  | RRep c mn false => rep_lazy (cset_match fl c) mn s (fun s' => k s' cs)
  | RSeq r1 r2 => mtch r1 s cs (fun s1 cs1 => mtch r2 s1 cs1 k)
  | RAlt r1 r2 =>
      match mtch r1 s cs k with
      | Some x => Some x
      | None => mtch r2 s cs k
      end
  | RGroup n r1 =>
      mtch r1 s cs (fun s1 cs1 => k s1 ((n, take (length s - length s1) s) :: cs1))
  end.
End Matcher.

(** ** Parsing a pattern *)

Definition is_letter (c : ascii) : bool :=
  let n := Ascii.nat_of_ascii c in (Nat.leb 65 n && Nat.leb n 90) || (Nat.leb 97 n && Nat.leb n 122).

Definition is_digit (c : ascii) : bool :=
  let n := Ascii.nat_of_ascii c in Nat.leb 48 n && Nat.leb n 57.

(** [\c] in a pattern: [\s] is the whitespace class; [\a \f \n \r \t \v \\]
    are the control characters; any other letter or digit is a class,
    a reference or an error (outside the subset); any other character
    stands for itself. *)
Definition escape_class (c : ascii) : option cset :=
  match Ascii.nat_of_ascii c with
  | 115 => Some CSpace                          (* s *)
  | 97 => Some (CChar (Ascii.ascii_of_nat 7))   (* a *)
  | 102 => Some (CChar (Ascii.ascii_of_nat 12)) (* f *)
  | 110 => Some (CChar LF)                      (* n *)
  | 114 => Some (CChar CR)                      (* r *)
  | 116 => Some (CChar (Ascii.ascii_of_nat 9))  (* t *)
  | 118 => Some (CChar (Ascii.ascii_of_nat 11)) (* v *)
  | 92 => Some (CChar c)                        (* backslash *)
  | _ => if is_letter c || is_digit c then None else Some (CChar c)
  end.

(** Characters with a meaning outside the subset: classes, anchors and
    counted repetitions. *)
Definition unsupported (c : ascii) : bool :=
  match Ascii.nat_of_ascii c with
  | 91 | 123 | 94 | 36 => true   (* [ { ^ $ *)
  | _ => false
  end.

(** One character class at the head of the pattern text. *)
Definition p_class (s : str) : option (cset * str) :=
  match s with
  | c :: s' =>
      match Ascii.nat_of_ascii c with
      | 46 => Some (CAny, s')                                     (* . *)
      | 92 => match s' with
              | d :: s'' => (fun cs => (cs, s'')) <$> escape_class d
              | [] => None
              end
      | 40 | 41 | 124 | 42 | 43 | 63 => None                      (* ( ) | * + ? *)
      | _ => if unsupported c then None else Some (CChar c, s')
      end
  | [] => None
  end.

Definition is_ch (n : nat) (c : ascii) : bool := Nat.eqb (Ascii.nat_of_ascii c) n.

(** A class followed by an optional [*], [+], [*?] or [+?]. *)
Definition p_quant (cs : cset) (s : str) : option (re * str) :=
  match s with
  | c :: s' =>
      if is_ch 42 c || is_ch 43 c then
        let mn := if is_ch 42 c then 0 else 1 in
        match s' with
        | d :: s'' => if is_ch 63 d then Some (RRep cs mn false, s'') else Some (RRep cs mn true, s')
        | [] => Some (RRep cs mn true, s')
        end
      else if is_ch 63 c || is_ch 123 c then None
      else Some (RSet cs, s)
  | [] => Some (RSet cs, s)
  end.

(** Alternation, sequence and atom, by recursive descent; [g] is the
    number of the last group opened, so groups are numbered by their
    opening parenthesis as in [sre_parse]. *)
Fixpoint p_alt (fuel g : nat) (s : str) {struct fuel} : option (re * nat * str) :=
  match fuel with
  | O => None
  | S f =>
      match p_seq f g s with
      | Some (r1, g1, c :: rest) =>
          if is_ch 124 c then
            match p_alt f g1 rest with
            | Some (r2, g2, rest2) => Some (RAlt r1 r2, g2, rest2)
            | None => None
            end
          else Some (r1, g1, c :: rest)
      | res => res
      end
  end
with p_seq (fuel g : nat) (s : str) {struct fuel} : option (re * nat * str) :=
  match fuel with
  | O => None
  | S f =>
      match s with
      | [] => Some (REps, g, [])
      | c :: _ =>
          if is_ch 41 c || is_ch 124 c then Some (REps, g, s)
          else
            match p_atom f g s with
            | Some (a, g1, rest) =>
                match p_seq f g1 rest with
                | Some (r2, g2, rest2) => Some (RSeq a r2, g2, rest2)
                | None => None
                end
            | None => None
            end
      end
  end
with p_atom (fuel g : nat) (s : str) {struct fuel} : option (re * nat * str) :=
  match fuel with
  | O => None
  | S f =>
      match s with
      | c :: s' =>
          if is_ch 40 c then
            match p_alt f (S g) s' with
            | Some (r, g1, d :: rest) =>
                if is_ch 41 d then
                  match rest with
                  | e :: _ => if is_ch 42 e || is_ch 43 e || is_ch 63 e || is_ch 123 e then None
                              else Some (RGroup (S g) r, g1, rest)
                  | [] => Some (RGroup (S g) r, g1, rest)
                  end
                else None
            | _ => None
            end
          else
            match p_class s with
            | Some (cs, rest) => (fun '(r, rest') => (r, g, rest')) <$> p_quant cs rest
            | None => None
            end
      | [] => None
      end
  end.

(** [re.compile(pattern)] on the subset: the tree and the number of groups. *)
Definition compile (pat : str) : option (re * nat) :=
  match p_alt (3 * length pat + 3) 0 pat with
  | Some (r, g, []) => Some (r, g)
  | _ => None
  end.

(** The group numbers of a tree, in the order of their opening
    parentheses. *)
Fixpoint groups (r : re) : list nat :=
  match r with
  | RSeq r1 r2 | RAlt r1 r2 => groups r1 ++ groups r2
  | RGroup n r1 => n :: groups r1
  | _ => []
  end.

(** The tree of a literal text before a pattern [tail]. *)
Definition lit (l : str) (tail : re) : re :=
  fold_right (fun c r => RSeq (RSet (CChar c)) r) tail l.

(** [.*?] before a pattern [tail]. *)
Definition lazy_gap (tail : re) : re := RSeq (RRep CAny 0 false) tail.

(** ** Chains of literals joined by lazy gaps *)

(** [l0.*?l1.*?...ln]: the shape of the multi-line patterns of steps 1, 3,
    5 and 6. *)
Fixpoint gaps (ls : list str) : re :=
  match ls with
  | [] => REps
  | l :: ls' => lazy_gap (lit l (gaps ls'))
  end.

Definition gap_chain (l0 : str) (ls : list str) : re := lit l0 (gaps ls).

(** The literal characters at the head of a tree, and what follows them. *)
Fixpoint lit_prefix (r : re) : str * re :=
  match r with
  | RSeq (RSet (CChar c)) r' => let '(l, t) := lit_prefix r' in (c :: l, t)
  | _ => ([], r)
  end.

Fixpoint re_size (r : re) : nat :=
  match r with
  | RSeq r1 r2 | RAlt r1 r2 => S (re_size r1 + re_size r2)
  | RGroup _ r1 => S (re_size r1)
  | _ => 1
  end.

Fixpoint gaps_of (fuel : nat) (r : re) : option (list str) :=
  match fuel with
  | O => None
  | S f =>
      match r with
      | REps => Some []
      | RSeq (RRep CAny 0 false) r' => let '(l, t) := lit_prefix r' in cons l <$> gaps_of f t
      | _ => None
      end
  end.

(** Recognise a compiled chain: its first literal and the literals after
    each gap. *)
Definition chain_of (r : re) : option (str * list str) :=
  let '(l0, t) := lit_prefix r in pair l0 <$> gaps_of (re_size t) t.

(** Where [.*?l1 ... .*?ln] ends when matched with [re.DOTALL] at the
    start of [t]: each gap stops at the first occurrence of the next
    literal. *)
Fixpoint chain_len (ls : list str) (t : str) : option nat :=
  match ls with
  | [] => Some 0
  | l :: ls' =>
      match find_sub l t with
      | Some j => (fun n => j + length l + n) <$> chain_len ls' (drop (j + length l) t)
      | None => None
      end
  end.

(** The length of the match of [gap_chain l0 ls] at the start of [s]. *)
Definition chain_tok (l0 : str) (ls : list str) (s : str) : option nat :=
  if startswith l0 s then (fun n => length l0 + n) <$> chain_len ls (drop (length l0) s)
  else None.

(** ** Newline-free spans *)

(** Some prefix of [t] without ['\n'] is followed by [l2]. *)
Fixpoint gap_then (l2 t : str) : bool :=
  startswith l2 t ||
  match t with
  | [] => false
  | c :: t' => negb (Ascii.eqb c LF) && gap_then l2 t'
  end.

(** Somewhere in [s], [l1] is followed on the same line by [l2]: the only
    texts [l1.*?l2] can match without [re.DOTALL]. *)
Fixpoint one_line_span (l1 l2 s : str) : bool :=
  (startswith l1 s && gap_then l2 (drop (length l1) s)) ||
  match s with
  | [] => false
  | _ :: s' => one_line_span l1 l2 s'
  end.

(** ** Search *)

(** A match object: span and groups. *)
Record mobj := MObj { m_start : nat; m_end : nat; m_caps : caps }.

(** [pattern.search(string, pos)] on the suffix [rest] that starts at
    position [p]; with [ma] (must advance) an empty match at [p] is
    refused, as [re.sub] requires after an empty match. *)
Fixpoint search_from (fl : flags) (r : re) (ma : bool) (p : nat) (rest : str)
  : option mobj :=
  let k := fun s' cs =>
    if ma && Nat.eqb (length s') (length rest) then None
    else Some (length rest - length s', cs) in
  match mtch fl r rest [] k with
  | Some (len, cs) => Some (MObj p (p + len) cs)
  | None =>
      match rest with
      | [] => None
      | _ :: rest' => search_from fl r false (S p) rest'
      end
  end.

(** [re.search(pattern, string, flags)]. *)
Definition search (fl : flags) (r : re) (s : str) : option mobj :=
  search_from fl r false 0 s.

(** [m.group(0)]. *)
Definition group0 (s : str) (m : mobj) : str :=
  take (m_end m - m_start m) (drop (m_start m) s).

(** The literal text every match of [r] starts with: its leading
    characters, looking through groups. *)
Fixpoint first_lit (r : re) : str :=
  match r with
  | RSeq (RSet (CChar c)) r2 => c :: first_lit r2
  | RSeq (RGroup _ r1) _ => first_lit r1
  | RGroup _ r1 => first_lit r1
  | _ => []
  end.

(** * Declarative semantics *)

(** [rep_acc p mn s s']: [s] starts with at least [mn] characters
    satisfying [p], and [s'] is what follows them. *)
Definition rep_acc (p : ascii -> bool) (mn : nat) (s s' : str) : Prop :=
  exists w, s = w ++ s' /\ Forall (fun c => p c = true) w /\ mn <= length w.

(** [accepts fl r s s']: [r] can consume a prefix of [s] leaving [s']. *)
Inductive accepts (fl : flags) : re -> str -> str -> Prop :=
  | acc_eps s : accepts fl REps s s
  | acc_set cs c s : cset_match fl cs c = true -> accepts fl (RSet cs) (c :: s) s
  | acc_rep cs mn g s s' : rep_acc (cset_match fl cs) mn s s' -> accepts fl (RRep cs mn g) s s'
  | acc_seq r1 r2 s s1 s' : accepts fl r1 s s1 -> accepts fl r2 s1 s' -> accepts fl (RSeq r1 r2) s s'
  | acc_alt_l r1 r2 s s' : accepts fl r1 s s' -> accepts fl (RAlt r1 r2) s s'
  | acc_alt_r r1 r2 s s' : accepts fl r2 s s' -> accepts fl (RAlt r1 r2) s s'
  | acc_group n r s s' : accepts fl r s s' -> accepts fl (RGroup n r) s s'.

#[export] Hint Constructors accepts : pyspec.

(** ** Soundness: every result comes from an accepted prefix *)

Section Sound.
Context {R : Type}.

Lemma rep_acc_cons (p : ascii -> bool) mn c s s' :
  p c = true -> rep_acc p mn s s' -> rep_acc p (S mn) (c :: s) s'.
Proof.
  intros Hc (w & -> & Hw & Hmn). exists (c :: w). simpl. split; [done|]. split; [by constructor | lia].
Qed.

Lemma rep_acc_nil p s : rep_acc p 0 s s.
Proof. by exists []. Qed.

(** The repetition's [stop] branch: the continuation at [s] itself. *)
Lemma rep_stop_sound (p : ascii -> bool) mn s (k : str -> option R) x :
  (if Nat.eqb mn 0 then k s else None) = Some x ->
  exists s', rep_acc p mn s s' /\ k s' = Some x.
Proof.
  destruct (Nat.eqb_spec mn 0) as [->|]; [|done].
  intros H. exists s. split; [apply rep_acc_nil|done].
Qed.

Lemma rep_acc_weaken p mn c s s' :
  p c = true -> rep_acc p (pred mn) s s' -> rep_acc p mn (c :: s) s'.
Proof.
  intros Hc (w & -> & Hw & Hmn). exists (c :: w). simpl. split; [done|]. split; [by constructor | lia].
Qed.

Lemma rep_lazy_sound (p : ascii -> bool) mn s (k : str -> option R) x :
  rep_lazy p mn s k = Some x -> exists s', rep_acc p mn s s' /\ k s' = Some x.
Proof.
  revert mn. induction s as [|c s IH]; intros [|mn]; simpl.
  - intros H. destruct (k []) eqn:E; [|done]. exists []. split; [apply rep_acc_nil|congruence].
  - done.
  - destruct (k (c :: s)) eqn:E.
    + intros [= <-]. exists (c :: s). split; [apply rep_acc_nil|done].
    + destruct (p c) eqn:Hp; [|done]. intros H. destruct (IH 0 H) as (s' & Hacc & Hk).
      exists s'. split; [|done]. apply (rep_acc_weaken _ 0); done.
  - destruct (p c) eqn:Hp; [|done]. intros H. destruct (IH mn H) as (s' & Hacc & Hk).
    exists s'. split; [by apply rep_acc_cons|done].
Qed.

Lemma rep_greedy_sound (p : ascii -> bool) mn s (k : str -> option R) x :
  rep_greedy p mn s k = Some x -> exists s', rep_acc p mn s s' /\ k s' = Some x.
Proof.
  revert mn. induction s as [|c s IH]; intros mn; simpl; [apply rep_stop_sound|].
  destruct (p c) eqn:Hp; [|apply rep_stop_sound].
  destruct (rep_greedy p (pred mn) s k) eqn:E; [|apply rep_stop_sound].
  intros [= <-]. destruct (IH (pred mn) E) as (s' & Hacc & Hk).
  exists s'. split; [by apply rep_acc_weaken|done].
Qed.

(** The matcher only reports what the declarative semantics accepts. *)
Lemma mtch_sound fl r s cs (k : str -> caps -> option R) x :
  mtch fl r s cs k = Some x -> exists s' cs', accepts fl r s s' /\ k s' cs' = Some x.
Proof.
  revert s cs k. induction r as [|c|c mn [|]|r1 IH1 r2 IH2|r1 IH1 r2 IH2|n r1 IH];
    intros s cs k; simpl.
  - intros H. exists s, cs. split; [constructor|done].
  - destruct s as [|d s]; [done|]. destruct (cset_match fl c d) eqn:Hc; [|done].
    intros H. exists s, cs. split; [by constructor|done].
  - intros H. apply rep_greedy_sound in H as (s' & Hacc & Hk).
    exists s', cs. split; [by constructor|done].
  - intros H. apply rep_lazy_sound in H as (s' & Hacc & Hk).
    exists s', cs. split; [by constructor|done].
  - intros H. apply IH1 in H as (s1 & cs1 & Hacc1 & H). apply IH2 in H as (s' & cs' & Hacc2 & Hk).
    exists s', cs'. split; [by econstructor|done].
  - destruct (mtch fl r1 s cs k) eqn:E.
    + intros [= <-]. apply IH1 in E as (s' & cs' & Hacc & Hk). exists s', cs'.
      split; [by apply acc_alt_l|done].
    + intros H. apply IH2 in H as (s' & cs' & Hacc & Hk). exists s', cs'.
      split; [by apply acc_alt_r|done].
  - intros H. apply IH in H as (s' & cs' & Hacc & Hk). eexists s', _.
    split; [by constructor|exact Hk].
Qed.
End Sound.

(** The equation of a lazy repetition with no minimum left. *)
Lemma rep_lazy_0 {R} (p : ascii -> bool) s (k : str -> option R) :
  rep_lazy p 0 s k =
  match k s with
  | Some x => Some x
  | None => match s with c :: s' => if p c then rep_lazy p 0 s' k else None | [] => None end
  end.
Proof. by destruct s. Qed.

(** A greedy repetition followed by a continuation that fails inside the
    run takes the whole run: its result is the continuation on what
    follows the longest prefix of characters of the class. *)
Lemma rep_greedy_max {R} (p : ascii -> bool) mn s (k : str -> option R) :
  (forall j, j < span_len p s -> k (drop j s) = None) ->
  rep_greedy p mn s k = if Nat.leb mn (span_len p s) then k (drop (span_len p s) s) else None.
Proof.
  revert mn. induction s as [|c s IH]; intros mn Hk; simpl.
  { by destruct mn. }
  simpl in Hk. destruct (p c) eqn:Hc; simpl.
  - rewrite IH by (intros j Hj; apply (Hk (S j)); lia).
    assert (k (c :: s) = None) as Hk0 by (apply (Hk 0); lia).
    destruct mn as [|mn]; simpl; [|destruct (Nat.leb mn (span_len p s))];
      by destruct (k (drop (span_len p s) s)).
  - by destruct mn.
Qed.

(** ** What [search_from] returns *)

Lemma accepts_suffix fl r s s' : accepts fl r s s' -> s' `suffix_of` s.
Proof.
  induction 1 as [s|cs c s _|cs mn g s s' (w & -> & _)|r1 r2 s s1 s' _ IH1 _ IH2| | |];
    try done.
  - by apply suffix_cons_r.
  - by exists w.
  - by trans s1.
Qed.

(** A match found from position [p] lies within the searched suffix, and
    is not empty at [p] when [ma] forbids it. *)
Lemma search_from_bounds fl r ma p rest m :
  search_from fl r ma p rest = Some m ->
  p <= m_start m <= m_end m /\ m_end m <= p + length rest /\
  (ma = true -> m_start m = p -> p < m_end m).
Proof.
  revert ma p. induction rest as [|c rest IH]; intros ma p; simpl.
  - destruct (mtch fl r [] [] _) as [[len cs]|] eqn:E; [|done].
    apply mtch_sound in E as (s' & cs' & Hacc & Hk).
    apply accepts_suffix, suffix_nil_inv in Hacc as ->. simpl in Hk.
    destruct ma; simpl in Hk; [done|]. intros [= <-]. simpl. simplify_eq. lia.
  - destruct (mtch fl r (c :: rest) [] _) as [[len cs]|] eqn:E.
    + apply mtch_sound in E as (s' & cs' & Hacc & Hk).
      apply accepts_suffix, suffix_length in Hacc.
      intros [= <-]. simpl.
      destruct (ma && Nat.eqb (length s') (S (length rest))) eqn:Hma; [done|].
      simplify_eq. split; [lia|]. split; [simpl in *; lia|].
      intros -> _. apply andb_false_iff in Hma as [|Hne]; [done|].
      apply Nat.eqb_neq in Hne. simpl in *. lia.
    + intros H. apply IH in H as (H1 & H2 & _). simpl. split; [lia|]. split; [lia|].
      intros _ ?. lia.
Qed.

(** ** Literal and gap patterns *)

Lemma accepts_lit fl l tail s s' :
  accepts fl (lit l tail) s s' -> exists s1, s = l ++ s1 /\ accepts fl tail s1 s'.
Proof.
  revert s. induction l as [|c l IH]; intros s Hacc; simpl in *; [by exists s|].
  inversion Hacc as [| | |r1 r2 s0 s1 s2 H1 H2| | |]; subst.
  inversion H1 as [|cs d s3 Hd| | | | |]; subst. simpl in Hd.
  apply Ascii.eqb_eq in Hd as ->. destruct (IH _ H2) as (s4 & -> & Hacc4). by exists s4.
Qed.

(** Without [re.DOTALL], [.*?] never crosses a line end. *)
Lemma accepts_lazy_gap_noflags tail s s' :
  accepts NOFLAGS (lazy_gap tail) s s' ->
  exists g s1, s = g ++ s1 /\ (LF ∉ g) /\ accepts NOFLAGS tail s1 s'.
Proof.
  intros Hacc. inversion Hacc as [| | |r1 r2 s0 s1 s2 H1 H2| | |]; subst.
  inversion H1 as [| |cs mn g s3 s4 (w & -> & Hw & _)| | | |]; subst.
  exists w, s1. split; [done|]. split; [|done].
  intros Hin. rewrite Forall_forall in Hw. specialize (Hw LF Hin).
  simpl in Hw. discriminate.
Qed.

Lemma gap_then_spec l2 t :
  gap_then l2 t = true <-> exists g b, t = g ++ l2 ++ b /\ LF ∉ g.
Proof.
  induction t as [|c t IH]; simpl; rewrite orb_true_iff, startswith_spec.
  - split.
    + intros [[b Hb]|?]; [|done]. exists [], b. split; [done|set_solver].
    + intros ([|x g] & b & H & Hg); [left; by exists b|done].
  - rewrite andb_true_iff, IH, negb_true_iff. split.
    + intros [[b Hb]|[Hc (g & b & -> & Hg)]].
      * exists [], b. split; [done|set_solver].
      * exists (c :: g), b. split; [reflexivity|].
        pose proof (proj1 (Ascii.eqb_neq c LF) Hc). apply not_elem_of_cons. split; [congruence|done].
    + intros ([|x g] & b & H & Hg); [left; by exists b|]. simpl in H. simplify_eq. right.
      apply not_elem_of_cons in Hg as [Hx Hg].
      split; [apply Ascii.eqb_neq; congruence|]. exists g, b. by split.
Qed.

(** [one_line_span] is false exactly when every occurrence of [l1] ...
    [l2] has a line end in between. *)
Lemma one_line_span_false l1 l2 s :
  one_line_span l1 l2 s = false ->
  forall a g b, s = a ++ l1 ++ g ++ l2 ++ b -> LF ∈ g.
Proof.
  induction s as [|c s IH]; intros Hs a g b Heq; simpl in Hs;
    apply orb_false_iff in Hs as [Hhere Hrest].
  - destruct a; [|done]. destruct l1; [|done]. cbn [startswith length drop andb] in Hhere.
    destruct (decide (LF ∈ g)); [done|]. exfalso.
    assert (gap_then l2 [] = true) as Ht; [|congruence].
    apply gap_then_spec. exists g, b. by split.
  - destruct a as [|x a].
    + destruct (decide (LF ∈ g)) as [|Hg]; [done|]. exfalso. simpl in Heq.
      assert (startswith l1 (c :: s) = true /\ gap_then l2 (drop (length l1) (c :: s)) = true)
        as [H1 H2]; [|by rewrite H1, H2 in Hhere].
      rewrite Heq, startswith_spec, gap_then_spec. split; [by eexists|].
      rewrite drop_app_length. by exists g, b.
    + simpl in Heq. simplify_eq. by apply (IH Hrest a g b).
Qed.

(** Any match of [search_from] is accepted somewhere in the text. *)
Lemma search_from_sound fl r ma p s m :
  search_from fl r ma p s = Some m -> exists i s', accepts fl r (drop i s) s'.
Proof.
  revert ma p. induction s as [|c s IH]; intros ma p; simpl.
  - destruct (mtch fl r [] [] _) as [[len cs]|] eqn:E; [|done]. intros _.
    apply mtch_sound in E as (s' & cs' & Hacc & _). by exists 0, s'.
  - destruct (mtch fl r (c :: s) [] _) as [[len cs]|] eqn:E.
    + intros _. apply mtch_sound in E as (s' & cs' & Hacc & _). by exists 0, s'.
    + intros H. destruct (IH _ _ H) as (i & s' & Hacc). by exists (S i), s'.
Qed.

(** Without [re.DOTALL], a pattern [l1.*?l2...] finds nothing in a text
    where no [l1] is followed by [l2] on the same line. *)
Lemma search_lit_gap_none l1 l2 tail ma p s :
  one_line_span l1 l2 s = false ->
  search_from NOFLAGS (lit l1 (lazy_gap (lit l2 tail))) ma p s = None.
Proof.
  intros Hs. destruct (search_from _ _ ma p s) as [m|] eqn:E; [|done].
  apply search_from_sound in E as (i & s' & Hacc).
  apply accepts_lit in Hacc as (s1 & Hs1 & Hacc).
  apply accepts_lazy_gap_noflags in Hacc as (g & s2 & -> & Hg & Hacc).
  apply accepts_lit in Hacc as (s3 & -> & _).
  exfalso. apply Hg, (one_line_span_false l1 l2 s Hs (take i s) g s3).
  by rewrite <- Hs1, take_drop.
Qed.

(** Every text a pattern accepts starts with its [first_lit]. *)
Lemma accepts_first_lit fl r s s' :
  accepts fl r s s' -> exists s1, s = first_lit r ++ s1.
Proof.
  intros Hacc. induction Hacc as [s|cs c s _|cs mn g s s' _|r1 r2 s s1 s' H1 IH1 H2 IH2
    |r1 r2 s s' _ _|r1 r2 s s' _ _|n r s s' _ IH]; simpl; try by eexists.
  - destruct r1 as [|[d| |]| | | |n r1]; try by eexists.
    + inversion H1 as [|cs c s0 Hc| | | | |]; subst. simpl in Hc.
      apply Ascii.eqb_eq in Hc as ->. destruct IH2 as [s2 ->]. by exists s2.
    + destruct IH1 as [s2 ->]. by exists s2.
  - done.
Qed.

(** A search for a pattern finds nothing in a text that does not contain
    a prefix of the pattern's leading literal. *)
Lemma search_prefix_absent fl r l ma p s :
  l `prefix_of` first_lit r -> contains l s = false ->
  search_from fl r ma p s = None.
Proof.
  intros [k Hk] Hl. destruct (search_from fl r ma p s) as [m|] eqn:E; [|done].
  apply search_from_sound in E as (i & s' & Hacc).
  apply accepts_first_lit in Hacc as [s1 Hs1]. rewrite Hk, <- app_assoc in Hs1.
  enough (contains l s = true) by congruence.
  apply contains_spec. exists (take i s), (k ++ s1). by rewrite <- Hs1, take_drop.
Qed.

(** ** Patterns that behave as a literal text *)

(** [r] matches exactly the text [l] and records the captures [c]. *)
Definition literal_like (fl : flags) (r : re) (l : str) (c : caps) : Prop :=
  forall R s cs (k : str -> caps -> option R),
    mtch fl r s cs k = if startswith l s then k (drop (length l) s) (c ++ cs) else None.

Lemma mtch_lit fl l tail R s cs (k : str -> caps -> option R) :
  mtch fl (lit l tail) s cs k =
  if startswith l s then mtch fl tail (drop (length l) s) cs k else None.
Proof.
  revert s. induction l as [|c l IH]; intros s; [done|].
  destruct s as [|d s]; [done|]. simpl. rewrite IH.
  by destruct (Ascii.eqb d c) eqn:E; rewrite Ascii.eqb_sym, E.
Qed.

(** A literal text as a pattern. *)
Lemma literal_like_lit fl l : literal_like fl (lit l REps) l [].
Proof. intros R s cs k. rewrite mtch_lit. by destruct (startswith l s). Qed.

(** A literal text in group 1, as in [(function startProcessing\(app\))]. *)
Lemma literal_like_group fl l :
  literal_like fl (RSeq (RGroup 1 (lit l REps)) REps) l [(1, l)].
Proof.
  intros R s cs k. simpl. rewrite mtch_lit. simpl.
  destruct (startswith l s) eqn:E; [|done].
  apply startswith_spec in E as [b ->]. rewrite drop_app_length, length_app.
  replace (length l + length b - length b) with (length l) by lia.
  by rewrite take_app_length.
Qed.

(** ** Group numbering of the parser *)

Lemma seq_join a b c :
  a <= b -> b <= c -> seq (S a) (b - a) ++ seq (S b) (c - b) = seq (S a) (c - a).
Proof.
  intros Hab Hbc. replace (c - a) with ((b - a) + (c - b)) by lia.
  rewrite seq_app. do 2 f_equal. lia.
Qed.

Lemma p_quant_groups cs s r rest : p_quant cs s = Some (r, rest) -> groups r = [].
Proof. unfold p_quant. intros H. repeat case_match; by simplify_eq. Qed.

Lemma p_class_len s cs rest : p_class s = Some (cs, rest) -> length rest < length s.
Proof.
  unfold p_class. intros H. repeat case_match; simplify_eq; simpl; try lia.
  destruct (escape_class _); simpl in *; simplify_eq; simpl; lia.
Qed.

Lemma p_quant_len cs s r rest : p_quant cs s = Some (r, rest) -> length rest <= length s.
Proof. unfold p_quant. intros H. repeat case_match; simplify_eq; simpl; lia. Qed.

(** The parsers return a suffix of their input; an atom consumes at least
    one character. *)
Lemma parser_len fuel :
  (forall g s r g' rest, p_alt fuel g s = Some (r, g', rest) -> length rest <= length s) /\
  (forall g s r g' rest, p_seq fuel g s = Some (r, g', rest) -> length rest <= length s) /\
  (forall g s r g' rest, p_atom fuel g s = Some (r, g', rest) -> length rest < length s).
Proof.
  induction fuel as [|f (IHa & IHs & IHt)]; [done|].
  split_and!; intros g s r g' rest H; simpl in H; repeat case_match; simplify_eq;
    repeat match goal with
    | H : _ <$> p_quant ?c ?l = Some _ |- _ =>
        destruct (p_quant c l) as [[? ?]|] eqn:?; simpl in H; simplify_eq
    | H : p_alt f _ _ = Some _ |- _ => apply IHa in H
    | H : p_seq f _ _ = Some _ |- _ => apply IHs in H
    | H : p_atom f _ _ = Some _ |- _ => apply IHt in H
    | H : p_quant _ _ = Some _ |- _ => apply p_quant_len in H
    | H : p_class _ = Some _ |- _ => apply p_class_len in H
    end; simpl in *; lia.
Qed.

(** Beyond [3 * length s + 3] (alternation), [+ 2] (sequence) and [+ 1]
    (atom), more fuel does not change the parsers' result. *)
Lemma parser_fuel f :
  (forall g s f', 3 * length s + 3 <= f -> f <= f' -> p_alt f' g s = p_alt f g s) /\
  (forall g s f', 3 * length s + 2 <= f -> f <= f' -> p_seq f' g s = p_seq f g s) /\
  (forall g s f', 3 * length s + 1 <= f -> f <= f' -> p_atom f' g s = p_atom f g s).
Proof.
  induction f as [|f0 (IHa & IHs & IHt)]; [split_and!; intros; lia|].
  split_and!; intros g s f' Hf Hle; destruct f' as [|f1]; try lia.
  - cbn [p_alt]. rewrite (IHs g s f1) by lia.
    destruct (p_seq f0 g s) as [[[r1 g1] [|c rest]]|] eqn:E; [done| |done].
    pose proof (proj1 (proj2 (parser_len f0)) _ _ _ _ _ E) as Hlen. simpl in Hlen.
    destruct (is_ch 124 c); [|done]. by rewrite (IHa g1 rest f1) by lia.
  - cbn [p_seq]. destruct s as [|c s']; [done|]. destruct (is_ch 41 c || is_ch 124 c); [done|].
    rewrite (IHt g (c :: s') f1) by lia.
    destruct (p_atom f0 g (c :: s')) as [[[a g1] rest]|] eqn:E; [|done].
    pose proof (proj2 (proj2 (parser_len f0)) _ _ _ _ _ E) as Hlen.
    by rewrite (IHs g1 rest f1) by lia.
  - cbn [p_atom]. destruct s as [|c s']; [done|]. destruct (is_ch 40 c); [|done].
    simpl in Hf. by rewrite (IHa (S g) s' f1) by lia.
Qed.

(** The three parsers number the groups they open consecutively after
    the last group number [g] they were given. *)
Lemma parser_groups fuel :
  (forall g s r g' rest, p_alt fuel g s = Some (r, g', rest) ->
     groups r = seq (S g) (g' - g) /\ g <= g') /\
  (forall g s r g' rest, p_seq fuel g s = Some (r, g', rest) ->
     groups r = seq (S g) (g' - g) /\ g <= g') /\
  (forall g s r g' rest, p_atom fuel g s = Some (r, g', rest) ->
     groups r = seq (S g) (g' - g) /\ g <= g').
Proof.
  induction fuel as [|f (IHa & IHs & IHt)]; [done|].
  split_and!; intros g s r g' rest H; simpl in H; repeat case_match; simplify_eq;
    repeat match goal with
    | H : _ <$> p_quant ?c ?l = Some _ |- _ =>
        destruct (p_quant c l) as [[? ?]|] eqn:?; simpl in H; simplify_eq
    | H : p_alt f _ _ = Some _ |- _ => apply IHa in H as [? ?]
    | H : p_seq f _ _ = Some _ |- _ => apply IHs in H as [? ?]
    | H : p_atom f _ _ = Some _ |- _ => apply IHt in H as [? ?]
    | H : p_quant _ _ = Some _ |- _ => apply p_quant_groups in H
    end; simpl; try (split; [|lia]);
    repeat match goal with H : groups _ = _ |- _ => rewrite H end;
    rewrite ?Nat.sub_diag; try done; try (apply seq_join; lia);
    replace (g' - g) with (S (g' - S g)) by lia; done.
Qed.

(** (C35) Termination of the parser: the fuel [compile] gives the
    recursive-descent parser, [3 * length pat + 3], is enough -- with any
    more fuel the parser returns the same result, so [compile] never
    rejects a pattern for lack of fuel. *)
Theorem compile_fuel_enough pat f :
  3 * length pat + 3 <= f ->
  compile pat = match p_alt f 0 pat with Some (r, g, []) => Some (r, g) | _ => None end.
Proof.
  intros Hf. unfold compile. by rewrite (proj1 (parser_fuel (3 * length pat + 3)) 0 pat f).
Qed.

(** (C29) Well-formedness of the compiled pattern: the groups of the tree
    [compile] returns are numbered [1], ..., [g] in the order of their
    opening parentheses, [g] being the group count [compile] reports, as
    [sre_parse] numbers them; so every group a template may name
    ([\\1] .. [\\g], checked against [g]) is a group of the tree,
    exactly once. *)
Theorem compile_groups pat r g : compile pat = Some (r, g) -> groups r = seq 1 g.
Proof.
  unfold compile. intros H. repeat case_match; simplify_eq.
  destruct (proj1 (parser_groups _) _ _ _ _ _ H0) as [-> _]. by rewrite Nat.sub_0_r.
Qed.

(** ** Chains *)

Lemma lit_prefix_sound r : lit (lit_prefix r).1 (lit_prefix r).2 = r.
Proof.
  induction r as [| | |r1 _ r2 IH| |]; try done.
  destruct r1 as [|[c| |]| | | |]; try done. simpl.
  destruct (lit_prefix r2) as [l t]. simpl in *. by rewrite IH.
Qed.

Lemma gaps_of_sound f r ls : gaps_of f r = Some ls -> gaps ls = r.
Proof.
  revert r ls. induction f as [|f IH]; intros r ls; [done|]. simpl.
  destruct r as [| | |r1 r2| |]; try done; [by intros [= <-]|].
  destruct r1 as [| ? |[c| |] [|mn] [|] | | | ]; try done.
  pose proof (lit_prefix_sound r2) as Hl. destruct (lit_prefix r2) as [l t].
  destruct (gaps_of f t) as [ls'|] eqn:E; [|done]. intros [= <-]. simpl in *.
  by rewrite (IH _ _ E), Hl.
Qed.

Lemma chain_of_sound r l0 ls : chain_of r = Some (l0, ls) -> gap_chain l0 ls = r.
Proof.
  unfold chain_of, gap_chain. pose proof (lit_prefix_sound r) as Hl.
  destruct (lit_prefix r) as [l t]. destruct (gaps_of _ t) as [ls'|] eqn:E; [|done].
  intros [= <- <-]. simpl in Hl. by rewrite (gaps_of_sound _ _ _ E).
Qed.

Lemma chain_len_bound ls t n : chain_len ls t = Some n -> n <= length t.
Proof.
  revert t n. induction ls as [|l ls IH]; intros t n; simpl; [intros [= <-]; lia|].
  destruct (find_sub l t) as [j|] eqn:Ej; [|done].
  destruct (chain_len ls _) as [m|] eqn:Em; [|done]. intros [= <-].
  apply IH in Em. apply find_sub_spec in Ej as [_ Hj]. rewrite length_drop in Em. lia.
Qed.

(** A chain that ends from a suffix also ends from the whole text. *)
Lemma chain_len_suffix ls t i : is_Some (chain_len ls (drop i t)) -> is_Some (chain_len ls t).
Proof.
  revert t i. induction ls as [|l ls IH]; intros t i; simpl; [done|].
  destruct (find_sub l (drop i t)) as [j|] eqn:Ej; [|by intros []].
  destruct (find_sub_drop _ _ _ _ Ej) as (j0 & Hj0 & Hle). rewrite Hj0.
  intros Hs. apply fmap_is_Some in Hs. apply fmap_is_Some.
  apply (IH _ (i + j - j0)). rewrite drop_drop in *.
  replace (j0 + length l + (i + j - j0)) with (i + (j + length l)) by lia. done.
Qed.

(** With [re.DOTALL], the gaps of a chain stop at the first occurrences
    of the literals, when the continuation accepts whatever follows. *)
Lemma mtch_gaps {R} ls t cs (k : str -> caps -> option R) :
  (forall s', length s' <= length t -> is_Some (k s' cs)) ->
  mtch DOTALL (gaps ls) t cs k =
  match chain_len ls t with Some n => k (drop n t) cs | None => None end.
Proof.
  revert t. induction ls as [|l ls IH]; intros t Hk; [done|].
  cbn [gaps lazy_gap mtch]. simpl chain_len.
  induction t as [|c t IHt].
  - rewrite rep_lazy_0, mtch_lit. simpl find_sub.
    destruct (startswith l []) eqn:E; [|done].
    rewrite IH by (intros s' Hs'; apply Hk; rewrite length_drop in Hs'; simpl in *; lia).
    rewrite !drop_nil. simpl. destruct (chain_len ls []); simpl; [|done].
    rewrite !drop_nil. by destruct (k [] cs).
  - rewrite rep_lazy_0, mtch_lit. cbn [find_sub cset_match dotall DOTALL orb].
    destruct (startswith l (c :: t)) eqn:E.
    + rewrite IH by (intros s' Hs'; apply Hk; rewrite length_drop in Hs'; simpl in *; lia).
      simpl. destruct (chain_len ls (drop (length l) (c :: t))) as [n|] eqn:En; simpl.
      * rewrite drop_drop. destruct (Hk (drop (length l + n) (c :: t))) as [x Hx];
          [rewrite length_drop; lia|]. by rewrite Hx.
      * rewrite IHt by (intros s' Hs'; apply Hk; simpl; lia).
        destruct (find_sub l t) as [j|]; [|done].
        destruct (chain_len ls (drop (j + length l) t)) as [m|] eqn:Em; [|done].
        exfalso. destruct (chain_len_suffix ls (drop (length l) (c :: t)) (S j)) as [? Hs];
          [|congruence].
        rewrite drop_drop. replace (length l + S j) with (S (j + length l)) by lia.
        simpl. by rewrite Em.
    + rewrite IHt by (intros s' Hs'; apply Hk; simpl; lia).
      destruct (find_sub l t) as [j|]; [|done]. simpl.
      by destruct (chain_len ls (drop (j + length l) t)).
Qed.


(** With [re.DOTALL], a chain [l0.*?l1...] matches at the start of [s]
    along the first occurrences of its literals, for a continuation that
    accepts any shorter rest. *)
Lemma mtch_chain {R} l0 ls s cs (k : str -> caps -> option R) :
  l0 <> [] -> (forall s' cs', length s' < length s -> is_Some (k s' cs')) ->
  mtch DOTALL (gap_chain l0 ls) s cs k =
  match chain_tok l0 ls s with Some n => k (drop n s) cs | None => None end.
Proof.
  intros Hne Hk. unfold gap_chain, chain_tok. rewrite mtch_lit.
  destruct (startswith l0 s) eqn:E; [|done]. apply startswith_length in E.
  rewrite mtch_gaps.
  - destruct (chain_len ls (drop (length l0) s)); simpl; [by rewrite drop_drop|done].
  - intros s' Hs'. apply Hk. rewrite length_drop in Hs'. destruct l0; [done|simpl in *; lia].
Qed.

(** * Witnesses *)

Lemma compile_fuel_enough_witness :
  compile (txt "a|(b)") =
  match p_alt 100 0 (txt "a|(b)") with Some (r, g, []) => Some (r, g) | _ => None end.
Proof. apply compile_fuel_enough. vm_compute. lia. Defined.

Lemma compile_groups_witness :
  compile (txt "a(b|(c))d") = Some (RSeq (RSet (CChar "a"%char))
    (RSeq (RGroup 1 (RAlt (RSeq (RSet (CChar "b"%char)) REps)
                          (RSeq (RGroup 2 (RSeq (RSet (CChar "c"%char)) REps)) REps)))
    (RSeq (RSet (CChar "d"%char)) REps)), 2) /\
  groups (RSeq (RSet (CChar "a"%char))
    (RSeq (RGroup 1 (RAlt (RSeq (RSet (CChar "b"%char)) REps)
                          (RSeq (RGroup 2 (RSeq (RSet (CChar "c"%char)) REps)) REps)))
    (RSeq (RSet (CChar "d"%char)) REps))) = seq 1 2.
Proof.
  assert (compile (txt "a(b|(c))d") = Some (RSeq (RSet (CChar "a"%char))
    (RSeq (RGroup 1 (RAlt (RSeq (RSet (CChar "b"%char)) REps)
                          (RSeq (RGroup 2 (RSeq (RSet (CChar "c"%char)) REps)) REps)))
    (RSeq (RSet (CChar "d"%char)) REps)), 2)) as H by (vm_compute; reflexivity).
  split; [exact H|apply (compile_groups _ _ _ H)].
Defined.

End PyRe.
