(* ===== verification/PySub.v ===== *)
(** * [re.sub]: replacement templates and the substitution loop

    [parse_template] is CPython's [re._parser.parse_template] on a
    replacement string: [\\g<n>] and [\\1]..[\\99] are group references
    (checked against the pattern's group count), [\\0] and three-digit
    octal escapes are characters, [\\a \\b \\f \\n \\r \\t \\v \\\\] are
    control characters, a backslash before another letter is an error, and
    a backslash before anything else is kept with it.  [expand] fills a
    parsed template from a match.  [sub_loop] is the loop of
    [pattern_subx] in [_sre.c]: search from the end of the previous match,
    copy the text before the match and the expanded template, refuse an
    empty match right after an empty match, stop after [count] matches
    when [count] is positive.  [py_sub] is [re.sub(pattern, repl, string,
    count, flags)] and [py_search] is [re.search(pattern, string,
    flags)]: the pattern is compiled first, then the template, then the
    text is scanned, so a bad template raises before any matching.

    [tok_sub] is a reference for [re.sub] on a pattern with at most one
    match at each position, given by a function [tok]; [sub_loop_det]
    proves the loop equal to it, and [py_sub_chain] and [py_search_chain]
    apply it to the [re.DOTALL] chains of the script. *)

From S2P Require Import Prelude PyStr PyRe.

Module PySub.
Import PyStr PyRe.

(** ** Templates *)

(** The backslash. *)
Definition BS : ascii := Ascii.ascii_of_nat 92.

Inductive tpiece := TLit (s : str) | TGrp (n : nat).

(** Where the template parser is: in plain text, or reading the name of
    a [\g<...>] reference. *)
Inductive tmode := TText | TGName (acc : str).

Definition is_octal (c : ascii) : bool :=
  let n := Ascii.nat_of_ascii c in Nat.leb 48 n && Nat.leb n 55.

Definition digit_val (c : ascii) : nat := Ascii.nat_of_ascii c - 48.

(** The character of a one-letter escape of the template, if any. *)
Definition template_escape (c : ascii) : option ascii :=
  match Ascii.nat_of_ascii c with
  | 97 => Some (Ascii.ascii_of_nat 7)    (* a *)
  | 98 => Some (Ascii.ascii_of_nat 8)    (* b *)
  | 102 => Some (Ascii.ascii_of_nat 12)  (* f *)
  | 110 => Some LF                       (* n *)
  | 114 => Some CR                       (* r *)
  | 116 => Some (Ascii.ascii_of_nat 9)   (* t *)
  | 118 => Some (Ascii.ascii_of_nat 11)  (* v *)
  | 92 => Some c                         (* backslash *)
  | _ => None
  end.

(** A group reference, checked against the number of groups. *)
Definition tgroup (groups n : nat) : exc + tpiece :=
  if Nat.leb n groups then inr (TGrp n) else inl ReError.

(** The value of a decimal text. *)
Definition decimal (s : str) : nat := fold_left (fun acc c => 10 * acc + digit_val c) s 0.

(** The group named by [\g<name>]: a decimal index, or an error (no
    pattern of the scripts has named groups, so a name is unknown). *)
Definition gname_group (groups : nat) (name : str) : exc + tpiece :=
  match name with
  | [] => inl ReError
  | _ => if forallb is_digit name then tgroup groups (decimal name)
         else if is_letter (hd "0"%char name) then inl IndexError else inl ReError
  end.

Definition tcons (p : tpiece) (r : exc + list tpiece) : exc + list tpiece :=
  match r with inl e => inl e | inr l => inr (p :: l) end.

Definition tbind (p : exc + tpiece) (k : tpiece -> exc + list tpiece) : exc + list tpiece :=
  match p with inl e => inl e | inr x => k x end.

Fixpoint parse_tmpl (groups : nat) (mode : tmode) (s : str) {struct s} : exc + list tpiece :=
  match mode with
  | TGName acc =>
      match s with
      | [] => inl ReError                                 (* missing > *)
      | c :: s' =>
          if is_ch 62 c then tbind (gname_group groups (rev acc))
                                   (fun p => tcons p (parse_tmpl groups TText s'))
          else parse_tmpl groups (TGName (c :: acc)) s'
      end
  | TText =>
      match s with
      | [] => inr []
      | c :: s' =>
          if negb (is_ch 92 c) then tcons (TLit [c]) (parse_tmpl groups TText s')
          else
            match s' with
            | [] => inl ReError                           (* bad escape at the end *)
            | d :: s'' =>
                if is_ch 103 d then                       (* \g *)
                  match s'' with
                  | e :: s3 => if is_ch 60 e then parse_tmpl groups (TGName []) s3 else inl ReError
                  | [] => inl ReError
                  end
                else if is_ch 48 d then                   (* \0, \0o, \0oo *)
                  match s'' with
                  | e :: ((f :: s3) as t) =>
                      if is_octal e then
                        if is_octal f then
                          tcons (TLit [Ascii.ascii_of_nat (8 * digit_val e + digit_val f)]) (parse_tmpl groups TText s3)
                        else tcons (TLit [Ascii.ascii_of_nat (digit_val e)]) (parse_tmpl groups TText t)
                      else tcons (TLit [Ascii.ascii_of_nat 0]) (parse_tmpl groups TText s'')
                  | [e] => if is_octal e then inr [TLit [Ascii.ascii_of_nat (digit_val e)]]
                           else tcons (TLit [Ascii.ascii_of_nat 0]) (parse_tmpl groups TText s'')
                  | [] => inr [TLit [Ascii.ascii_of_nat 0]]
                  end
                else if is_digit d then                   (* \d, \dd, \ooo *)
                  match s'' with
                  | e :: s3 =>
                      if is_digit e then
                        match s3 with
                        | f :: s4 =>
                            if is_octal d && is_octal e && is_octal f then
                              let v := 64 * digit_val d + 8 * digit_val e + digit_val f in
                              if Nat.leb v 255 then tcons (TLit [Ascii.ascii_of_nat v]) (parse_tmpl groups TText s4)
                              else inl ReError
                            else tbind (tgroup groups (10 * digit_val d + digit_val e))
                                       (fun p => tcons p (parse_tmpl groups TText s3))
                        | [] => tbind (tgroup groups (10 * digit_val d + digit_val e))
                                      (fun p => tcons p (inr []))
                        end
                      else tbind (tgroup groups (digit_val d))
                                 (fun p => tcons p (parse_tmpl groups TText s''))
                  | [] => tbind (tgroup groups (digit_val d)) (fun p => tcons p (inr []))
                  end
                else
                  match template_escape d with
                  | Some x => tcons (TLit [x]) (parse_tmpl groups TText s'')
                  | None =>
                      if is_letter d then inl ReError     (* bad escape *)
                      else tcons (TLit [c; d]) (parse_tmpl groups TText s'')
                  end
            end
      end
  end.

(** [re._parser.parse_template(repl, pattern)]. *)
Definition parse_template (groups : nat) (repl : str) : exc + list tpiece :=
  parse_tmpl groups TText repl.

(** [match.expand]: a missing group expands to the empty text. *)
Definition expand (tpl : list tpiece) (whole : str) (cs : caps) : str :=
  concat (map (fun p => match p with
                        | TLit t => t
                        | TGrp 0 => whole
                        | TGrp n => default [] (cap_lookup n cs)
                        end) tpl).

(** ** The substitution loop *)

(** One iteration per match: [p] is the position of [rest] in the
    string, [ma] the must-advance flag, [n] the number of matches
    replaced so far, [count] the limit ([0]: none). *)
Fixpoint sub_loop (fuel : nat) (fl : flags) (r : re) (tpl : list tpiece)
    (p : nat) (rest : str) (ma : bool) (n count : nat) : str :=
  match fuel with
  | O => rest
  | S f =>
      if Nat.ltb 0 count && Nat.leb count n then rest
      else
        match search_from fl r ma p rest with
        | None => rest
        | Some m =>
            take (m_start m - p) rest ++
            expand tpl (take (m_end m - m_start m) (drop (m_start m - p) rest)) (m_caps m) ++
            sub_loop f fl r tpl (m_end m) (drop (m_end m - p) rest)
                     (Nat.eqb (m_end m) (m_start m)) (S n) count
        end
  end.

(** Fuel for a whole string: two iterations per character suffice
    ([sub_loop_fuel] below). *)
Definition sub_fuel (s : str) : nat := S (S (2 * length s)).

(** [re.sub(pattern, repl, string, count, flags)]. *)
Definition py_sub (fl : flags) (pat repl s : str) (count : nat) : exc + str :=
  match compile pat with
  | None => inl ReError
  | Some (r, groups) =>
      match parse_template groups repl with
      | inl e => inl e
      | inr tpl => inr (sub_loop (sub_fuel s) fl r tpl 0 s false 0 count)
      end
  end.

(** [re.search(pattern, string, flags)]: the match object, if any. *)
Definition py_search (fl : flags) (pat s : str) : exc + option mobj :=
  match compile pat with
  | None => inl ReError
  | Some (r, _) => inr (search fl r s)
  end.

(** A reference for [re.sub] with a pattern whose match at each position
    is fixed in advance: [tok s] is the length of the match at the start
    of [s], if any, and [f] the replacement of a matched text.  The text
    is scanned left to right; a match is replaced and skipped, any other
    character is copied. *)
Fixpoint tok_sub (tok : str -> option nat) (f : str -> str) (fuel : nat) (s : str) : str :=
  match fuel with
  | O => s
  | S g =>
      match tok s with
      | Some n => f (take n s) ++ tok_sub tok f g (drop n s)
      | None => match s with [] => [] | x :: s' => x :: tok_sub tok f g s' end
      end
  end.

(** The first position of [s] where [tok] matches, with the length of
    the match. *)
Fixpoint tok_find (tok : str -> option nat) (s : str) : option (nat * nat) :=
  match tok s with
  | Some n => Some (0, n)
  | None => match s with [] => None | _ :: s' => (fun '(i, n) => (S i, n)) <$> tok_find tok s' end
  end.

(** The chain of literals of a pattern that is [l0.*?l1...] once
    compiled. *)
Definition pattern_chain (pat : str) : str * list str :=
  default ([], []) (compile pat ≫= fun '(r, _) => chain_of r).

(** * Lemmas *)

(** The measure that every iteration decreases. *)
Definition sub_measure (rest : str) (ma : bool) : nat :=
  2 * length rest + (if ma then 0 else 1).

(** Termination: with more fuel than the measure, the loop has finished
    its work, so more fuel changes nothing. *)
Lemma sub_loop_fuel f fl r tpl p rest ma n count :
  sub_measure rest ma < f ->
  sub_loop (S f) fl r tpl p rest ma n count = sub_loop f fl r tpl p rest ma n count.
Proof.
  revert p rest ma n. induction f as [|f IH]; intros p rest ma n Hf; [lia|].
  cbn [sub_loop]. destruct (_ && _); [done|].
  destruct (search_from fl r ma p rest) as [m|] eqn:E; [|done].
  apply search_from_bounds in E as (Hb & He & Hma).
  do 2 f_equal. apply IH. unfold sub_measure in *. rewrite length_drop.
  destruct (Nat.eqb_spec (m_end m) (m_start m)) as [Heq|Hne]; [|lia].
  destruct ma; [|lia]. destruct (decide (m_start m = p)); [|lia].
  specialize (Hma eq_refl). lia.
Qed.

(** (C18) The fuel of [py_sub] is enough: any larger fuel gives the same text. *)
Lemma sub_fuel_enough f fl r tpl s count :
  sub_fuel s <= f ->
  sub_loop f fl r tpl 0 s false 0 count = sub_loop (sub_fuel s) fl r tpl 0 s false 0 count.
Proof.
  intros Hf. induction Hf as [|f Hf IH]; [done|].
  rewrite sub_loop_fuel; [done|]. unfold sub_measure, sub_fuel in *. lia.
Qed.

(** ** No match *)

(** A text where the pattern finds nothing comes out unchanged. *)
(** [re.sub] with a pattern that compiles and a valid template never raises. *)
Lemma py_sub_ok fl pat repl s count r g tpl :
  compile pat = Some (r, g) -> parse_template g repl = inr tpl ->
  exists out, py_sub fl pat repl s count = inr out.
Proof. intros Hc Ht. unfold py_sub. rewrite Hc, Ht. by eexists. Qed.

(** With a pattern that compiles, [re.sub] raises only the error of its
    template. *)
Lemma py_sub_err fl pat repl s count r g e :
  compile pat = Some (r, g) -> py_sub fl pat repl s count = inl e ->
  parse_template g repl = inl e.
Proof. intros Hc. unfold py_sub. rewrite Hc. destruct (parse_template g repl); congruence. Qed.

Lemma py_search_ok fl pat s r g :
  compile pat = Some (r, g) -> exists o, py_search fl pat s = inr o.
Proof. intros Hc. unfold py_search. rewrite Hc. by eexists. Qed.

Lemma py_sub_no_match fl pat repl s count r g tpl :
  compile pat = Some (r, g) -> parse_template g repl = inr tpl ->
  search fl r s = None -> py_sub fl pat repl s count = inr s.
Proof.
  intros Hc Ht Hs. unfold py_sub. rewrite Hc, Ht. unfold sub_fuel. cbn [sub_loop].
  destruct (Nat.ltb 0 count && Nat.leb count 0) eqn:E; [done|].
  unfold search in Hs. by rewrite Hs.
Qed.

(** ** Patterns whose leading text is absent *)

(** [pat] compiles, its matches all start with [l], and [repl] is a valid
    template for it: a check evaluated on the script's constants. *)
Definition search_absent_ok (pat l : str) : bool :=
  match compile pat with
  | Some (r, _) => bool_decide (l `prefix_of` first_lit r)
  | None => false
  end.

Definition sub_absent_ok (pat repl l : str) : bool :=
  match compile pat with
  | Some (r, g) =>
      bool_decide (l `prefix_of` first_lit r) &&
      match parse_template g repl with inr _ => true | inl _ => false end
  | None => false
  end.

(** [re.search] finds nothing in a text without the pattern's leading text. *)
Lemma py_search_absent fl pat l s :
  search_absent_ok pat l = true -> contains l s = false -> py_search fl pat s = inr None.
Proof.
  unfold search_absent_ok, py_search. destruct (compile pat) as [[r g]|]; [|done].
  intros Hp Hl. apply bool_decide_eq_true in Hp. f_equal. by apply (search_prefix_absent _ _ l).
Qed.

(** [re.sub] leaves a text without the pattern's leading text unchanged. *)
Lemma py_sub_absent fl pat repl l s count :
  sub_absent_ok pat repl l = true -> contains l s = false -> py_sub fl pat repl s count = inr s.
Proof.
  unfold sub_absent_ok. destruct (compile pat) as [[r g]|] eqn:Hc; [|done].
  destruct (parse_template g repl) as [e|tpl] eqn:Ht; [by rewrite andb_false_r|].
  rewrite andb_true_r. intros Hp Hl. apply bool_decide_eq_true in Hp.
  apply (py_sub_no_match _ _ _ _ _ r g tpl); [done|done|]. by apply (search_prefix_absent _ _ l).
Qed.

(** ** Literal patterns: [re.sub] is [str.replace] *)

(** When the search from the next position is all there is, the loop
    copies the current character and goes on from the next position. *)
Lemma sub_loop_skip g fl r tpl p x s ma n :
  search_from fl r ma p (x :: s) = search_from fl r false (S p) s ->
  sub_loop (S g) fl r tpl p (x :: s) ma n 0 = x :: sub_loop (S g) fl r tpl (S p) s false n 0.
Proof.
  intros Hs. cbn [sub_loop Nat.ltb Nat.leb andb]. rewrite Hs.
  destruct (search_from fl r false (S p) s) as [m|] eqn:E; [|done].
  apply search_from_bounds in E as (Hb & _).
  replace (m_start m - p) with (S (m_start m - S p)) by lia.
  replace (m_end m - p) with (S (m_end m - S p)) by lia. done.
Qed.

Section Literal.
Context (fl : flags) (r : re) (l : str) (c : caps) (tpl : list tpiece).
Hypothesis Hlit : literal_like fl r l c.
Hypothesis Hne : l <> [].

Lemma search_lit_hit ma p s :
  startswith l s = true -> search_from fl r ma p s = Some (MObj p (p + length l) c).
Proof.
  intros Hs. assert (0 < length l <= length s) as Hlen.
  { apply startswith_spec in Hs as [b ->]. rewrite length_app. destruct l; [done|simpl; lia]. }
  destruct s as [|x s]; [simpl in Hlen; lia|].
  cbn [search_from]. rewrite Hlit, Hs, app_nil_r. cbv beta. rewrite length_drop.
  destruct (Nat.eqb_spec (length (x :: s) - length l) (length (x :: s))); [lia|].
  rewrite andb_false_r. do 3 f_equal. lia.
Qed.

Lemma search_lit_skip ma p x s :
  startswith l (x :: s) = false -> search_from fl r ma p (x :: s) = search_from fl r false (S p) s.
Proof. intros Hs. simpl. by rewrite Hlit, Hs. Qed.

Lemma sub_loop_lit_hit f p s n :
  startswith l s = true ->
  sub_loop (S f) fl r tpl p s false n 0 =
  expand tpl l c ++ sub_loop f fl r tpl (p + length l) (drop (length l) s) false (S n) 0.
Proof.
  intros Hs. cbn [sub_loop]. simpl. rewrite (search_lit_hit _ _ _ Hs). simpl.
  rewrite Nat.sub_diag. simpl. replace (p + length l - p) with (length l) by lia.
  rewrite drop_0.
  assert (Nat.eqb (p + length l) p = false) as ->.
  { apply Nat.eqb_neq. destruct l; [done|simpl; lia]. }
  apply startswith_spec in Hs as [b Hb]. by rewrite Hb, take_app_length.
Qed.

Lemma sub_loop_lit_skip f p x s n :
  startswith l (x :: s) = false ->
  sub_loop (S f) fl r tpl p (x :: s) false n 0 = x :: sub_loop (S f) fl r tpl (S p) s false n 0.
Proof. intros Hs. apply sub_loop_skip, search_lit_skip, Hs. Qed.

(** [re.sub] with a pattern that matches exactly the non-empty text [l]
    and no limit replaces every occurrence of [l], leftmost first and
    without overlap, by the expanded template: it is [str.replace]. *)
Lemma sub_loop_literal f p s n :
  sub_measure s false < f ->
  sub_loop f fl r tpl p s false n 0 = replace l (expand tpl l c) s.
Proof.
  revert f p n. induction s as [s IH] using (induction_ltof1 _ (@length _)).
  intros [|f] p n Hf; [unfold sub_measure in Hf; lia|].
  destruct (startswith l s) eqn:Hs.
  - rewrite sub_loop_lit_hit by done. rewrite (replace_hit l) by (try apply startswith_spec; done).
    f_equal. apply IH.
    + unfold ltof. rewrite length_drop. apply startswith_spec in Hs as [b ->].
      rewrite length_app. destruct l; [done|simpl; lia].
    + unfold sub_measure in *. apply startswith_spec in Hs as [b ->].
      rewrite length_drop, length_app in *. destruct l; [done|simpl in *; lia].
  - destruct s as [|x s].
    { rewrite replace_nil_text by done. cbn [sub_loop search_from Nat.ltb Nat.leb andb].
      by rewrite Hlit, Hs. }
    rewrite sub_loop_lit_skip, replace_miss by (try rewrite <- startswith_spec, Hs; done).
    f_equal. apply IH; [unfold ltof; simpl; lia|unfold sub_measure in *; simpl in *; lia].
Qed.
End Literal.

(** ** Patterns with one possible match at each position *)

Section Deterministic.
Context (fl : flags) (r : re) (tok : str -> option nat) (capf : str -> caps).
Context (tpl : list tpiece) (f : str -> str).
(** The matcher on [r], with a continuation that accepts any shorter
    rest (as [search] does), succeeds at most in one way at each position:
    with the [tok s] first characters, capturing [capf] of them. *)
Hypothesis Hdet : forall R s cs (k : str -> caps -> option R),
  (forall s' cs', length s' < length s -> is_Some (k s' cs')) ->
  mtch fl r s cs k = match tok s with
                     | Some n => k (drop n s) (capf (take n s) ++ cs)
                     | None => None
                     end.
(** Matches are non-empty. *)
Hypothesis Htok : forall s n, tok s = Some n -> 0 < n <= length s.
(** The template replaces a match by [f] of its text. *)
Hypothesis Hexp : forall m, expand tpl m (capf m) = f m.

(** The continuation of [search] accepts any rest shorter than the text. *)
Lemma search_k_total ma (rest s' : str) (cs' : caps) :
  length s' < length rest ->
  is_Some ((fun s' cs => if ma && Nat.eqb (length s') (length rest) then None
                         else Some (length rest - length s', cs)) s' cs').
Proof.
  intros H. cbv beta. destruct (Nat.eqb_spec (length s') (length rest)); [lia|].
  rewrite andb_false_r. by eexists.
Qed.

Lemma tok_sub_fuel g1 g2 s :
  length s < g1 -> length s < g2 -> tok_sub tok f g1 s = tok_sub tok f g2 s.
Proof.
  revert g1 g2. induction s as [s IH] using (induction_ltof1 _ (@length _)).
  intros [|g1] [|g2] H1 H2; try lia. simpl.
  destruct (tok s) as [n|] eqn:E.
  - f_equal. apply Htok in E. apply IH; unfold ltof; rewrite ?length_drop; lia.
  - destruct s as [|x s]; [done|]. f_equal. simpl in *. apply IH; unfold ltof; simpl; lia.
Qed.

Lemma search_det_hit ma p s n :
  tok s = Some n -> search_from fl r ma p s = Some (MObj p (p + n) (capf (take n s))).
Proof.
  intros E. destruct (Htok _ _ E) as [Hn Hs].
  destruct s as [|x s]; [simpl in Hs; lia|].
  cbn [search_from]. rewrite Hdet, E, app_nil_r by (apply search_k_total).
  cbv beta. rewrite length_drop.
  destruct (Nat.eqb_spec (length (x :: s) - n) (length (x :: s))); [lia|].
  rewrite andb_false_r. do 3 f_equal. lia.
Qed.

Lemma search_det_skip ma p x s :
  tok (x :: s) = None -> search_from fl r ma p (x :: s) = search_from fl r false (S p) s.
Proof. intros E. simpl. rewrite Hdet, E by (apply search_k_total). done. Qed.

(** [re.sub] with no limit on such a pattern is [tok_sub]. *)
Lemma sub_loop_det g p s n :
  sub_measure s false < g ->
  sub_loop g fl r tpl p s false n 0 = tok_sub tok f (S (length s)) s.
Proof.
  revert g p n. induction s as [s IH] using (induction_ltof1 _ (@length _)).
  intros [|g] p n Hg; [unfold sub_measure in Hg; lia|].
  destruct (tok s) as [k|] eqn:E.
  - destruct (Htok _ _ E) as [Hk Hs].
    cbn [sub_loop Nat.ltb Nat.leb andb]. rewrite (search_det_hit _ _ _ _ E). simpl.
    rewrite E, Nat.sub_diag, drop_0. replace (p + k - p) with k by lia.
    assert (Nat.eqb (p + k) p = false) as -> by (apply Nat.eqb_neq; lia).
    rewrite Hexp. simpl. f_equal.
    rewrite (IH (drop k s)); unfold ltof, sub_measure in *; rewrite ?length_drop; try lia.
    apply tok_sub_fuel; rewrite length_drop; lia.
  - destruct s as [|x s].
    { cbn [sub_loop search_from Nat.ltb Nat.leb andb].
      rewrite Hdet, E by (intros ? ? Hl; simpl in Hl; lia). simpl. by rewrite E. }
    rewrite sub_loop_skip by (apply search_det_skip, E).
    assert (tok_sub tok f (S (length (x :: s))) (x :: s) = x :: tok_sub tok f (S (length s)) s)
      as -> by (simpl; by rewrite E).
    f_equal. apply IH; [unfold ltof; simpl; lia|unfold sub_measure in *; simpl in *; lia].
Qed.

(** [pattern.search] finds the first position where [tok] matches. *)
Lemma search_det p s :
  search_from fl r false p s =
  (fun '(i, n) => MObj (p + i) (p + i + n) (capf (take n (drop i s)))) <$> tok_find tok s.
Proof.
  revert p. induction s as [|x s IH]; intros p.
  - cbn [search_from tok_find]. destruct (tok []) as [n|] eqn:E.
    + apply Htok in E. simpl in E. lia.
    + rewrite Hdet, E by (intros ? ? Hl; simpl in Hl; lia). done.
  - simpl tok_find. destruct (tok (x :: s)) as [n|] eqn:E.
    + rewrite (search_det_hit _ _ _ _ E). simpl. by rewrite Nat.add_0_r.
    + rewrite (search_det_skip _ _ _ _ E), IH.
      destruct (tok_find tok s) as [[i n]|]; simpl; [|done]. do 2 f_equal; lia.
Qed.

Lemma py_search_det pat g s :
  compile pat = Some (r, g) ->
  py_search fl pat s =
  inr ((fun '(i, n) => MObj i (i + n) (capf (take n (drop i s)))) <$> tok_find tok s).
Proof. intros Hc. unfold py_search, search. rewrite Hc, search_det. done. Qed.

Lemma py_sub_det pat repl g s :
  compile pat = Some (r, g) -> parse_template g repl = inr tpl ->
  py_sub fl pat repl s 0 = inr (tok_sub tok f (S (length s)) s).
Proof.
  intros Hc Ht. unfold py_sub. rewrite Hc, Ht. f_equal.
  apply sub_loop_det. unfold sub_measure, sub_fuel. lia.
Qed.
End Deterministic.

(** [re.sub(pattern, repl, s)] with a literal-like pattern is
    [s.replace(l, expanded repl)]. *)
Lemma py_sub_literal fl pat repl s r g tpl l c :
  compile pat = Some (r, g) -> literal_like fl r l c -> l <> [] ->
  parse_template g repl = inr tpl ->
  py_sub fl pat repl s 0 = inr (replace l (expand tpl l c) s).
Proof.
  intros Hc Hlit Hne Ht. unfold py_sub. rewrite Hc, Ht. f_equal.
  apply sub_loop_literal; [done|done|]. unfold sub_measure, sub_fuel. lia.
Qed.

(** ** Chains of literals under [re.DOTALL] *)

Lemma chain_tok_len l0 ls s n : l0 <> [] -> chain_tok l0 ls s = Some n -> 0 < n <= length s.
Proof.
  intros Hne. unfold chain_tok. destruct (startswith l0 s) eqn:E; [|done].
  destruct (chain_len ls (drop (length l0) s)) as [m|] eqn:Em; [|done]. intros [= <-].
  apply chain_len_bound in Em. apply startswith_length in E. rewrite length_drop in Em.
  destruct l0; [done|simpl in *; lia].
Qed.

Lemma mtch_chain_det l0 ls R s cs (k : str -> caps -> option R) :
  l0 <> [] -> (forall s' cs', length s' < length s -> is_Some (k s' cs')) ->
  mtch DOTALL (gap_chain l0 ls) s cs k =
  match chain_tok l0 ls s with Some n => k (drop n s) ((fun _ => []) (take n s) ++ cs) | None => None end.
Proof. intros Hne Hk. by rewrite mtch_chain. Qed.

(** [re.sub(pattern, repl, s, flags=re.DOTALL)] with a chain pattern
    replaces, left to right, each chain match by the expanded template. *)
Lemma py_sub_chain pat repl s tpl g l0 ls (f : str -> str) :
  compile pat = Some (gap_chain l0 ls, g) -> l0 <> [] ->
  parse_template g repl = inr tpl -> (forall m, expand tpl m [] = f m) ->
  py_sub DOTALL pat repl s 0 = inr (tok_sub (chain_tok l0 ls) f (S (length s)) s).
Proof.
  intros Hc Hne Ht Hexp.
  exact (py_sub_det DOTALL _ _ (fun _ => []) tpl f (fun R s cs k => mtch_chain_det l0 ls R s cs k Hne)
           (fun s n => chain_tok_len l0 ls s n Hne) Hexp pat repl g s Hc Ht).
Qed.

(** [re.search(pattern, s, re.DOTALL)] with a chain pattern finds the
    first position where the chain matches. *)
Lemma py_search_chain pat s g l0 ls :
  compile pat = Some (gap_chain l0 ls, g) -> l0 <> [] ->
  py_search DOTALL pat s = inr ((fun '(i, n) => MObj i (i + n) []) <$> tok_find (chain_tok l0 ls) s).
Proof.
  intros Hc Hne.
  rewrite (py_search_det DOTALL _ _ (fun _ => []) (fun R s cs k => mtch_chain_det l0 ls R s cs k Hne)
             (fun s n => chain_tok_len l0 ls s n Hne) pat g s Hc).
  by destruct (tok_find _ s) as [[i n]|].
Qed.

(** ** Templates without backslashes *)

Definition tlits (g : str) : list tpiece := map (fun c => TLit [c]) g.

Definition tprepend (ps : list tpiece) (r : exc + list tpiece) : exc + list tpiece :=
  match r with inl e => inl e | inr l => inr (ps ++ l) end.

(** A backslash-free text before a template is copied literally. *)
Lemma parse_tmpl_nobs groups g t :
  BS ∉ g -> parse_tmpl groups TText (g ++ t) = tprepend (tlits g) (parse_tmpl groups TText t).
Proof.
  induction g as [|c g IH]; intros Hg; simpl.
  - by destruct (parse_tmpl groups TText t).
  - assert (is_ch 92 c = false) as ->.
    { unfold is_ch. apply Nat.eqb_neq. intros E. apply Hg, elem_of_cons. left.
      unfold BS. rewrite <- E. apply Ascii.ascii_nat_embedding. }
    simpl. rewrite IH by set_solver. by destruct (parse_tmpl groups TText t).
Qed.

(** The one-letter escapes are neither [\g] nor digits, and no letter is
    a digit: such escapes reach the last branch of the template parser. *)
Lemma template_escape_class c x :
  template_escape c = Some x -> is_ch 103 c = false /\ is_ch 48 c = false /\ is_digit c = false.
Proof. destruct c as [[] [] [] [] [] [] [] []]; vm_compute; intros H; first [discriminate | repeat split]. Qed.

Lemma letter_class c : is_letter c = true -> is_ch 48 c = false /\ is_digit c = false.
Proof. destruct c as [[] [] [] [] [] [] [] []]; vm_compute; intros H; first [discriminate | repeat split]. Qed.

(** A known escape [\c] of the template stands for its character. *)
Lemma parse_tmpl_escape groups c x t :
  template_escape c = Some x ->
  parse_tmpl groups TText (BS :: c :: t) = tcons (TLit [x]) (parse_tmpl groups TText t).
Proof.
  intros He. destruct (template_escape_class c x He) as (Hg & H0 & Hd).
  cbn [parse_tmpl]. rewrite Hg, H0, Hd, He. reflexivity.
Qed.

(** An unknown letter escape [\c] other than [\g] is a [re.error]. *)
Lemma parse_tmpl_bad_escape groups c t :
  is_letter c = true -> c <> "g"%char -> template_escape c = None ->
  parse_tmpl groups TText (BS :: c :: t) = inl ReError.
Proof.
  intros Hl Hg He. destruct (letter_class c Hl) as [H0 Hd].
  assert (is_ch 103 c = false) as Hg'.
  { unfold is_ch. apply Nat.eqb_neq. intros E. apply Hg.
    rewrite <- (Ascii.ascii_nat_embedding c), E. reflexivity. }
  cbn [parse_tmpl]. rewrite Hg', H0, Hd, He, Hl. reflexivity.
Qed.

Lemma expand_tlits g tpl w cs : expand (tlits g ++ tpl) w cs = g ++ expand tpl w cs.
Proof.
  unfold expand, tlits. rewrite map_app, concat_app. f_equal.
  induction g as [|c g IH]; [done|]. simpl. by rewrite IH.
Qed.

(** (C17) [re.sub(pattern, repl, s)] with a pattern that matches one
    non-empty literal text [l] and a replacement without backslashes is
    [s.replace(l, repl)]: every occurrence, leftmost first, replaced by
    [repl] verbatim. *)
Theorem py_sub_literal_nobs fl pat repl s r g l c :
  compile pat = Some (r, g) -> literal_like fl r l c -> l <> [] -> BS ∉ repl ->
  py_sub fl pat repl s 0 = inr (replace l repl s).
Proof.
  intros Hc Hlit Hne Hbs.
  assert (parse_template g repl = inr (tlits repl ++ [])) as Ht.
  { unfold parse_template. rewrite <- (app_nil_r repl) at 1.
    by rewrite parse_tmpl_nobs. }
  rewrite (py_sub_literal _ _ _ _ _ _ _ _ _ Hc Hlit Hne Ht).
  by rewrite expand_tlits, app_nil_r.
Qed.

(** * Witnesses *)

Lemma sub_fuel_enough_witness :
  sub_loop 10 NOFLAGS (RRep (CChar "b"%char) 0 true) [TLit (txt "-")] 0 (txt "abb") false 0 0 =
  sub_loop (sub_fuel (txt "abb")) NOFLAGS (RRep (CChar "b"%char) 0 true) [TLit (txt "-")] 0
    (txt "abb") false 0 0.
Proof. apply sub_fuel_enough. vm_compute. lia. Defined.

Lemma py_sub_literal_nobs_witness :
  py_sub NOFLAGS (txt "ab") (txt "X") (txt "cabab") 0 = inr (replace (txt "ab") (txt "X") (txt "cabab")).
Proof.
  apply (py_sub_literal_nobs _ _ _ _ (lit (txt "ab") REps) 0 _ []).
  - vm_compute. reflexivity.
  - apply literal_like_lit.
  - discriminate.
  - apply (bool_decide_unpack _). vm_compute. exact I.
Defined.

End PySub.
