(* ===== verification/UpdateGui.v ===== *)
(** * [src/update_gui_workflow.py]: six regular-expression rewrites

    The script reads the destination and the donor file whole
    ([f.read()]), rewrites the destination text in six steps, and writes
    it back once:
    1. [re.sub(old_props, new_props, ..., flags=re.DOTALL)]: the upload
       screen property list;
    2. [re.sub(data_props_pattern, data_props_replacement, ...)]: two data
       properties after [EventInfo struct];
    3. [re.search] of the donor's [createUploadPanel], cleaned with
       [replace] and [strip], two quoted titles replaced, then [re.sub]
       over the destination's [createUploadPanel] -- with [re.DOTALL]
       passed as the fourth positional argument, which is [count];
    4. [re.search] of the donor's [selectEventsManually], inserted with a
       forwarding [startAnalysis] before every [function
       startProcessing(app)];
    5. [re.search] of the donor's [browseFile], substituted over the
       destination's [browseFile] block -- again with [re.DOTALL] as
       [count];
    6. [re.sub(epoch_stage_old, epoch_stage_new, ..., flags=re.DOTALL)].
    Each step is a function [exc + str -> exc + str] ([step1] ..
    [step6]); [pipeline] composes them and [update_gui_workflow] is the
    script in the [PyM] monad.  [re.DOTALL] is the flag value 16.

    The theorems characterise every step as a substitution on the text
    (through the reference scans of [PySub.v]), show the effect of the
    misplaced [re.DOTALL] and of using donor code as a template (escapes
    expanded or raising), the growth of the text when step 4 is run
    again on its output, the only exceptions the six steps can raise,
    and the whole script's run when no block is found. *)

From S2P Require Import Prelude PyStr PyIO PyRe PySub.
Import PyNotations.
Local Open Scope py_scope.

Module UpdateGui.
Import PyStr PyIO PyRe PySub.

(** ** The literals of the script *)

(** The pattern [old_props] (lines 20-48) *)
Definition old_props : str := txt "        % Upload Screen Components
        DropZonePanel.*?
        DropZoneLabel.*?
        BrowseButton.*?
        FileInfoPanel.*?
        FilenameLabel.*?
        DurationLabel.*?
        ChannelsLabel.*?
        EventsDetectedLabel.*?

        % Event Field Selection Components
        EventFieldLabel.*?
        EventFieldDropdown.*?
        DetectMarkersButton.*?

        % Epoch Definition Builder Components
        EpochBuilderLabel.*?
        StartMarkerLabel.*?
        StartMarkerDropdown.*?
        EndMarkerLabel.*?
        EndMarkerDropdown.*?
        EpochNameLabel.*?
        EpochNameField.*?
        AddEpochButton.*?
        EpochListLabel.*?
        EpochListBox.*?
        RemoveEpochButton.*?

        StartButton".

(** The replacement [new_props] (lines 50-57) *)
Definition new_props : str := txt "        % Upload Screen Components (matching JuanAnalyzer)
        TitleLabel              matlab.ui.control.Label
        SubtitleLabel           matlab.ui.control.Label
        BrowseButton            matlab.ui.control.Button
        FileInfoLabel           matlab.ui.control.Label
        EventSelectionButton    matlab.ui.control.Button
        EventSelectionLabel     matlab.ui.control.Label
        StartButton".

(** [data_props_pattern] (line 63) *)
Definition data_props_pattern : str := txt "(EventInfo\s+struct)".

(** [data_props_replacement] (lines 64-66) *)
Definition data_props_replacement : str := txt "\1
        SelectedEvents          cell = {}
        SelectedFields          cell = {}".

(** The pattern of lines 73 and 89 *)
Definition upload_pattern : str := txt "function createUploadPanel\(app\).*?end\n\n        function createProcessingPanel".

(** The text removed from the match (line 78) *)
Definition processing_marker : str := txt "function createProcessingPanel".

(** The text appended to the replacement (line 90) *)
Definition upload_suffix : str := txt "

        function createProcessingPanel".

(** The pattern of line 97 *)
Definition select_pattern : str := txt "function selectEventsManually\(app\).*?        end\n\n        function startAnalysis".

(** The text removed from the match (line 102) *)
Definition analysis_marker : str := txt "function startAnalysis".

(** The pattern of line 106 *)
Definition start_processing_pattern : str := txt "(function startProcessing\(app\))".

(** The text appended to the replacement (line 107) *)
Definition select_suffix : str := txt "

        function startAnalysis(app)
            startProcessing(app);
        end

        \1".

(** The pattern of line 113 *)
Definition browse_search_pattern : str := txt "function browseFile\(app\).*?        end\n\n        function selectEventsManually".

(** The text removed from the match (line 118) *)
Definition select_marker : str := txt "function selectEventsManually".

(** The pattern of line 122 *)
Definition browse_sub_pattern : str := txt "function browseFile\(app\).*?        end\n\n        function (loadFileInfo|selectEventsManually)".

(** The text appended to the replacement (line 123) *)
Definition browse_suffix : str := txt "

        function \1".

(** [epoch_stage_old] (lines 128-131) *)
Definition epoch_stage_old : str := txt "            % Stage 6: Event Analysis \(if epochs defined\)
            if ~isempty\(app\.EpochDefinitions\).*?            else
                updateProgress\(app, 6, 'No Epochs Defined \(Continuous Analysis\)\.\.\.'\);
            end".

(** [epoch_stage_new] (lines 133-156) *)
Definition epoch_stage_new : str := txt "            % Stage 6: Epoch Extraction (using selected events)
            if ~isempty(app.SelectedEvents)
                updateProgress(app, 6, 'Extracting Epochs from Selected Events...');
                try
                    % Detect event structure
                    structure = detectEventStructure(EEG);
                    discovery = struct();
                    discovery.groupingFields = app.SelectedFields;
                    discovery.practicePatterns = {};
                    discovery.valueMappings = struct();

                    % Extract epochs using universal function
                    timeWindow = [-0.2, 0.8];
                    app.EpochedData = epochEEGByEventsUniversal(EEG, app.SelectedEvents, ...
                        timeWindow, structure, discovery, app.SelectedFields);
                    fprintf('Extracted %d epoch types\n', length(app.EpochedData));
                catch ME
                    fprintf('Epoch extraction failed: %s\n', ME.message);
                    app.EpochedData = [];
                end
            else
                updateProgress(app, 6, 'No Events Selected (Continuous Analysis)...');
                app.EpochedData = [];
            end".

(** The quoted titles replaced in the transplanted [createUploadPanel] (lines 82-85) *)
Definition title_old : str := txt "'Juan Analyzer'".
Definition title_new : str := txt "'EEG Quality Analyzer'".
Definition subtitle_old : str := txt "'Manual Event Selection | N400, N250, P600 Components'".
Definition subtitle_new : str := txt "'Automated Quality Assessment with Manual Event Selection'".

(** ** The steps *)

(** The value of [re.DOTALL], which steps 3 and 5 pass as [count]. *)
Definition RE_DOTALL_VALUE : nat := 16.

Definition step1 (eeg : str) : exc + str := py_sub DOTALL old_props new_props eeg 0.

Definition step2 (eeg : str) : exc + str :=
  py_sub NOFLAGS data_props_pattern data_props_replacement eeg 0.

(** [m.group(0).replace(marker, '').strip()] *)
Definition extract_func (juan : str) (m : mobj) (marker : str) : str :=
  strip (replace marker [] (group0 juan m)).

(** The donor's [createUploadPanel] as step 3 prepares it (lines 72-85). *)
Definition upload_func (juan : str) : exc + option str :=
  match py_search DOTALL upload_pattern juan with
  | inl e => inl e
  | inr None => inr None
  | inr (Some m) =>
      let f := extract_func juan m processing_marker in
      let f := replace title_old title_new f in
      inr (Some (replace subtitle_old subtitle_new f))
  end.

(** The donor's [selectEventsManually] as step 4 prepares it (lines 96-102). *)
Definition select_func (juan : str) : exc + option str :=
  match py_search DOTALL select_pattern juan with
  | inl e => inl e
  | inr None => inr None
  | inr (Some m) => inr (Some (extract_func juan m analysis_marker))
  end.

(** The donor's [browseFile] as step 5 prepares it (lines 112-118). *)
Definition browse_func (juan : str) : exc + option str :=
  match py_search DOTALL browse_search_pattern juan with
  | inl e => inl e
  | inr None => inr None
  | inr (Some m) => inr (Some (extract_func juan m select_marker))
  end.

(** [if match: eeg_content = re.sub(...)]: a step that runs only when the
    donor function was found. *)
Definition when_found (func : exc + option str) (eeg : str) (k : str -> exc + str)
  : exc + str :=
  match func with
  | inl e => inl e
  | inr None => inr eeg
  | inr (Some f) => k f
  end.

Definition step3 (juan eeg : str) : exc + str :=
  when_found (upload_func juan) eeg (fun f =>
    py_sub NOFLAGS upload_pattern (f ++ upload_suffix) eeg RE_DOTALL_VALUE).

Definition step4 (juan eeg : str) : exc + str :=
  when_found (select_func juan) eeg (fun f =>
    py_sub NOFLAGS start_processing_pattern (f ++ select_suffix) eeg 0).

Definition step5 (juan eeg : str) : exc + str :=
  when_found (browse_func juan) eeg (fun f =>
    py_sub NOFLAGS browse_sub_pattern (f ++ browse_suffix) eeg RE_DOTALL_VALUE).

Definition step6 (eeg : str) : exc + str := py_sub DOTALL epoch_stage_old epoch_stage_new eeg 0.

Definition sbind (r : exc + str) (k : str -> exc + str) : exc + str :=
  match r with inl e => inl e | inr x => k x end.

(** Steps 1 to 6 in order, an exception stopping the rest. *)
Definition pipeline (juan eeg : str) : exc + str :=
  sbind (step1 eeg) (fun e1 =>
  sbind (step2 e1) (fun e2 =>
  sbind (step3 juan e2) (fun e3 =>
  sbind (step4 juan e3) (fun e4 =>
  sbind (step5 juan e4) step6)))).

(** The whole script. *)
Definition update_gui_workflow : PyM unit :=
  eeg <- read_file EEG_PATH ;;
  juan <- read_file JUAN_PATH ;;
  match pipeline juan eeg with
  | inl e => praise e
  | inr out => write_file EEG_PATH out
  end.

(** * Example files *)

(** A donor file with the functions the script transplants. *)
Definition ex_juan : str := txt "        function createUploadPanel(app)
            app.TitleLabel.Text = 'Juan Analyzer';
        end

        function createProcessingPanel(app)
        end

        function browseFile(app)
            load(app);
        end

        function selectEventsManually(app)
            pick(app);
        end

        function startAnalysis(app)
        end
".

(** A destination file with the functions the script replaces. *)
Definition ex_eeg : str := txt "        EventInfo               struct
        function createUploadPanel(app)
            old = 1;
        end

        function createProcessingPanel(app)
        end

        function browseFile(app)
            oldBrowse(app);
        end

        function loadFileInfo(app)
        end

        function startProcessing(app)
        end
".

(** A donor whose [selectEventsManually] prints with a [\n] escape. *)
Definition ex_juan_esc : str := txt "        function selectEventsManually(app)
            fprintf('picked\n');
        end

        function startAnalysis(app)
        end
".

(** A donor whose [selectEventsManually] uses a MATLAB regular expression. *)
Definition ex_juan_bad : str := txt "        function selectEventsManually(app)
            n = regexp(s, '\d+');
        end

        function startAnalysis(app)
        end
".

(** * The patterns as trees *)

(** The fixed parts of the two [function ... end] patterns of steps 3 and 5. *)
Definition upload_head : str := txt "function createUploadPanel(app)".
Definition upload_tail : str := txt "end" ++ [LF; LF] ++ txt "        function createProcessingPanel".
Definition browse_head : str := txt "function browseFile(app)".
Definition browse_tail : str := txt "        end" ++ [LF; LF] ++ txt "        function ".
Definition start_processing_text : str := txt "function startProcessing(app)".

(** The leading text of each pattern: the [% Upload Screen Components]
    comment (step 1), [EventInfo] (step 2), the donor functions
    (steps 3-5) and the stage-6 comment (step 6). *)
Definition props_marker : str := txt "        % Upload Screen Components".
Definition data_marker : str := txt "EventInfo".
Definition select_head : str := txt "function selectEventsManually(app)".
Definition stage6_marker : str := txt "            % Stage 6: Event Analysis".

(** ** The multi-line patterns as chains of literals *)

(** The end markers of the donor functions of steps 4 and 5. *)
Definition select_tail : str := txt "        end" ++ [LF; LF] ++ txt "        function startAnalysis".
Definition browse_search_tail : str :=
  txt "        end" ++ [LF; LF] ++ txt "        function selectEventsManually".

(** The literals of [old_props] and [epoch_stage_old] between their
    [.*?] gaps. *)
Definition old_props_chain : str * list str := pattern_chain old_props.
Definition epoch_chain : str * list str := pattern_chain epoch_stage_old.

(** What step 6 writes: [epoch_stage_new] with each [\n] turned into a
    line break by the template. *)
Definition epoch_stage_text : str := replace (txt "\n") [LF] epoch_stage_new.

(** ** Step 2: [(EventInfo\s+struct)] *)

Definition struct_word : str := txt "struct".

(** The text [data_props_replacement] adds after the matched declaration
    (what follows its [\1]). *)
Definition data_props_insert : str := drop 2 data_props_replacement.

(** The compiled [data_props_pattern]: group 1 around [EventInfo], a
    greedy [\s+] and [struct]. *)
Definition data_props_re : re :=
  RSeq (RGroup 1 (lit data_marker (RSeq (RRep CSpace 1 true) (lit struct_word REps)))) REps.

(** Where [data_props_pattern] matches at the start of a text, the length
    of the match: [EventInfo], the whole run of whitespace after it (at
    least one character), then [struct]. *)
Definition eventinfo_tok (s : str) : option nat :=
  if startswith data_marker s then
    let w := span_len isspace (drop (length data_marker) s) in
    if Nat.ltb 0 w && startswith struct_word (drop w (drop (length data_marker) s))
    then Some (length data_marker + w + length struct_word)
    else None
  else None.

Lemma compile_upload_pattern :
  compile upload_pattern = Some (lit upload_head (lazy_gap (lit upload_tail REps)), 0).
Proof. vm_compute. reflexivity. Qed.

Lemma compile_browse_sub_pattern :
  compile browse_sub_pattern =
  Some (lit browse_head (lazy_gap (lit browse_tail
          (RSeq (RGroup 1 (RAlt (lit (txt "loadFileInfo") REps)
                                (lit (txt "selectEventsManually") REps))) REps))), 1).
Proof. vm_compute. reflexivity. Qed.

Lemma compile_start_processing_pattern :
  compile start_processing_pattern =
  Some (RSeq (RGroup 1 (lit start_processing_text REps)) REps, 1).
Proof. vm_compute. reflexivity. Qed.

(** A step whose substitution finds nothing only checks its template. *)
Definition template_checked (func : exc + option str) (suffix : str) (groups : nat) (eeg : str)
  : exc + str :=
  when_found func eeg (fun f =>
    match parse_template groups (f ++ suffix) with
    | inl e => inl e
    | inr _ => inr eeg
    end).

Lemma compile_old_props : compile old_props = Some (gap_chain old_props_chain.1 old_props_chain.2, 0).
Proof. vm_compute. reflexivity. Qed.

Lemma compile_epoch_stage_old :
  compile epoch_stage_old = Some (gap_chain epoch_chain.1 epoch_chain.2, 0).
Proof. vm_compute. reflexivity. Qed.

Lemma compile_select_pattern : compile select_pattern = Some (gap_chain select_head [select_tail], 0).
Proof. vm_compute. reflexivity. Qed.

Lemma compile_browse_search_pattern :
  compile browse_search_pattern = Some (gap_chain browse_head [browse_search_tail], 0).
Proof. vm_compute. reflexivity. Qed.

(** The three donor searches: the first chain match in the donor, its text
    cleaned as [extract_func] does. *)
Lemma py_search_func juan pat l0 tl marker :
  compile pat = Some (gap_chain l0 [tl], 0) -> l0 <> [] ->
  (match py_search DOTALL pat juan with
   | inl e => inl e
   | inr None => inr None
   | inr (Some m) => inr (Some (extract_func juan m marker))
   end) =
  inr ((fun '(i, n) => strip (replace marker [] (take n (drop i juan)))) <$>
       tok_find (chain_tok l0 [tl]) juan).
Proof.
  intros Hc Hne. rewrite (py_search_chain _ _ _ _ _ Hc Hne).
  destruct (tok_find _ juan) as [[i n]|]; [|done]. unfold extract_func, group0. simpl.
  by replace (i + n - i) with n by lia.
Qed.

Lemma compile_data_props_pattern : compile data_props_pattern = Some (data_props_re, 1).
Proof. vm_compute. reflexivity. Qed.

Lemma parse_data_props_replacement :
  parse_template 1 data_props_replacement = inr (TGrp 1 :: tlits data_props_insert).
Proof. vm_compute. reflexivity. Qed.

(** The matcher on step 2's pattern succeeds in one way only, given by
    [eventinfo_tok], capturing the whole match as group 1. *)
Lemma mtch_data_props R s cs (k : str -> caps -> option R) :
  mtch NOFLAGS data_props_re s cs k =
  match eventinfo_tok s with
  | Some n => k (drop n s) ([(1, take n s)] ++ cs)
  | None => None
  end.
Proof.
  unfold data_props_re, eventinfo_tok. cbn [mtch]. rewrite mtch_lit.
  destruct (startswith data_marker s) eqn:E1; [|done]. cbn [mtch].
  rewrite rep_greedy_max.
  2:{ intros j Hj. rewrite mtch_lit. destruct (span_len_drop _ _ _ Hj) as (c & s' & -> & Hc).
      unfold struct_word. change (txt "struct") with ("s"%char :: txt "truct").
      cbn [startswith]. destruct (Ascii.eqb_spec "s"%char c) as [<-|]; [by vm_compute in Hc|done]. }
  change (cset_match NOFLAGS CSpace) with isspace.
  set (w := span_len isspace (drop (length data_marker) s)).
  change (Nat.leb 1 w) with (Nat.ltb 0 w). destruct (Nat.ltb 0 w); [|done]. cbn [andb].
  rewrite mtch_lit.
  destruct (startswith struct_word (drop w (drop (length data_marker) s))) eqn:E2; [|done].
  cbn [mtch]. apply startswith_length in E2. rewrite !length_drop in E2.
  assert (length struct_word = 6) by reflexivity.
  rewrite !drop_drop, !length_drop.
  replace (length s - (length s - (length data_marker + (w + length struct_word))))
    with (length data_marker + w + length struct_word) by lia.
  by rewrite Nat.add_assoc.
Qed.

Lemma eventinfo_tok_len s n : eventinfo_tok s = Some n -> 0 < n <= length s.
Proof.
  unfold eventinfo_tok. destruct (startswith data_marker s); [|done].
  destruct (_ && _) eqn:E; [|done]. intros [= <-].
  apply andb_true_iff in E as [_ E]. apply startswith_length in E.
  rewrite !length_drop in E. unfold data_marker. simpl in *. lia.
Qed.

Lemma when_found_no_match func suffix groups eeg fl pat count r :
  compile pat = Some (r, groups) -> search fl r eeg = None ->
  when_found func eeg (fun f => py_sub fl pat (f ++ suffix) eeg count) =
  template_checked func suffix groups eeg.
Proof.
  intros Hc Hs. unfold template_checked, when_found.
  destruct func as [e|[f|]]; [done| |done].
  destruct (parse_template groups (f ++ suffix)) as [e|tpl] eqn:Ht.
  - unfold py_sub. by rewrite Hc, Ht.
  - by apply (py_sub_no_match _ _ _ _ _ r groups tpl).
Qed.

(** * Steps 3 and 5: [re.DOTALL] given as [count] *)

(** (C30) Step 2 scans the destination left to right and, after every
    declaration [EventInfo], whitespace (newlines included), [struct] --
    the whole run of whitespace, as [\s+] is greedy -- inserts the two
    lines [SelectedEvents cell = {}] and [SelectedFields cell = {}];
    everything else is copied. *)
Theorem step2_inserts eeg :
  step2 eeg = inr (tok_sub eventinfo_tok (fun m => m ++ data_props_insert) (S (length eeg)) eeg).
Proof.
  unfold step2.
  eapply (py_sub_det NOFLAGS data_props_re eventinfo_tok (fun m => [(1, m)]) _ _
           (fun R s cs k _ => mtch_data_props R s cs k) eventinfo_tok_len);
    [|apply compile_data_props_pattern|apply parse_data_props_replacement].
  intros m. reflexivity.
Qed.

(** (C31) Step 1 with [re.DOTALL]: scanning left to right, each block that
    starts with the first line of [old_props] and then reaches, gap by gap,
    the first following occurrence of each next property name, up to the
    first [StartButton] after them, is replaced by [new_props]; the gaps
    may run over any text, so a property missing from the block makes
    the match extend to its next occurrence further down the file. *)
Theorem step1_replaces eeg :
  step1 eeg =
  inr (tok_sub (chain_tok old_props_chain.1 old_props_chain.2) (fun _ => new_props)
               (S (length eeg)) eeg).
Proof.
  apply (py_sub_chain _ _ _ (tlits new_props ++ []) 0);
    [apply compile_old_props|by vm_compute|vm_compute; reflexivity|].
  intros m. by rewrite expand_tlits, app_nil_r.
Qed.

(** (C32) Step 6 with [re.DOTALL]: each stage-6 block, from the
    [% Stage 6] comment through the first following [else] branch of the
    pattern, is replaced, left to right, by [epoch_stage_new] with its
    [\n] escapes turned into line breaks. *)
Theorem step6_replaces eeg :
  step6 eeg =
  inr (tok_sub (chain_tok epoch_chain.1 epoch_chain.2) (fun _ => epoch_stage_text)
               (S (length eeg)) eeg).
Proof.
  apply (py_sub_chain _ _ _ (tlits epoch_stage_text ++ []) 0);
    [apply compile_epoch_stage_old|by vm_compute|vm_compute; reflexivity|].
  intros m. by rewrite expand_tlits, app_nil_r.
Qed.

(** (C33) The donor functions of steps 3, 4 and 5 are found by [re.search]
    with [re.DOTALL] as the text from the first [function
    createUploadPanel(app)] (resp. [selectEventsManually], [browseFile])
    that some end marker follows, up to the first such end marker; the
    next function's header is removed from it, then it is stripped, and
    for step 3 its two titles are replaced. *)
Theorem donor_functions juan :
  upload_func juan =
    inr ((fun '(i, n) => replace subtitle_old subtitle_new (replace title_old title_new
            (strip (replace processing_marker [] (take n (drop i juan)))))) <$>
         tok_find (chain_tok upload_head [upload_tail]) juan) /\
  select_func juan =
    inr ((fun '(i, n) => strip (replace analysis_marker [] (take n (drop i juan)))) <$>
         tok_find (chain_tok select_head [select_tail]) juan) /\
  browse_func juan =
    inr ((fun '(i, n) => strip (replace select_marker [] (take n (drop i juan)))) <$>
         tok_find (chain_tok browse_head [browse_search_tail]) juan).
Proof.
  split; [|split].
  - unfold upload_func.
    rewrite (py_search_chain _ _ _ upload_head [upload_tail] compile_upload_pattern) by done.
    destruct (tok_find _ juan) as [[i n]|]; [|done]. unfold extract_func, group0. simpl.
    by replace (i + n - i) with n by lia.
  - apply py_search_func; [apply compile_select_pattern|done].
  - apply py_search_func; [apply compile_browse_search_pattern|done].
Qed.

(** (C10) Step 3 passes [re.DOTALL] as the positional [count] argument,
    so its pattern is matched without DOTALL and [.*?] cannot cross a
    line end: unless some [function createUploadPanel(app)] is followed
    on the same line by [end] and the [createProcessingPanel] header, the
    step leaves the destination text unchanged; it can only raise the
    error of an invalid replacement template. *)
Theorem step3_dotall_as_count juan eeg :
  one_line_span upload_head upload_tail eeg = false ->
  step3 juan eeg = template_checked (upload_func juan) upload_suffix 0 eeg.
Proof.
  intros Hs. unfold step3. apply (when_found_no_match _ _ _ _ _ _ _ _ compile_upload_pattern).
  by apply search_lit_gap_none.
Qed.

(** (C11) Step 5 has the same defect: it also passes [re.DOTALL] as the
    [count], so its [browseFile] block is replaced only when some
    [function browseFile(app)] is followed on the same line by the
    function's [end] and the next function header; otherwise the step
    leaves the destination unchanged and can only raise the error of an
    invalid replacement template. *)
Theorem step5_dotall_as_count juan eeg :
  one_line_span browse_head browse_tail eeg = false ->
  step5 juan eeg = template_checked (browse_func juan) browse_suffix 1 eeg.
Proof.
  intros Hs. unfold step5. apply (when_found_no_match _ _ _ _ _ _ _ _ compile_browse_sub_pattern).
  by apply search_lit_gap_none.
Qed.

(** * Step 4: a literal insertion *)

(** The text step 4 puts after the donor function, before the group
    reference [\1]. *)
Definition forward_text : str :=
  [LF; LF] ++ txt "        function startAnalysis(app)" ++ [LF] ++
  txt "            startProcessing(app);" ++ [LF] ++ txt "        end" ++ [LF; LF] ++ txt "        ".

Lemma select_suffix_template :
  parse_template 1 select_suffix = inr (tlits forward_text ++ [TGrp 1]).
Proof. vm_compute. reflexivity. Qed.

Lemma tlits_app a b : tlits (a ++ b) = tlits a ++ tlits b.
Proof. apply map_app. Qed.

(** Step 4 with a donor whose template is a literal text [ps] followed by
    the forwarding function and the group: the [str.replace] of the
    [startProcessing] header. *)
Lemma step4_template juan eeg g ps :
  select_func juan = inr (Some g) ->
  parse_template 1 (g ++ select_suffix) = inr (tlits ps ++ tlits forward_text ++ [TGrp 1]) ->
  step4 juan eeg =
  inr (replace start_processing_text (ps ++ forward_text ++ start_processing_text) eeg).
Proof.
  intros Hf Ht. unfold step4, when_found. rewrite Hf.
  assert (start_processing_text <> []) as Hne by (vm_compute; discriminate).
  rewrite (py_sub_literal _ _ _ _ _ _ _ _ _ compile_start_processing_pattern
             (literal_like_group _ _) Hne Ht).
  rewrite !expand_tlits. reflexivity.
Qed.

Lemma select_template_nobs g :
  BS ∉ g -> parse_template 1 (g ++ select_suffix) = inr (tlits g ++ tlits forward_text ++ [TGrp 1]).
Proof.
  intros Hg. unfold parse_template. rewrite parse_tmpl_nobs by done.
  change (parse_tmpl 1 TText select_suffix) with (parse_template 1 select_suffix).
  by rewrite select_suffix_template.
Qed.

(** The template of a donor whose first backslash starts the escape [\d]. *)
Lemma select_template_escape a d b :
  BS ∉ a ->
  parse_template 1 ((a ++ BS :: d :: b) ++ select_suffix) =
  tprepend (tlits a) (parse_tmpl 1 TText (BS :: d :: b ++ select_suffix)).
Proof. intros Ha. unfold parse_template. by rewrite <- app_assoc, parse_tmpl_nobs. Qed.

(** Inserting a non-empty text before every header lengthens a text that
    has one. *)
Lemma step4_replace_grows g eeg :
  contains start_processing_text eeg = true ->
  length eeg < length (replace start_processing_text (g ++ forward_text ++ start_processing_text) eeg).
Proof.
  intros Hc. assert (start_processing_text <> []) as Hne by (vm_compute; discriminate).
  assert (0 < length forward_text) by (vm_compute; lia).
  assert (length start_processing_text <= length (g ++ forward_text ++ start_processing_text)) as Hle
    by (rewrite !length_app; lia).
  apply (proj2 (replace_length_lt _ _ _ Hne Hle)); [rewrite !length_app; lia|exact Hc].
Qed.

(** (C13) When the donor's [selectEventsManually] has no backslash, step
    4 is [str.replace]: before every [function startProcessing(app)] of
    the destination it inserts the donor function and a forwarding
    [startAnalysis]. *)
Theorem step4_inserts juan eeg g :
  select_func juan = inr (Some g) -> BS ∉ g ->
  step4 juan eeg =
  inr (replace start_processing_text (g ++ forward_text ++ start_processing_text) eeg).
Proof. intros Hf Hg. apply (step4_template _ _ _ _ Hf), select_template_nobs, Hg. Qed.

(** (C14) The donor function is used as a replacement template, so its
    backslashes are escapes.  When the first backslash of the donor
    starts a known escape such as [\n] (and no other follows), the
    inserted copy has the escaped character in its place -- a line break
    that splits a MATLAB string; when it starts an unknown letter escape
    such as the [\d] of a MATLAB regular expression, step 4 raises
    [re.error]. *)
Theorem step4_donor_escapes juan eeg a d b :
  BS ∉ a -> select_func juan = inr (Some (a ++ BS :: d :: b)) ->
  (forall x, template_escape d = Some x -> BS ∉ b ->
     step4 juan eeg =
     inr (replace start_processing_text ((a ++ x :: b) ++ forward_text ++ start_processing_text) eeg)) /\
  (is_letter d = true -> d <> "g"%char -> template_escape d = None -> step4 juan eeg = inl ReError).
Proof.
  intros Ha Hf. split.
  - intros x Hx Hb. apply (step4_template _ _ _ _ Hf).
    rewrite select_template_escape, (parse_tmpl_escape _ _ x), parse_tmpl_nobs by done.
    change (parse_tmpl 1 TText select_suffix) with (parse_template 1 select_suffix).
    rewrite select_suffix_template. cbn [tprepend tcons].
    by rewrite tlits_app, <- app_assoc.
  - intros Hl Hg Hx. unfold step4, when_found. rewrite Hf. unfold py_sub.
    rewrite compile_start_processing_pattern, select_template_escape, parse_tmpl_bad_escape by done.
    reflexivity.
Qed.

(** (C15) Step 4 is not idempotent: when the destination has a
    [startProcessing] header and the donor function has no backslash,
    the output still has the header, and running step 4 on it inserts
    the donor function again, so the text keeps growing. *)
Theorem step4_not_idempotent juan eeg g out :
  select_func juan = inr (Some g) -> BS ∉ g -> contains start_processing_text eeg = true ->
  step4 juan eeg = inr out ->
  contains start_processing_text out = true /\ length eeg < length out /\
  exists out', step4 juan out = inr out' /\ length out < length out'.
Proof.
  intros Hf Hg Hc H4.
  rewrite (step4_template _ _ _ _ Hf (select_template_nobs _ Hg)) in H4. injection H4 as <-.
  assert (start_processing_text <> []) as Hne by (vm_compute; discriminate).
  assert (contains start_processing_text
            (replace start_processing_text (g ++ forward_text ++ start_processing_text) eeg) = true) as Hc'.
  { rewrite app_assoc. by apply replace_contains_suffix. }
  split; [done|]. split; [by apply step4_replace_grows|].
  eexists. split; [apply (step4_template _ _ _ _ Hf (select_template_nobs _ Hg))|].
  by apply step4_replace_grows.
Qed.

(** * Step 6: the escaped newlines of the new stage *)

(** * The whole script *)

(** Steps 1, 2 and 6 have fixed valid patterns and templates: they never
    raise. *)
Lemma step1_ok eeg : exists out, step1 eeg = inr out.
Proof.
  unfold step1. eapply (py_sub_ok _ _ _ _ _ _ _ (tlits new_props ++ []));
    [apply compile_old_props|vm_compute; reflexivity].
Qed.

Lemma step2_ok eeg : exists out, step2 eeg = inr out.
Proof. unfold step2. eapply py_sub_ok; [apply compile_data_props_pattern|apply parse_data_props_replacement]. Qed.

Lemma step6_ok eeg : exists out, step6 eeg = inr out.
Proof.
  unfold step6. eapply (py_sub_ok _ _ _ _ _ _ _ (tlits epoch_stage_text ++ []));
    [apply compile_epoch_stage_old|vm_compute; reflexivity].
Qed.

(** The donor searches never raise. *)
Lemma upload_func_ok juan : exists o, upload_func juan = inr o.
Proof.
  unfold upload_func. destruct (py_search_ok DOTALL upload_pattern juan _ _ compile_upload_pattern)
    as [[m|] ->]; by eexists.
Qed.

Lemma select_func_ok juan : exists o, select_func juan = inr o.
Proof.
  unfold select_func. destruct (py_search_ok DOTALL select_pattern juan _ _ compile_select_pattern)
    as [[m|] ->]; by eexists.
Qed.

Lemma browse_func_ok juan : exists o, browse_func juan = inr o.
Proof.
  unfold browse_func.
  destruct (py_search_ok DOTALL browse_search_pattern juan _ _ compile_browse_search_pattern)
    as [[m|] ->]; by eexists.
Qed.

(** A step guarded by a search that does not raise fails only in its
    substitution. *)
Lemma when_found_err func eeg k e :
  (exists o, func = inr o) -> when_found func eeg k = inl e ->
  exists f, func = inr (Some f) /\ k f = inl e.
Proof. intros [[f|] ->]; [by exists f|done]. Qed.

(** When none of the blocks the script looks for is present, every step
    leaves the text as it is. *)
Lemma pipeline_nothing_found juan eeg :
  contains props_marker eeg = false -> contains data_marker eeg = false ->
  contains stage6_marker eeg = false ->
  contains upload_head juan = false -> contains select_head juan = false ->
  contains browse_head juan = false ->
  pipeline juan eeg = inr eeg.
Proof.
  intros H1 H2 H6 H3 H4 H5. unfold pipeline, step1, step2, step3, step4, step5, step6.
  rewrite (py_sub_absent _ _ _ props_marker) by (done || vm_compute; reflexivity). cbn [sbind when_found].
  rewrite (py_sub_absent _ _ _ data_marker) by (done || vm_compute; reflexivity). cbn [sbind when_found].
  unfold upload_func, select_func, browse_func.
  rewrite (py_search_absent _ _ upload_head) by (done || vm_compute; reflexivity). cbn [sbind when_found].
  rewrite (py_search_absent _ _ select_head) by (done || vm_compute; reflexivity). cbn [sbind when_found].
  rewrite (py_search_absent _ _ browse_head) by (done || vm_compute; reflexivity). cbn [sbind when_found].
  by rewrite (py_sub_absent _ _ _ stage6_marker) by (done || vm_compute; reflexivity).
Qed.

(** (C16) A missing block is not an error: when the destination has none
    of the blocks of steps 1, 2 and 6 and the donor none of the functions
    of steps 3 to 5, the script reports success and writes the
    destination back unchanged (up to the newline translation of text
    mode), where the spec requires a [NotFoundError] and no write. *)
Theorem update_gui_nothing_found fs raw_eeg raw_juan :
  fs !! EEG_PATH = Some raw_eeg -> fs !! JUAN_PATH = Some raw_juan ->
  contains props_marker (translate_newlines raw_eeg) = false ->
  contains data_marker (translate_newlines raw_eeg) = false ->
  contains stage6_marker (translate_newlines raw_eeg) = false ->
  contains upload_head (translate_newlines raw_juan) = false ->
  contains select_head (translate_newlines raw_juan) = false ->
  contains browse_head (translate_newlines raw_juan) = false ->
  update_gui_workflow fs = (inr tt, <[EEG_PATH := translate_newlines raw_eeg]> fs).
Proof.
  intros He Hj H1 H2 H6 H3 H4 H5. unfold update_gui_workflow, pbind.
  rewrite (read_file_ok _ _ _ He), (read_file_ok _ _ _ Hj).
  by rewrite pipeline_nothing_found.
Qed.

(** (C34) The only way the script fails: when it raises, some donor
    function found by steps 3, 4 or 5 is not a valid replacement template
    once its suffix is appended (a MATLAB backslash escape such as [\d]);
    steps 1, 2 and 6 and the three searches never raise. *)
Theorem pipeline_errors juan eeg e :
  pipeline juan eeg = inl e ->
  exists f,
    (upload_func juan = inr (Some f) /\ parse_template 0 (f ++ upload_suffix) = inl e) \/
    (select_func juan = inr (Some f) /\ parse_template 1 (f ++ select_suffix) = inl e) \/
    (browse_func juan = inr (Some f) /\ parse_template 1 (f ++ browse_suffix) = inl e).
Proof.
  unfold pipeline. destruct (step1_ok eeg) as [e1 ->]. cbn [sbind].
  destruct (step2_ok e1) as [e2 ->]. cbn [sbind]. destruct (step3 juan e2) as [e3|e3] eqn:E3; cbn [sbind].
  { intros [= <-]. apply when_found_err in E3 as (f & Hf & Hs); [|apply upload_func_ok].
    exists f. left. split; [done|]. exact (py_sub_err _ _ _ _ _ _ _ _ compile_upload_pattern Hs). }
  destruct (step4 juan e3) as [e4|e4] eqn:E4; cbn [sbind].
  { intros [= <-]. apply when_found_err in E4 as (f & Hf & Hs); [|apply select_func_ok].
    exists f. right; left. split; [done|].
    exact (py_sub_err _ _ _ _ _ _ _ _ compile_start_processing_pattern Hs). }
  destruct (step5 juan e4) as [e5|e5] eqn:E5; cbn [sbind].
  { intros [= <-]. apply when_found_err in E5 as (f & Hf & Hs); [|apply browse_func_ok].
    exists f. right; right. split; [done|].
    exact (py_sub_err _ _ _ _ _ _ _ _ compile_browse_sub_pattern Hs). }
  destruct (step6_ok e5) as [e6 ->]. done.
Qed.

(** * Witnesses *)

Lemma step3_dotall_as_count_witness :
  one_line_span upload_head upload_tail ex_eeg = false /\
  step3 ex_juan ex_eeg = template_checked (upload_func ex_juan) upload_suffix 0 ex_eeg.
Proof.
  assert (one_line_span upload_head upload_tail ex_eeg = false) as H by (vm_compute; reflexivity).
  split; [exact H|apply (step3_dotall_as_count _ _ H)].
Defined.


Lemma step5_dotall_as_count_witness :
  one_line_span browse_head browse_tail ex_eeg = false /\
  step5 ex_juan ex_eeg = template_checked (browse_func ex_juan) browse_suffix 1 ex_eeg.
Proof.
  assert (one_line_span browse_head browse_tail ex_eeg = false) as H by (vm_compute; reflexivity).
  split; [exact H|apply (step5_dotall_as_count _ _ H)].
Defined.

Lemma step4_inserts_witness :
  select_func ex_juan = inr (Some (txt "function selectEventsManually(app)
            pick(app);
        end")) /\
  step4 ex_juan ex_eeg =
  inr (replace start_processing_text
         (txt "function selectEventsManually(app)
            pick(app);
        end" ++ forward_text ++ start_processing_text) ex_eeg).
Proof.
  assert (select_func ex_juan = inr (Some (txt "function selectEventsManually(app)
            pick(app);
        end"))) as H by (vm_compute; reflexivity).
  split; [exact H|]. apply (step4_inserts _ _ _ H).
  apply (bool_decide_unpack _). vm_compute. exact I.
Defined.

Lemma step4_donor_escapes_witness :
  step4 ex_juan_esc ex_eeg =
  inr (replace start_processing_text
         ((txt "function selectEventsManually(app)
            fprintf('picked" ++ LF :: txt "');
        end") ++ forward_text ++ start_processing_text) ex_eeg) /\
  step4 ex_juan_bad ex_eeg = inl ReError.
Proof.
  split.
  - assert (BS ∉ txt "function selectEventsManually(app)
            fprintf('picked") as Ha by (apply (bool_decide_unpack _); vm_compute; exact I).
    assert (BS ∉ txt "');
        end") as Hb by (apply (bool_decide_unpack _); vm_compute; exact I).
    assert (select_func ex_juan_esc = inr (Some (txt "function selectEventsManually(app)
            fprintf('picked" ++ BS :: "n"%char :: txt "');
        end"))) as Hf
      by (vm_compute; reflexivity).
    destruct (step4_donor_escapes ex_juan_esc ex_eeg _ _ _ Ha Hf) as [H _].
    exact (H LF eq_refl Hb).
  - assert (BS ∉ txt "function selectEventsManually(app)
            n = regexp(s, '") as Ha by (apply (bool_decide_unpack _); vm_compute; exact I).
    assert (select_func ex_juan_bad = inr (Some (txt "function selectEventsManually(app)
            n = regexp(s, '" ++ BS :: "d"%char :: txt "+');
        end"))) as Hf
      by (vm_compute; reflexivity).
    destruct (step4_donor_escapes ex_juan_bad ex_eeg _ _ _ Ha Hf) as [_ H].
    exact (H eq_refl ltac:(discriminate) eq_refl).
Defined.

Lemma step4_not_idempotent_witness :
  exists out, step4 ex_juan ex_eeg = inr out /\
  contains start_processing_text out = true /\ length ex_eeg < length out /\
  exists out', step4 ex_juan out = inr out' /\ length out < length out'.
Proof.
  assert (select_func ex_juan = inr (Some (txt "function selectEventsManually(app)
            pick(app);
        end"))) as Hf by (vm_compute; reflexivity).
  assert (BS ∉ txt "function selectEventsManually(app)
            pick(app);
        end") as Hg by (apply (bool_decide_unpack _); vm_compute; exact I).
  assert (contains start_processing_text ex_eeg = true) as Hc by (vm_compute; reflexivity).
  eexists. split; [vm_compute; reflexivity|].
  apply (step4_not_idempotent ex_juan ex_eeg _ _ Hf Hg Hc). vm_compute. reflexivity.
Defined.

Lemma update_gui_nothing_found_witness :
  update_gui_workflow (<[JUAN_PATH := txt "x"]> {[EEG_PATH := txt "y"]}) =
  (inr tt, <[EEG_PATH := translate_newlines (txt "y")]> (<[JUAN_PATH := txt "x"]> {[EEG_PATH := txt "y"]})).
Proof. apply (update_gui_nothing_found _ _ (txt "x")); vm_compute; reflexivity. Defined.

Lemma pipeline_errors_witness :
  exists f,
    (upload_func ex_juan_bad = inr (Some f) /\ parse_template 0 (f ++ upload_suffix) = inl ReError) \/
    (select_func ex_juan_bad = inr (Some f) /\ parse_template 1 (f ++ select_suffix) = inl ReError) \/
    (browse_func ex_juan_bad = inr (Some f) /\ parse_template 1 (f ++ browse_suffix) = inl ReError).
Proof. apply (pipeline_errors ex_juan_bad ex_eeg ReError). vm_compute. reflexivity. Defined.

End UpdateGui.
