(* ===== verification/BrowseLoop.v ===== *)
(** * The marker loop of [src/fix_browse_function.py] as a transition system

    Lines 12-17 of the script:
<<
    for i, line in enumerate(lines):
        if 'function browseFile(app)' in line and browse_start is None:
            browse_start = i
        if 'function detectMarkersFromField(app)' in line:
            detect_markers_start = i
            break
>>
    A configuration is the loop counter, the lines not yet visited, the two
    loop variables ([scan_state]) and whether the loop has left by [break].
    [loop_step] takes one iteration ([scan_body]): the rule [step_continue]
    when the body does not break, [step_break] when it does.  The
    invariant [loop_inv] says what the loop variables mean at every
    reachable configuration; it is proved by induction on the reflexive
    transitive closure [rtc loop_step].  The loop always reaches a final
    configuration, after exactly [stop_cut lines] iterations (one past
    the first stop line, or all the lines), and the loop variables there
    are the first start line among those visited and the first stop
    line. *)

From S2P Require Import Prelude PyStr Splice FixBrowse.

Module BrowseLoop.
Import PyStr Splice FixBrowse.

Record config := Config {
  c_index : nat;
  c_rest : list str;
  c_state : scan_state;
  c_broken : bool
}.

(** [for i, line in enumerate(lines)] before its first iteration. *)
Definition init (lines : list str) : config :=
  Config 0 lines (ScanState None None) false.

(** One iteration of the loop body. *)
Inductive loop_step : config -> config -> Prop :=
  | step_continue i line rest st st' :
      scan_body i line st = (st', false) ->
      loop_step (Config i (line :: rest) st false) (Config (S i) rest st' false)
  | step_break i line rest st st' :
      scan_body i line st = (st', true) ->
      loop_step (Config i (line :: rest) st false) (Config (S i) rest st' true).

(** The loop has ended: by [break] or because the lines are exhausted. *)
Definition final (c : config) : bool := c_broken c || bool_decide (c_rest c = []).

(** Line [j] of [lines] contains [m]. *)
Definition marks_at (m : str) (lines : list str) (j : nat) : Prop :=
  exists l, lines !! j = Some l /\ contains m l = true.

(** No line before index [n] contains [m]. *)
Definition none_before (m : str) (lines : list str) (n : nat) : Prop :=
  forall j, j < n -> ~ marks_at m lines j.

(** What the loop variables mean after the iterations done so far. *)
Definition loop_inv (lines : list str) (c : config) : Prop :=
  c_rest c = drop (c_index c) lines /\
  c_index c <= length lines /\
  match browse_start (c_state c) with
  | Some b => b < c_index c /\ marks_at browse_marker lines b /\ none_before browse_marker lines b
  | None => none_before browse_marker lines (c_index c)
  end /\
  match detect_markers_start (c_state c) with
  | Some d => c_broken c = true /\ S d = c_index c /\ marks_at detect_marker lines d /\
              none_before detect_marker lines d
  | None => c_broken c = false /\ none_before detect_marker lines (c_index c)
  end.

(** * Lemmas *)

Lemma loop_step_det c c1 c2 : loop_step c c1 -> loop_step c c2 -> c1 = c2.
Proof. intros H1 H2. destruct H1; invc H2; congruence. Qed.

(** A configuration steps exactly when it is not final. *)
Lemma loop_progress c : final c = false <-> exists c', loop_step c c'.
Proof.
  destruct c as [i [|line rest] st [|]]; unfold final; simpl.
  - split; [done|]. intros [c' H]. inversion H.
  - split; [done|]. intros [c' H]. inversion H.
  - split; [done|]. intros [c' H]. inversion H.
  - split; [intros _|done].
    destruct (scan_body i line st) as [st' [|]] eqn:E; eexists; by constructor.
Qed.

Lemma drop_cons_lookup (lines : list str) i line rest :
  line :: rest = drop i lines ->
  lines !! i = Some line /\ rest = drop (S i) lines /\ i < length lines.
Proof.
  intros H. assert (drop i lines !! 0 = Some line) as H0 by (rewrite <- H; done).
  rewrite lookup_drop, Nat.add_0_r in H0. split; [done|]. split.
  - replace (S i) with (i + 1) by lia. by rewrite <- drop_drop, <- H.
  - by apply lookup_lt_Some in H0.
Qed.

Lemma none_before_S m lines n l :
  none_before m lines n -> lines !! n = Some l -> contains m l = false ->
  none_before m lines (S n).
Proof.
  intros Hn Hl Hc j Hj (l' & Hl' & Hm). destruct (decide (j = n)) as [->|].
  - congruence.
  - apply (Hn j); [lia|]. by exists l'.
Qed.

#[export] Hint Resolve none_before_S : pyspec.

Lemma loop_inv_init lines : loop_inv lines (init lines).
Proof. repeat split; simpl; try lia; intros j Hj; lia. Qed.

(** One iteration keeps the invariant. *)
Lemma loop_inv_step lines c c' : loop_inv lines c -> loop_step c c' -> loop_inv lines c'.
Proof.
  intros (Hrest & Hlen & Hb & Hd) Hs.
  destruct Hs as [i line rest st st' E|i line rest st st' E]; simpl in *;
    destruct (drop_cons_lookup _ _ _ _ Hrest) as (Hl & -> & Hi);
    (destruct (detect_markers_start st) as [d|] eqn:Hds; [by destruct Hd as [[=] _]|]);
    destruct Hd as [_ Hd]; unfold scan_body in E; rewrite ?Hds in E;
    destruct (contains browse_marker line) eqn:Hbm, (browse_start st) as [b|] eqn:Hbs;
    destruct (contains detect_marker line) eqn:Hdm; simpl in E; simplify_eq;
    unfold loop_inv; simpl; rewrite ?Hbs, ?Hds; split_and?;
    try lia; try done; try (by exists line); eauto with pyspec;
    destruct Hb as (? & ? & ?); done || lia.
Qed.

(** Every configuration reachable from one satisfying the invariant
    satisfies it. *)
Lemma loop_inv_rtc lines c0 c : rtc loop_step c0 c -> loop_inv lines c0 -> loop_inv lines c.
Proof.
  induction 1 as [c0|c0 c1 c2 H01 _ IH]; [done|]. intros H0.
  apply IH. by apply (loop_inv_step _ c0).
Qed.

(** The body breaks exactly on a line holding the stop marker. *)
Lemma scan_body_break i line st : (scan_body i line st).2 = contains detect_marker line.
Proof. unfold scan_body. by destruct (contains detect_marker line). Qed.

(** The loop visits at most all the lines. *)
Lemma stop_cut_le lines : stop_cut lines <= length lines.
Proof.
  unfold stop_cut. destruct (find_from detect_marker 0 lines) eqn:E; [|lia].
  apply find_from_lt in E. lia.
Qed.

(** The run of [scan] as a sequence of steps of the transition system,
    one per line up to the first stop line. *)
Lemma scan_nsteps i rest st :
  exists c, nsteps loop_step (stop_cut rest) (Config i rest st false) c /\
            final c = true /\ c_state c = scan i rest st.
Proof.
  revert i st. induction rest as [|line rest IH]; intros i st.
  { exists (Config i [] st false). by repeat constructor. }
  rewrite stop_cut_cons. pose proof (scan_body_break i line st) as Hb. cbn [scan].
  destruct (scan_body i line st) as [st' [|]] eqn:E; cbn [snd] in Hb; rewrite <- Hb.
  - exists (Config (S i) rest st' true). split; [|done].
    eapply nsteps_l; [by constructor|]. constructor.
  - destruct (IH (S i) st') as (c & Hs & Hf & Hc).
    exists c. split; [|done]. eapply nsteps_l; [by constructor|done].
Qed.

(** A three-line file: a header, the start line and the stop line. *)
Definition ex_lines : list str :=
  [txt "x"; txt "        function browseFile(app)"; txt "        function detectMarkersFromField(app)"].

(** * Properties of the loop *)

(** (C27) Invariant of the loop: at every configuration reachable from the
    start, the unvisited lines are [lines[i:]]; [browse_start], once set,
    is the first line containing the start marker, and while unset no
    visited line contains it; [detect_markers_start] is set only by the
    [break], to the first line containing the stop marker, and while it
    is unset no visited line contains that marker.  In particular the
    recorded start line is never after the recorded stop line. *)
Theorem loop_invariant lines c :
  rtc loop_step (init lines) c ->
  loop_inv lines c /\
  forall b d, browse_start (c_state c) = Some b -> detect_markers_start (c_state c) = Some d ->
    b <= d.
Proof.
  intros Hr. assert (loop_inv lines c) as Hinv
    by (eapply loop_inv_rtc; [done|apply loop_inv_init]).
  split; [done|]. intros b d Hb Hd. destruct Hinv as (_ & _ & Hbi & Hdi).
  rewrite Hb in Hbi. rewrite Hd in Hdi. lia.
Qed.

(** (C28) The loop terminates: from the start it takes exactly
    [stop_cut lines] iterations -- one past the first line holding the
    stop marker, or one per line when there is none, so never more than
    the number of lines -- and reaches a configuration where it has
    broken out or run out of lines, with no further step possible.  There
    [browse_start] is the first start line among the visited lines and
    [detect_markers_start] the first stop line. *)
Theorem loop_terminates lines :
  stop_cut lines <= length lines /\
  exists c, nsteps loop_step (stop_cut lines) (init lines) c /\
    final c = true /\ (forall c', ~ loop_step c c') /\
    c_state c = ScanState (find_from browse_marker 0 (take (stop_cut lines) lines))
                          (find_from detect_marker 0 lines).
Proof.
  split; [apply stop_cut_le|].
  destruct (scan_nsteps 0 lines (ScanState None None)) as (c & Hs & Hf & Hc).
  exists c. split; [done|]. split; [done|]. split; [|by rewrite Hc, scan_closed].
  intros c' Hc'. assert (final c = false) as Hnf by (apply loop_progress; by exists c').
  congruence.
Qed.

(** * Witnesses *)

Lemma loop_invariant_witness :
  loop_inv ex_lines (Config 3 [] (ScanState (Some 1) (Some 2)) true) /\
  forall b d, browse_start (ScanState (Some 1) (Some 2)) = Some b ->
    detect_markers_start (ScanState (Some 1) (Some 2)) = Some d -> b <= d.
Proof.
  apply (loop_invariant ex_lines (Config 3 [] (ScanState (Some 1) (Some 2)) true)).
  eapply rtc_l; [apply step_continue; reflexivity|].
  eapply rtc_l; [apply step_continue; reflexivity|].
  eapply rtc_l; [apply step_break; reflexivity|].
  apply rtc_refl.
Defined.

End BrowseLoop.
