(* ===== verification/Safety.v ===== *)
(** * Safety of the scripts with respect to the file store

    Three properties of a [PyM] computation, each closed under [pbind]:
    [read_only] (the store is never changed), [writes_within P] (only the
    paths satisfying [P] may change) and [all_or_nothing] (an exception
    leaves the store as it was: nothing is written before a failure, the
    propagation policy of spec section 7).  The composition lemmas are
    hints of [pyspec], so that each script's safety is proved by
    unfolding it and running [eauto]. *)

From S2P Require Import Prelude PyStr PyIO FixBrowse FixUpload UpdateGui.
Import PyNotations.
Local Open Scope py_scope.

Module Safety.
Import PyIO FixBrowse FixUpload UpdateGui.

(** [m] never changes the store. *)
Definition read_only {A} (m : PyM A) : Prop := forall fs, (m fs).2 = fs.

(** [m] changes no path outside [P]. *)
Definition writes_within {A} (P : string -> Prop) (m : PyM A) : Prop :=
  forall fs p, ~ P p -> (m fs).2 !! p = fs !! p.

(** An exception raised by [m] leaves the store unchanged. *)
Definition all_or_nothing {A} (m : PyM A) : Prop :=
  forall fs e fs', m fs = (inl e, fs') -> fs' = fs.

(** * Composition lemmas *)

Section Rules.
Context {A B : Type}.
Implicit Types (m : PyM A) (k : A -> PyM B).

Lemma read_only_pret (x : A) : read_only (pret x).
Proof. done. Qed.

Lemma read_only_praise e : read_only (praise (A := A) e).
Proof. done. Qed.

Lemma read_only_pbind m k :
  read_only m -> (forall x, read_only (k x)) -> read_only (pbind m k).
Proof.
  intros Hm Hk fs. unfold pbind. specialize (Hm fs).
  destruct (m fs) as [[e|x] fs']; simpl in *; [done|]. by rewrite Hk.
Qed.

Lemma writes_within_read_only P m : read_only m -> writes_within P m.
Proof. intros Hm fs p _. by rewrite Hm. Qed.

Lemma writes_within_pbind P m k :
  writes_within P m -> (forall x, writes_within P (k x)) -> writes_within P (pbind m k).
Proof.
  intros Hm Hk fs p Hp. unfold pbind. specialize (Hm fs p Hp).
  destruct (m fs) as [[e|x] fs']; simpl in *; [done|]. by rewrite Hk.
Qed.

Lemma all_or_nothing_read_only m : read_only m -> all_or_nothing m.
Proof. intros Hm fs e fs' E. specialize (Hm fs). rewrite E in Hm. done. Qed.

(** A failure-free first step may write only when it is the last one:
    after a read-only step, the rest decides. *)
Lemma all_or_nothing_pbind m k :
  read_only m -> (forall x, all_or_nothing (k x)) -> all_or_nothing (pbind m k).
Proof.
  intros Hm Hk fs e fs' E. unfold pbind in E. specialize (Hm fs).
  destruct (m fs) as [[e'|x] fs'']; simpl in *; subst; [by simplify_eq|].
  by apply (Hk x _ e).
Qed.
End Rules.

Lemma read_only_read_file path : read_only (read_file path).
Proof. intros fs. unfold read_file. by case_match. Qed.

Lemma read_only_readlines_file path : read_only (readlines_file path).
Proof.
  apply read_only_pbind; [apply read_only_read_file|]. intros x. apply read_only_pret.
Qed.

Lemma writes_within_write_file (P : string -> Prop) path text :
  P path -> writes_within P (write_file path text).
Proof. intros Hp fs p Hnp. simpl. rewrite lookup_insert_ne; [done|]. by intros ->. Qed.

Lemma writes_within_writelines_file (P : string -> Prop) path lines :
  P path -> writes_within P (writelines_file path lines).
Proof. apply writes_within_write_file. Qed.

Lemma all_or_nothing_write_file path text : all_or_nothing (write_file path text).
Proof. by intros fs e fs' E. Qed.

Lemma all_or_nothing_writelines_file path lines : all_or_nothing (writelines_file path lines).
Proof. apply all_or_nothing_write_file. Qed.

#[export] Hint Resolve read_only_pret read_only_praise read_only_pbind
  read_only_read_file read_only_readlines_file
  writes_within_read_only writes_within_pbind writes_within_write_file
  writes_within_writelines_file
  all_or_nothing_read_only all_or_nothing_pbind
  all_or_nothing_write_file all_or_nothing_writelines_file : pyspec.
#[export] Hint Extern 4 => progress cbv zeta : pyspec.
#[export] Hint Extern 5 => case_match : pyspec.
#[export] Hint Extern 1 (_ = _) => reflexivity : pyspec.

(** * The scripts *)

(** (C24) [fix_browse_function.py] changes no file but the destination,
    and when it raises the store is exactly as before: a missing marker
    aborts before the write. *)
Theorem fix_browse_safe :
  writes_within (eq EEG_PATH) fix_browse_function /\ all_or_nothing fix_browse_function.
Proof. unfold fix_browse_function. split; eauto 10 with pyspec. Qed.

(** (C25) [fix_upload_panel.py] changes no file but the destination, and a
    missing input file aborts it before the write. *)
Theorem fix_upload_safe :
  writes_within (eq EEG_PATH) fix_upload_panel /\ all_or_nothing fix_upload_panel.
Proof. unfold fix_upload_panel. split; eauto 10 with pyspec. Qed.

(** (C26) [update_gui_workflow.py] changes no file but the destination,
    and an exception in any of the six steps (an invalid template) aborts
    it before the single write: there is no partial result on disk. *)
Theorem update_gui_safe :
  writes_within (eq EEG_PATH) update_gui_workflow /\ all_or_nothing update_gui_workflow.
Proof. unfold update_gui_workflow. split; eauto 10 with pyspec. Qed.

End Safety.
