(* ===== verification/Report.v ===== *)
(** * The scripts with their progress reports

    The three scripts as they run, [print] calls included, in the [PyW]
    monad of [Output.v]: [fix_browse_main] ([src/fix_browse_function.py],
    the whole module), [fix_upload_main] ([src/fix_upload_panel.py]) and
    [update_gui_main] ([src/update_gui_workflow.py]).  Each is the [PyM]
    model of its script with the [print]s put back where the source has
    them; the f-strings are rendered with [str_of_nat], and the check mark
    U+2705 of the messages is written as its UTF-8 bytes.

    The theorems show what each script prints on each branch, including
    the messages printed before an exception, and what the printed counts
    say against what the scripts do. *)

From S2P Require Import Prelude PyStr PyIO Splice FixBrowse FixUpload PyRe PySub UpdateGui Output.
Import Output.PyWNotations.
Local Open Scope pyw_scope.

Module Report.
Import PyStr PyIO Splice FixBrowse FixUpload UpdateGui Output.

(** The character U+2705 in UTF-8. *)
Definition check_mark : str := [Ascii.ascii_of_nat 226; Ascii.ascii_of_nat 156; Ascii.ascii_of_nat 133].

(** [print] each message in turn. *)
Definition report (ms : list str) : PyW unit :=
  foldr (fun m k => print m ;;; k) (wret tt) ms.

(** ** [src/fix_browse_function.py] *)

Definition found_browse_msg (b : nat) : str :=
  txt "Found browseFile at line " ++ str_of_nat (b + 1).

Definition found_detect_msg (d : nat) : str :=
  txt "Found detectMarkersFromField at line " ++ str_of_nat (d + 1).

(** Lines 64-66, after the write. *)
Definition browse_done_msgs (b d : nat) : list str :=
  [check_mark ++ txt " browseFile function replaced!";
   txt "   Removed " ++ str_of_nat (d - b) ++ txt " old lines (browseFile + loadFileInfo)";
   txt "   Added simple browseFile from JuanAnalyzer"].

(** The whole script: [browse_start + 1] raises [TypeError] on [None]
    before anything is printed by that line. *)
Definition fix_browse_main : PyW unit :=
  lines <- lift (readlines_file EEG_PATH) ;;
  let st := scan 0 lines (ScanState None None) in
  match browse_start st with
  | None => wraise TypeError
  | Some b =>
      print (found_browse_msg b) ;;;
      match detect_markers_start st with
      | None => wraise TypeError
      | Some d =>
          print (found_detect_msg d) ;;;
          lift (writelines_file EEG_PATH (take b lines ++ [juan_browse] ++ drop d lines)) ;;;
          report (browse_done_msgs b d)
      end
  end.

(** ** [src/fix_upload_panel.py] *)

(** [juan_upload_lines]: the re-split customized donor block. *)
Definition upload_block (juan_lines : list str) : list str :=
  let juan_upload := slice 105 188 juan_lines in
  relines (customize (join juan_upload)).

(** Lines 32-34. *)
Definition upload_done_msgs (added : nat) : list str :=
  [check_mark ++ txt " createUploadPanel function replaced successfully!";
   txt "   Removed " ++ str_of_nat (352 - 157) ++ txt " old lines";
   txt "   Added " ++ str_of_nat added ++ txt " new lines"].

Definition fix_upload_main : PyW unit :=
  eeg_lines <- lift (readlines_file EEG_PATH) ;;
  juan_lines <- lift (readlines_file JUAN_PATH) ;;
  lift (writelines_file EEG_PATH (new_lines eeg_lines juan_lines)) ;;;
  report (upload_done_msgs (length (upload_block juan_lines))).

(** ** [src/update_gui_workflow.py] *)

(** Lines 165-173, after the write. *)
Definition update_gui_banner : list str :=
  [LF :: check_mark ++ txt " EEGQualityAnalyzer.m updated successfully!";
   LF :: txt "Changes made:";
   txt "  - Replaced upload screen properties with JuanAnalyzer's simple interface";
   txt "  - Added SelectedEvents and SelectedFields properties";
   txt "  - Replaced createUploadPanel with JuanAnalyzer's version";
   txt "  - Added selectEventsManually function (2-step event selection)";
   txt "  - Updated browseFile to enable event selection";
   txt "  - Updated processEEG Stage 6 to use epochEEGByEventsUniversal";
   LF :: txt "The GUI should now match JuanAnalyzer's workflow exactly!"].

(** Lines 16-173 once both files are read: one [print] before each step,
    the write, the banner. *)
Definition update_gui_body (juan eeg : str) : PyW unit :=
  print (txt "Updating EEGQualityAnalyzer to match JuanAnalyzer workflow...") ;;;
  print (txt "1. Replacing upload screen properties...") ;;;
  e1 <- of_sum (step1 eeg) ;;
  print (txt "2. Adding SelectedEvents and SelectedFields properties...") ;;;
  e2 <- of_sum (step2 e1) ;;
  print (txt "3. Replacing createUploadPanel function...") ;;;
  e3 <- of_sum (step3 juan e2) ;;
  print (txt "4. Adding selectEventsManually function...") ;;;
  e4 <- of_sum (step4 juan e3) ;;
  print (txt "5. Updating browseFile function...") ;;;
  e5 <- of_sum (step5 juan e4) ;;
  print (txt "6. Updating processEEG to use selected events...") ;;;
  e6 <- of_sum (step6 e5) ;;
  print (txt "7. Writing updated file...") ;;;
  lift (write_file EEG_PATH e6) ;;;
  report update_gui_banner.

(** The whole script: the two reads, then the steps. *)
Definition update_gui_main : PyW unit :=
  eeg <- lift (read_file EEG_PATH) ;;
  juan <- lift (read_file JUAN_PATH) ;;
  update_gui_body juan eeg.

(** Everything a successful run prints, in order. *)
Definition update_gui_transcript : list str :=
  [txt "Updating EEGQualityAnalyzer to match JuanAnalyzer workflow...";
   txt "1. Replacing upload screen properties...";
   txt "2. Adding SelectedEvents and SelectedFields properties...";
   txt "3. Replacing createUploadPanel function...";
   txt "4. Adding selectEventsManually function...";
   txt "5. Updating browseFile function...";
   txt "6. Updating processEEG to use selected events...";
   txt "7. Writing updated file..."] ++ update_gui_banner.

(** * Lemmas *)

Lemma report_run ms fs : report ms fs = (inr tt, fs, ms).
Proof.
  induction ms as [|m ms IH]; [done|]. simpl. unfold wbind at 1. simpl.
  rewrite IH. done.
Qed.

Lemma output_report ms fs : output (report ms) fs = ms.
Proof. unfold output. by rewrite report_run. Qed.

Lemma result_report ms fs : result (report ms) fs = inr tt.
Proof. unfold result. by rewrite report_run. Qed.


(** * What the scripts print *)

(** (C12) What [fix_browse_function.py] prints, on every branch: nothing
    when no start line is found (the f-string [browse_start + 1] raises
    first), only the start line when the stop line is missing, and
    otherwise both 1-based line numbers and the three closing messages.
    The count it reports, [detect_markers_start - browse_start], never
    goes negative, so the subtraction on [nat] is Python's, and it is the
    number of lines the write removes. *)
Theorem fix_browse_report fs raw :
  fs !! EEG_PATH = Some raw ->
  output fix_browse_main fs =
    match find_from browse_marker 0 (take (stop_cut (text_lines raw)) (text_lines raw)),
          find_from detect_marker 0 (text_lines raw) with
    | Some b, Some d =>
        [txt "Found browseFile at line " ++ str_of_nat (S b);
         txt "Found detectMarkersFromField at line " ++ str_of_nat (S d);
         check_mark ++ txt " browseFile function replaced!";
         txt "   Removed " ++ str_of_nat (d - b) ++ txt " old lines (browseFile + loadFileInfo)";
         txt "   Added simple browseFile from JuanAnalyzer"]
    | Some b, None => [txt "Found browseFile at line " ++ str_of_nat (S b)]
    | None, _ => []
    end /\
  forall b d,
    find_from browse_marker 0 (take (stop_cut (text_lines raw)) (text_lines raw)) = Some b ->
    find_from detect_marker 0 (text_lines raw) = Some d ->
    b <= d /\
    d - b = length (text_lines raw) - length (take b (text_lines raw) ++ drop d (text_lines raw)).
Proof.
  intros Hraw. split.
  - unfold fix_browse_main. wstep (lift_ok _ _ _ _ _ (readlines_file_ok _ _ _ Hraw)).
    cbv zeta. rewrite scan_closed. cbn [browse_start detect_markers_start].
    destruct (find_from browse_marker _ _) as [b|]; [|done]. rewrite output_print_then.
    destruct (find_from detect_marker _ _) as [d|];
      [|unfold found_browse_msg; by rewrite Nat.add_1_r]. rewrite output_print_then.
    erewrite output_lift_fst by reflexivity.
    rewrite output_report. unfold found_browse_msg, found_detect_msg. by rewrite !Nat.add_1_r.
  - intros b d Hb Hd. pose proof (browse_before_detect _ _ _ Hd Hb). apply find_from_lt in Hd.
    rewrite length_app, length_take, length_drop. split; lia.
Qed.

(** (C9) What [fix_upload_panel.py] reports against what it does: it
    prints the three closing messages with the constant [352 - 157] and
    the number of block lines; the lines [eeg_lines[157:352]] it actually
    removes number [195] exactly when the destination has at least 352
    lines, and it inserts one line more than it reports, the blank line
    after the block. *)
Theorem fix_upload_report fs raw_eeg raw_juan :
  fs !! EEG_PATH = Some raw_eeg -> fs !! JUAN_PATH = Some raw_juan ->
  output fix_upload_main fs =
    [check_mark ++ txt " createUploadPanel function replaced successfully!";
     txt "   Removed 195 old lines";
     txt "   Added " ++ str_of_nat (length (upload_block (text_lines raw_juan))) ++ txt " new lines"] /\
  (length (slice 157 352 (text_lines raw_eeg)) = 352 - 157 <-> 352 <= length (text_lines raw_eeg)) /\
  length (new_lines (text_lines raw_eeg) (text_lines raw_juan)) +
    length (slice 157 352 (text_lines raw_eeg)) =
  length (text_lines raw_eeg) + S (length (upload_block (text_lines raw_juan))).
Proof.
  intros He Hj. destruct (fix_upload_removed_lines (text_lines raw_eeg) (text_lines raw_juan)) as [Hl Hr].
  split; [|split; [done|unfold upload_block; lia]].
  unfold fix_upload_main. wstep (lift_ok _ _ _ _ _ (readlines_file_ok _ _ _ He)).
  wstep (lift_ok _ _ _ _ _ (readlines_file_ok _ _ _ Hj)).
  erewrite output_lift_fst by reflexivity.
  rewrite output_report. reflexivity.
Qed.

Lemma length_update_gui_transcript : length update_gui_transcript = 17.
Proof. reflexivity. Qed.

(** Step past [x <- of_sum r ;; k] once [H : r = ...] gives its result;
    [r] is rewritten first, so that matching never unfolds the step. *)
Ltac sum_step H :=
  rewrite H;
  first [wstep (of_sum_ok _ _ _ _ eq_refl)
        |rewrite (proj1 (of_sum_err _ _ _ _ eq_refl)), (proj2 (of_sum_err _ _ _ _ eq_refl))].

(** The output and result of the steps, as a function of the results of
    the three steps that may raise. *)
Lemma update_gui_body_run juan eeg fs :
  exists e2,
    sbind (step1 eeg) step2 = inr e2 /\
    match step3 juan e2 with
    | inl e => output (update_gui_body juan eeg) fs = take 4 update_gui_transcript /\
               result (update_gui_body juan eeg) fs = inl e
    | inr e3 =>
        match step4 juan e3 with
        | inl e => output (update_gui_body juan eeg) fs = take 5 update_gui_transcript /\
                   result (update_gui_body juan eeg) fs = inl e
        | inr e4 =>
            match step5 juan e4 with
            | inl e => output (update_gui_body juan eeg) fs = take 6 update_gui_transcript /\
                       result (update_gui_body juan eeg) fs = inl e
            | inr e5 => output (update_gui_body juan eeg) fs = update_gui_transcript /\
                        result (update_gui_body juan eeg) fs = inr tt
            end
        end
    end.
Proof.
  destruct (step1_ok eeg) as [e1 H1]. destruct (step2_ok e1) as [e2 H2].
  exists e2. split; [by rewrite H1|].
  destruct (step3 juan e2) as [e|e3] eqn:H3;
    [|destruct (step4 juan e3) as [e|e4] eqn:H4; [|destruct (step5 juan e4) as [e|e5] eqn:H5]];
    cbv iota; unfold update_gui_body; rewrite !output_print_then, !result_print_then;
    sum_step H1; rewrite !output_print_then, !result_print_then;
    sum_step H2; rewrite !output_print_then, !result_print_then;
    [sum_step H3; split; reflexivity|sum_step H3..]; rewrite !output_print_then, !result_print_then;
    [sum_step H4; split; reflexivity|sum_step H4..]; rewrite !output_print_then, !result_print_then;
    [sum_step H5; split; reflexivity|sum_step H5].
  rewrite !output_print_then, !result_print_then. destruct (step6_ok e5) as [e6 H6].
  sum_step H6. rewrite !output_print_then, !result_print_then.
  erewrite output_lift_fst, result_lift_fst by reflexivity.
  rewrite output_report, result_report. split; reflexivity.
Qed.

Lemma update_gui_main_run fs raw_eeg raw_juan :
  fs !! EEG_PATH = Some raw_eeg -> fs !! JUAN_PATH = Some raw_juan ->
  output update_gui_main fs = output (update_gui_body (translate_newlines raw_juan) (translate_newlines raw_eeg)) fs /\
  result update_gui_main fs = result (update_gui_body (translate_newlines raw_juan) (translate_newlines raw_eeg)) fs.
Proof.
  intros He Hj. unfold update_gui_main. wstep (lift_ok _ _ _ _ _ (read_file_ok _ _ _ He)).
  wstep (lift_ok _ _ _ _ _ (read_file_ok _ _ _ Hj)). done.
Qed.

(** (C21) Order of the progress reports of [update_gui_workflow.py]:
    whatever the store, what the script prints is a prefix of its full
    transcript; it prints the whole transcript, the header of step 7
    ("Writing updated file") and the list of changes made included,
    exactly when it succeeds, whether or not any step found its block;
    and when it fails it stops either before printing anything (a
    missing file) or right after the header of step 3, 4 or 5, the only
    steps that can raise. *)
Theorem update_gui_report fs :
  exists n, output update_gui_main fs = take n update_gui_transcript /\
    (result update_gui_main fs = inr tt <-> n = length update_gui_transcript) /\
    (n < length update_gui_transcript -> n = 0 \/ 4 <= n <= 6).
Proof.
  rewrite length_update_gui_transcript.
  destruct (fs !! EEG_PATH) as [raw_eeg|] eqn:He.
  2: { exists 0. unfold update_gui_main. wstep (lift_err _ _ _ _ _ (read_file_missing _ _ He)).
       split_and!; [done|split; [discriminate|lia]|lia]. }
  destruct (fs !! JUAN_PATH) as [raw_juan|] eqn:Hj.
  2: { exists 0. unfold update_gui_main. wstep (lift_ok _ _ _ _ _ (read_file_ok _ _ _ He)).
       wstep (lift_err _ _ _ _ _ (read_file_missing _ _ Hj)).
       split_and!; [done|split; [discriminate|lia]|lia]. }
  wstep (update_gui_main_run _ _ _ He Hj).
  destruct (update_gui_body_run (translate_newlines raw_juan) (translate_newlines raw_eeg) fs)
    as (e2 & _ & Hs).
  repeat case_match; destruct Hs as [Ho Hr]; rewrite Ho, Hr;
    [exists 4|exists 5|exists 6|exists 17]; (split_and!; [done| |lia]); split; done || lia.
Qed.


(** * Witnesses *)

Lemma fix_browse_report_witness :
  output fix_browse_main {[EEG_PATH := ex_raw]} =
  [txt "Found browseFile at line 2"; txt "Found detectMarkersFromField at line 6";
   check_mark ++ txt " browseFile function replaced!";
   txt "   Removed 4 old lines (browseFile + loadFileInfo)";
   txt "   Added simple browseFile from JuanAnalyzer"].
Proof.
  destruct (fix_browse_report {[EEG_PATH := ex_raw]} ex_raw) as [H _]; [apply lookup_singleton_eq|].
  rewrite H. vm_compute. reflexivity.
Defined.

Lemma fix_upload_report_witness :
  output fix_upload_main FixUpload.ex_store =
  [check_mark ++ txt " createUploadPanel function replaced successfully!";
   txt "   Removed 195 old lines"; txt "   Added 83 new lines"].
Proof.
  destruct (fix_upload_report FixUpload.ex_store FixUpload.ex_eeg FixUpload.ex_juan) as [H _];
    [vm_compute; reflexivity|vm_compute; reflexivity|].
  rewrite H. vm_compute. reflexivity.
Defined.

End Report.
